(** * WikiFit: the Wikimedia adapters and the confidence-gated answer extractor

    A shallow embedding of [wikimedia.py] (the nine source adapters and
    [search_all_wikimedia]) and of [load_qa_pipeline] / [answer_health_question]
    from [app.py], followed by the properties of the specification that are
    settled against it.

    Conventions of the embedding.
    - A Python [str] is a Rocq [string]; one [ascii] stands for one code point
      below U+0100, so [len] is [String.length].
    - The values that [response.json()] can deliver (None, bool, int, float,
      str, list, dict) are the type [value]; a dict is the list of its items in
      insertion order.
    - A Python call either returns or raises: [res A].  Code that talks to the
      network additionally records every request it issues: [io A].
    - [response.json()] returns the decoded body, raises the decoding error
      of [requests] (a [RequestException]) on a body that is not JSON, or lets
      a fault of the decoder through ([ValueError], [RecursionError]).
    - [logging.error] only writes to the log stream and is left out. *)

From Stdlib Require Import ZArith List String Ascii Bool Lia Floats DecimalString.
Import ListNotations.

#[local] Set Warnings "-register-all,-inexact-float".

Local Open Scope string_scope.
Local Open Scope Z_scope.

(** ** Python strings *)

Module PyStr.

(** [str.isspace] on the code points below U+0100: TAB..CR, FS..US, space,
    NEL and NBSP. *)
Definition is_space (c : ascii) : bool :=
  let n := N_of_ascii c in
  (((9 <=? n) && (n <=? 13)) || ((28 <=? n) && (n <=? 32))
   || (n =? 133) || (n =? 160))%N.

(** The whitespace that [int()] tolerates around a literal: the ASCII
    whitespace of C and, above U+007F, what [str.isspace] accepts.  The
    separators FS..US are not among it. *)
Definition is_int_space (c : ascii) : bool :=
  let n := N_of_ascii c in
  (((9 <=? n) && (n <=? 13)) || (n =? 32) || (n =? 133) || (n =? 160))%N.

Section Stripping.
Variable space : ascii -> bool.

Fixpoint lstrip_of (s : string) : string :=
  match s with
  | EmptyString => EmptyString
  | String c s' => if space c then lstrip_of s' else s
  end.

Fixpoint rstrip_of (s : string) : string :=
  match s with
  | EmptyString => EmptyString
  | String c s' =>
      match rstrip_of s' with
      | EmptyString => if space c then EmptyString else String c EmptyString
      | r => String c r
      end
  end.

Definition strip_of (s : string) : string := rstrip_of (lstrip_of s).

End Stripping.

(** [s.strip()] *)
Definition strip (s : string) : string := strip_of is_space s.

Fixpoint starts_with (p s : string) : bool :=
  match p, s with
  | EmptyString, _ => true
  | String a p', String b s' => Ascii.eqb a b && starts_with p' s'
  | String _ _, EmptyString => false
  end.

(** [sub in s] for two strings. *)
Fixpoint str_contains (sub s : string) : bool :=
  starts_with sub s
  || match s with
     | EmptyString => false
     | String _ s' => str_contains sub s'
     end.

(** Left-to-right replacement of the non-overlapping occurrences of a
    non-empty [old]; [skip] counts the characters of a matched occurrence
    that are still to be dropped. *)
Fixpoint replace_from (old new : string) (skip : nat) (s : string) : string :=
  match s with
  | EmptyString => EmptyString
  | String c s' =>
      match skip with
      | S k => replace_from old new k s'
      | O =>
          if starts_with old s
          then new ++ replace_from old new (Nat.pred (String.length old)) s'
          else String c (replace_from old new O s')
      end
  end.

Fixpoint intersperse (new s : string) : string :=
  match s with
  | EmptyString => new
  | String c s' => new ++ String c (intersperse new s')
  end.

(** [s.replace(old, new)] *)
Definition replace (old new s : string) : string :=
  match old with
  | EmptyString => intersperse new s
  | String _ _ => replace_from old new O s
  end.

(** [sep.join(l)] on a list of strings. *)
Fixpoint join (sep : string) (l : list string) : string :=
  match l with
  | [] => EmptyString
  | [x] => x
  | x :: rest => x ++ sep ++ join sep rest
  end.

(** [str(n)] for an int. *)
Definition of_int (n : Z) : string := NilZero.string_of_int (Z.to_int n).

Definition is_digit (c : ascii) : bool :=
  let n := N_of_ascii c in ((48 <=? n) && (n <=? 57))%N.

Definition digit_val (c : ascii) : Z := Z.of_N (N_of_ascii c) - 48.

(** Digits of a decimal literal, underscores allowed singly between digits;
    [after_digit] tells whether the previous character was a digit.
    Returns the value and the number of digits. *)
Fixpoint parse_digits (s : string) (acc : Z) (count : nat) (after_digit : bool)
  : option (Z * nat) :=
  match s with
  | EmptyString => if after_digit then Some (acc, count) else None
  | String c s' =>
      if is_digit c then parse_digits s' (10 * acc + digit_val c) (S count) true
      else if Ascii.eqb c "_" && after_digit then parse_digits s' acc count false
      else None
  end.

(** [int(s)] for a str, base 10: surrounding whitespace, an optional sign,
    then the digits.  [None] is ValueError; CPython (3.11 and later) also
    refuses literals of more than 4300 digits. *)
Definition parse_int (s : string) : option Z :=
  let body sign t :=
    match parse_digits t 0 O false with
    | Some (n, count) => if Nat.leb count 4300 then Some (sign * n) else None
    | None => None
    end in
  match strip_of is_int_space s with
  | String "+" t => body 1 t
  | String "-" t => body (-1) t
  | t => body 1 t
  end.

End PyStr.

(** ** Python values, exceptions and the operations the adapters apply *)

Module Py.

(** The exception classes that can arise in the modelled code.
    [RequestException] stands for what [requests.get] raises on a transport
    failure (connection error, timeout, ...); [JSONDecodeError] is what
    [response.json()] raises on a body that is not JSON: in requests 2.27
    and later it derives from [RequestException].  [ValueError] and
    [RecursionError] derive from neither. *)
Inductive exn : Type :=
| RequestException | JSONDecodeError
| AttributeError | TypeError | KeyError | ValueError | IndexError
| OverflowError | RecursionError.

(** [isinstance(e, requests.RequestException)] *)
Definition is_RequestException (e : exn) : bool :=
  match e with
  | RequestException | JSONDecodeError => true
  | _ => false
  end.

Inductive res (A : Type) : Type :=
| Ok (a : A)
| Raise (e : exn).
Arguments Ok {A} a.
Arguments Raise {A} e.

Definition rbind {A B} (m : res A) (k : A -> res B) : res B :=
  match m with
  | Ok a => k a
  | Raise e => Raise e
  end.

Inductive value : Type :=
| VNone
| VBool (b : bool)
| VInt (n : Z)
| VFloat (f : float)
| VStr (s : string)
| VList (l : list value)
| VDict (d : list (string * value)).

(** *** Dicts: items in insertion order; the first binding of a key counts *)

Fixpoint dict_get (d : list (string * value)) (k : string) : option value :=
  match d with
  | [] => None
  | (k', v) :: rest => if String.eqb k' k then Some v else dict_get rest k
  end.

Definition dict_mem (d : list (string * value)) (k : string) : bool :=
  match dict_get d k with Some _ => true | None => false end.

Fixpoint mem_string (k : string) (l : list string) : bool :=
  match l with
  | [] => false
  | k' :: rest => String.eqb k' k || mem_string k rest
  end.

Fixpoint dict_keys_from (seen : list string) (d : list (string * value))
  : list string :=
  match d with
  | [] => []
  | (k, _) :: rest =>
      if mem_string k seen then dict_keys_from seen rest
      else k :: dict_keys_from (k :: seen) rest
  end.

(** The keys in iteration order, each once. *)
Definition dict_keys (d : list (string * value)) : list string :=
  dict_keys_from [] d.

(** [d[k] = v]: an existing key keeps its place. *)
Fixpoint dict_set (d : list (string * value)) (k : string) (v : value)
  : list (string * value) :=
  match d with
  | [] => [(k, v)]
  | (k', v') :: rest =>
      if String.eqb k' k then (k, v) :: rest else (k', v') :: dict_set rest k v
  end.

(** *** Numbers *)

(** Exact comparison of a float with an int, as [==] does. *)
Definition float_eq_int (f : float) (n : Z) : bool :=
  match Prim2SF f with
  | S754_zero _ => n =? 0
  | S754_finite s m e =>
      let signed x := if s then - x else x in
      if 0 <=? e then n =? signed (Z.pos m * 2 ^ e)
      else n * 2 ^ (- e) =? signed (Z.pos m)
  | _ => false
  end.

(** [int(f)]: truncation toward zero; NaN is ValueError, an infinity
    OverflowError. *)
Definition float_trunc (f : float) : res Z :=
  match Prim2SF f with
  | S754_zero _ => Ok 0
  | S754_finite s m e =>
      let mag := if 0 <=? e then Z.pos m * 2 ^ e else Z.pos m / 2 ^ (- e) in
      Ok (if s then - mag else mag)
  | S754_infinity _ => Raise OverflowError
  | S754_nan => Raise ValueError
  end.

Definition int_of_bool (b : bool) : Z := if b then 1 else 0.

(** *** Equality [==] *)

Fixpoint py_eq (a b : value) {struct a} : bool :=
  match a, b with
  | VNone, VNone => true
  | VBool x, VBool y => Bool.eqb x y
  | VBool x, VInt n => int_of_bool x =? n
  | VBool x, VFloat f => float_eq_int f (int_of_bool x)
  | VInt n, VBool y => n =? int_of_bool y
  | VInt n, VInt m => n =? m
  | VInt n, VFloat f => float_eq_int f n
  | VFloat f, VBool y => float_eq_int f (int_of_bool y)
  | VFloat f, VInt n => float_eq_int f n
  | VFloat f, VFloat g => PrimFloat.eqb f g
  | VStr s, VStr t => String.eqb s t
  | VList l, VList l' =>
      (fix all2 (xs ys : list value) {struct xs} : bool :=
         match xs, ys with
         | [], [] => true
         | x :: xs', y :: ys' => py_eq x y && all2 xs' ys'
         | _, _ => false
         end) l l'
  | VDict d, VDict d' =>
      Nat.eqb (List.length (dict_keys d)) (List.length (dict_keys d'))
      && (fix each (seen : list string) (items : list (string * value))
            {struct items} : bool :=
            match items with
            | [] => true
            | (k, v) :: rest =>
                (mem_string k seen
                 || match dict_get d' k with
                    | Some v' => py_eq v v'
                    | None => false
                    end)
                && each (k :: seen) rest
            end) [] d
  | _, _ => false
  end.

(** Truth value of an object, as [if x:] and [not x] take it. *)
Definition truthy (v : value) : bool :=
  match v with
  | VNone => false
  | VBool b => b
  | VInt n => negb (n =? 0)
  | VFloat f => negb (PrimFloat.eqb f 0%float)
  | VStr s => negb (String.eqb s "")
  | VList l => match l with [] => false | _ => true end
  | VDict d => match d with [] => false | _ => true end
  end.

(** *** Operations; each raises what CPython raises on a receiver of the
    wrong type *)

Declare Scope res_scope.
Notation "x <- m ;; k" := (rbind m (fun x => k))
  (at level 61, m at next level, right associativity) : res_scope.
Delimit Scope res_scope with res.
Local Open Scope res_scope.

(** [d.get(k, default)] *)
Definition get (d : value) (k : string) (default : value) : res value :=
  match d with
  | VDict items =>
      Ok (match dict_get items k with Some v => v | None => default end)
  | _ => Raise AttributeError
  end.

(** [item in c] *)
Definition contains (item c : value) : res bool :=
  match c with
  | VDict items =>
      match item with
      | VStr k => Ok (dict_mem items k)
      | VList _ | VDict _ => Raise TypeError
      | _ => Ok false
      end
  | VList l => Ok (existsb (py_eq item) l)
  | VStr s =>
      match item with
      | VStr k => Ok (PyStr.str_contains k s)
      | _ => Raise TypeError
      end
  | _ => Raise TypeError
  end.

(** Sequence indexing with Python's negative indices. *)
Definition seq_index {A} (l : list A) (i : Z) : res A :=
  let len := Z.of_nat (List.length l) in
  let j := if i <? 0 then i + len else i in
  if (0 <=? j) && (j <? len)
  then match nth_error l (Z.to_nat j) with
       | Some x => Ok x
       | None => Raise IndexError
       end
  else Raise IndexError.

Definition chars (s : string) : list value :=
  map (fun c => VStr (String c EmptyString)) (list_ascii_of_string s).

(** [c[k]] *)
Definition getitem (c k : value) : res value :=
  match c with
  | VDict items =>
      match k with
      | VStr key =>
          match dict_get items key with
          | Some v => Ok v
          | None => Raise KeyError
          end
      | VList _ | VDict _ => Raise TypeError
      | _ => Raise KeyError
      end
  | VList l =>
      match k with
      | VInt i => seq_index l i
      | VBool b => seq_index l (int_of_bool b)
      | _ => Raise TypeError
      end
  | VStr s =>
      match k with
      | VInt i => seq_index (chars s) i
      | VBool b => seq_index (chars s) (int_of_bool b)
      | _ => Raise TypeError
      end
  | _ => Raise TypeError
  end.

(** The elements that [for x in c] visits. *)
Definition iter (c : value) : res (list value) :=
  match c with
  | VDict items => Ok (map VStr (dict_keys items))
  | VList l => Ok l
  | VStr s => Ok (chars s)
  | _ => Raise TypeError
  end.

(** [int(v)] *)
Definition int (v : value) : res Z :=
  match v with
  | VStr s =>
      match PyStr.parse_int s with
      | Some n => Ok n
      | None => Raise ValueError
      end
  | VInt n => Ok n
  | VBool b => Ok (int_of_bool b)
  | VFloat f => float_trunc f
  | VNone | VList _ | VDict _ => Raise TypeError
  end.

(** [v.strip()] *)
Definition strip (v : value) : res value :=
  match v with
  | VStr s => Ok (VStr (PyStr.strip s))
  | _ => Raise AttributeError
  end.

(** [v.replace(old, new)] *)
Definition replace (v : value) (old new : string) : res value :=
  match v with
  | VStr s => Ok (VStr (PyStr.replace old new s))
  | _ => Raise AttributeError
  end.

Fixpoint strings_of (l : list value) : res (list string) :=
  match l with
  | [] => Ok []
  | VStr s :: rest => ss <- strings_of rest ;; Ok (s :: ss)
  | _ :: _ => Raise TypeError
  end.

(** [sep.join(l)] *)
Definition join (sep : string) (l : list value) : res string :=
  ss <- strings_of l ;; Ok (PyStr.join sep ss).

(** [v == "literal"] *)
Definition eq_str (v : value) (s : string) : bool := py_eq v (VStr s).

End Py.

(** ** HTTP: requests, responses and the record of issued calls *)

Module Http.
Import Py.

(** [requests.get(url, params=params, timeout=10)]; [params] is [None] when
    the call passes none. *)
Record request : Type := Request {
  url : string;
  params : option (list (string * value))
}.

(** What the decoder lets through when a body is JSON text that it will not
    take: [json.loads] raises a plain [ValueError] on an integer literal
    longer than the interpreter's digit limit (4300 digits, CPython 3.11 and
    later) and a [RecursionError] on a body nested too deep.  [requests]
    converts only the decoder's own [JSONDecodeError]. *)
Inductive json_fault : Type := DigitLimit | TooDeep.

Definition fault_exn (fault : json_fault) : exn :=
  match fault with
  | DigitLimit => ValueError
  | TooDeep => RecursionError
  end.

(** What one call meets: a transport failure ([requests.get] raises a
    [RequestException]); a response with its status code and its body,
    [None] for a body that is not JSON; or a response whose body makes the
    decoder fail with a [json_fault]. *)
Inductive outcome : Type :=
| Unreachable
| Response (status_code : Z) (json : option value)
| Unparsed (status_code : Z) (fault : json_fault).

(** The world outside: what each request meets. *)
Definition network : Type := request -> outcome.

(** A call failed: transport error or a status other than 200. *)
Definition failed (o : outcome) : bool :=
  match o with
  | Unreachable => true
  | Response code _ | Unparsed code _ => negb (code =? 200)
  end.

(** Computations that issue requests: the requests issued, in order, and
    the result. *)
Definition io (A : Type) : Type := list request * res A.

Definition ret {A} (a : A) : io A := ([], Ok a).

Definition lift {A} (r : res A) : io A := ([], r).

Definition bind {A B} (m : io A) (k : A -> io B) : io B :=
  match m with
  | (t, Ok a) => let (t', r) := k a in ((t ++ t')%list, r)
  | (t, Raise e) => (t, Raise e)
  end.

Declare Scope io_scope.
Notation "x <~ m ;; k" := (bind m (fun x => k))
  (at level 61, m at next level, right associativity) : io_scope.
Delimit Scope io_scope with io.

Definition calls {A} (m : io A) : list request := fst m.
Definition result {A} (m : io A) : res A := snd m.

(** The response object: its status code and what its [json()] will do,
    return the decoded body or raise. *)
Definition response : Type := (Z * res value)%type.

(** What [json()] does with a body that was received. *)
Definition decoded (json : option value) : res value :=
  match json with
  | Some v => Ok v
  | None => Raise JSONDecodeError
  end.

(** What a call hands to the caller: the response object, or the
    [RequestException] of a transport failure. *)
Definition delivers (o : outcome) : res response :=
  match o with
  | Unreachable => Raise RequestException
  | Response code json => Ok (code, decoded json)
  | Unparsed code fault => Ok (code, Raise (fault_exn fault))
  end.

(** [requests.get]: logs the request and delivers the response object. *)
Definition requests_get (net : network) (rq : request) : io response :=
  ([rq], delivers (net rq)).

(** [response.json()] *)
Definition response_json (body : res value) : res value := body.

(** [try: body except requests.RequestException: return fallback] *)
Definition try_except_RequestException (body : io value) (fallback : value)
  : io value :=
  match body with
  | (t, Raise e) => if is_RequestException e then (t, Ok fallback) else (t, Raise e)
  | done => done
  end.

End Http.

(** ** wikimedia.py *)

Module Wikimedia.
Import Py Http.
Local Open Scope res_scope.
Local Open Scope io_scope.

Definition str_param (k v : string) : string * value := (k, VStr v).

(** *** get_wikipedia_summary *)

Definition wikipedia_url (term : string) : string :=
  "https://en.wikipedia.org/api/rest_v1/page/summary/" ++ term.

Definition wikipedia_disambiguation (term : string) : string :=
  "'" ++ term ++ "' refers to multiple topics. Please try a more specific search term.".

Definition wikipedia_no_summary : string :=
  "No summary found. This topic might not have an article on Wikipedia yet.".

Definition wikipedia_not_found (term : string) : string :=
  "The topic '" ++ term ++ "' was not found on Wikipedia. Please check spelling or try another term.".

Definition wikipedia_http_error (status_code : Z) : string :=
  "Error retrieving information: HTTP " ++ PyStr.of_int status_code.

Definition wikipedia_connection_error : string :=
  "Connection error. Please check your internet connection and try again later.".

(** The branch taken on status 200. *)
Definition wikipedia_summary_200 (term : string) (body : res value) : res value :=
  data <- response_json body ;;
  extract <- Py.get data "extract" (VStr "") ;;
  if negb (truthy extract) then
    type <- Py.get data "type" VNone ;;
    if eq_str type "disambiguation"
    then Ok (VStr (wikipedia_disambiguation term))
    else Ok (VStr wikipedia_no_summary)
  else Ok extract.

Definition get_wikipedia_summary (net : network) (term : string) : io value :=
  try_except_RequestException
    (response <~ requests_get net (Request (wikipedia_url term) None) ;;
     let (status_code, body) := response in
     if status_code =? 200 then lift (wikipedia_summary_200 term body)
     else if status_code =? 404 then ret (VStr (wikipedia_not_found term))
     else ret (VStr (wikipedia_http_error status_code)))
    (VStr wikipedia_connection_error).

(** *** The five adapters over the action API's [prop=extracts] *)

Definition connection_error : string := "Connection error. Please try again later.".

(** [data.get("query", {}).get("pages", {})] *)
Definition query_pages (data : value) : res value :=
  query <- Py.get data "query" (VDict []) ;;
  Py.get query "pages" (VDict []).

(** **** get_wiktionary_definition *)

Definition wiktionary_url : string := "https://en.wiktionary.org/w/api.php".

Definition wiktionary_params (term : string) : list (string * value) :=
  [ str_param "action" "query"; str_param "format" "json";
    str_param "titles" term; str_param "prop" "extracts";
    str_param "exsectionformat" "plain"; ("exsentences", VInt 5);
    ("explaintext", VBool true) ].

(** [for page_id in pages: if "extract" in pages[page_id]: return ...] *)
Fixpoint wiktionary_pages_loop (pages : value) (page_ids : list value) : res value :=
  match page_ids with
  | [] => Ok (VStr "No definition found.")
  | page_id :: rest =>
      page <- Py.getitem pages page_id ;;
      has_extract <- Py.contains (VStr "extract") page ;;
      if has_extract then
        page' <- Py.getitem pages page_id ;;
        Py.getitem page' (VStr "extract")
      else wiktionary_pages_loop pages rest
  end.

Definition wiktionary_definition_200 (body : res value) : res value :=
  data <- response_json body ;;
  pages <- query_pages data ;;
  page_ids <- Py.iter pages ;;
  wiktionary_pages_loop pages page_ids.

Definition get_wiktionary_definition (net : network) (term : string) : io value :=
  try_except_RequestException
    (response <~ requests_get net
                   (Request wiktionary_url (Some (wiktionary_params term))) ;;
     let (status_code, body) := response in
     if status_code =? 200 then lift (wiktionary_definition_200 body)
     else ret (VStr ("Error retrieving definition: HTTP " ++ PyStr.of_int status_code)))
    (VStr connection_error).

(** **** get_wikiquote_quotes *)

Definition wikiquote_url : string := "https://en.wikiquote.org/w/api.php".

Definition extracts_params (term : string) (exsentences : Z) : list (string * value) :=
  [ str_param "action" "query"; str_param "format" "json";
    str_param "titles" term; str_param "prop" "extracts";
    ("exsentences", VInt exsentences); ("explaintext", VBool true) ].

(** [int(page_id) > 0 and "extract" in pages[page_id]], with the
    short circuit of [and]. *)
Definition positive_with_extract (pages page_id : value) : res bool :=
  n <- Py.int page_id ;;
  if 0 <? n then
    page <- Py.getitem pages page_id ;;
    Py.contains (VStr "extract") page
  else Ok false.

Fixpoint wikiquote_pages_loop (pages : value) (page_ids : list value) : res value :=
  match page_ids with
  | [] => Ok (VStr "No quotes found for this topic.")
  | page_id :: rest =>
      cond <- positive_with_extract pages page_id ;;
      if cond then
        page <- Py.getitem pages page_id ;;
        extract <- Py.getitem page (VStr "extract") ;;
        content <- Py.strip extract ;;
        if truthy content then Ok content
        else wikiquote_pages_loop pages rest
      else wikiquote_pages_loop pages rest
  end.

Definition wikiquote_quotes_200 (body : res value) : res value :=
  data <- response_json body ;;
  pages <- query_pages data ;;
  page_ids <- Py.iter pages ;;
  wikiquote_pages_loop pages page_ids.

Definition get_wikiquote_quotes (net : network) (term : string) : io value :=
  try_except_RequestException
    (response <~ requests_get net
                   (Request wikiquote_url (Some (extracts_params term 5))) ;;
     let (status_code, body) := response in
     if status_code =? 200 then lift (wikiquote_quotes_200 body)
     else ret (VStr ("Error retrieving quotes: HTTP " ++ PyStr.of_int status_code)))
    (VStr connection_error).

(** **** get_wikibooks_content, get_wikiversity_resources, get_wikispecies_info

    The three bodies differ only in the endpoint, the parameters and the
    messages. *)

(** [for page_id in pages:
       if int(page_id) > 0 and "extract" in pages[page_id]:
         return pages[page_id]["extract"]
     return nothing_found] *)
Fixpoint extract_pages_loop (nothing_found : string) (pages : value)
  (page_ids : list value) : res value :=
  match page_ids with
  | [] => Ok (VStr nothing_found)
  | page_id :: rest =>
      cond <- positive_with_extract pages page_id ;;
      if cond then
        page <- Py.getitem pages page_id ;;
        Py.getitem page (VStr "extract")
      else extract_pages_loop nothing_found pages rest
  end.

Definition extract_200 (nothing_found : string) (body : res value) : res value :=
  data <- response_json body ;;
  pages <- query_pages data ;;
  page_ids <- Py.iter pages ;;
  extract_pages_loop nothing_found pages page_ids.

Definition wikibooks_url : string := "https://en.wikibooks.org/w/api.php".

Definition get_wikibooks_content (net : network) (term : string) : io value :=
  try_except_RequestException
    (response <~ requests_get net
                   (Request wikibooks_url (Some (extracts_params term 10))) ;;
     let (status_code, body) := response in
     if status_code =? 200
     then lift (extract_200 "No Wikibooks content found for this topic." body)
     else ret (VStr ("Error retrieving content: HTTP " ++ PyStr.of_int status_code)))
    (VStr connection_error).

Definition wikiversity_url : string := "https://en.wikiversity.org/w/api.php".

Definition get_wikiversity_resources (net : network) (term : string) : io value :=
  try_except_RequestException
    (response <~ requests_get net
                   (Request wikiversity_url (Some (extracts_params term 5))) ;;
     let (status_code, body) := response in
     if status_code =? 200
     then lift (extract_200 "No Wikiversity resources found for this topic." body)
     else ret (VStr ("Error retrieving resources: HTTP " ++ PyStr.of_int status_code)))
    (VStr connection_error).

Definition wikispecies_url : string := "https://species.wikimedia.org/w/api.php".

Definition wikispecies_params (species_name : string) : list (string * value) :=
  [ str_param "action" "query"; str_param "format" "json";
    str_param "titles" species_name; str_param "prop" "extracts";
    ("explaintext", VBool true) ].

Definition get_wikispecies_info (net : network) (species_name : string) : io value :=
  try_except_RequestException
    (response <~ requests_get net
                   (Request wikispecies_url (Some (wikispecies_params species_name))) ;;
     let (status_code, body) := response in
     if status_code =? 200
     then lift (extract_200 "No species information found." body)
     else ret (VStr ("Error retrieving species information: HTTP "
                     ++ PyStr.of_int status_code)))
    (VStr connection_error).

(** *** get_wikimedia_commons_images *)

Definition commons_url : string := "https://commons.wikimedia.org/w/api.php".

Definition commons_search_params (term : string) (limit : value)
  : list (string * value) :=
  [ str_param "action" "query"; str_param "format" "json";
    str_param "list" "search";
    str_param "srsearch" (term ++ " haswbstatement:P180=" ++ term);
    ("srnamespace", VInt 6); ("srlimit", limit) ].

Definition commons_image_params (file_titles : string) : list (string * value) :=
  [ str_param "action" "query"; str_param "format" "json";
    str_param "titles" file_titles; str_param "prop" "imageinfo";
    str_param "iiprop" "url|extmetadata"; ("iiurlwidth", VInt 300) ].

(** [for result in search_results:
       if "title" in result: image_titles.append(result["title"])] *)
Fixpoint commons_titles_loop (search_results image_titles : list value)
  : res (list value) :=
  match search_results with
  | [] => Ok image_titles
  | result :: rest =>
      has_title <- Py.contains (VStr "title") result ;;
      if has_title then
        title <- Py.getitem result (VStr "title") ;;
        commons_titles_loop rest (image_titles ++ [title])
      else commons_titles_loop rest image_titles
  end.

(** [{"title": title, "url": thumb_url, "description": description}] *)
Definition image_descriptor (title thumb_url description : value) : value :=
  VDict [("title", title); ("url", thumb_url); ("description", description)].

(** ["imageinfo" in page and page["imageinfo"]] taken as a condition. *)
Definition has_imageinfo (page : value) : res bool :=
  present <- Py.contains (VStr "imageinfo") page ;;
  if present then
    imageinfo <- Py.getitem page (VStr "imageinfo") ;;
    Ok (truthy imageinfo)
  else Ok false.

(** The body of [for page_id in pages:] in the second step. *)
Fixpoint commons_pages_loop (pages : value) (page_ids image_data : list value)
  : res (list value) :=
  match page_ids with
  | [] => Ok image_data
  | page_id :: rest =>
      page <- Py.getitem pages page_id ;;
      cond <- has_imageinfo page ;;
      if cond then
        imageinfo <- Py.getitem page (VStr "imageinfo") ;;
        info <- Py.getitem imageinfo (VInt 0) ;;
        title0 <- Py.get page "title" (VStr "") ;;
        title <- Py.replace title0 "File:" "" ;;
        thumb_url <- Py.get info "thumburl" (VStr "") ;;
        extmetadata <- Py.get info "extmetadata" (VDict []) ;;
        image_description <- Py.get extmetadata "ImageDescription" (VDict []) ;;
        description0 <- Py.get image_description "value" (VStr "") ;;
        description1 <- Py.replace description0 "<p>" "" ;;
        description <- Py.replace description1 "</p>" "" ;;
        if truthy thumb_url
        then commons_pages_loop pages rest
               (image_data ++ [image_descriptor title thumb_url description])
        else commons_pages_loop pages rest image_data
      else commons_pages_loop pages rest image_data
  end.

(** From the first response's body to the collected titles. *)
Definition commons_image_titles (body : res value) : res (list value) :=
  data <- response_json body ;;
  query <- Py.get data "query" (VDict []) ;;
  search_results <- Py.get query "search" (VList []) ;;
  results <- Py.iter search_results ;;
  commons_titles_loop results [].

(** From the second response's body to the descriptors. *)
Definition commons_image_data (img_body : res value) : res (list value) :=
  img_data <- response_json img_body ;;
  pages <- query_pages img_data ;;
  page_ids <- Py.iter pages ;;
  commons_pages_loop pages page_ids [].

Definition get_wikimedia_commons_images (net : network) (term : string)
  (limit : value) : io value :=
  try_except_RequestException
    (response <~ requests_get net
                   (Request commons_url (Some (commons_search_params term limit))) ;;
     let (status_code, body) := response in
     if status_code =? 200 then
       image_titles <~ lift (commons_image_titles body) ;;
       match image_titles with
       | [] => ret (VList [])
       | _ :: _ =>
           file_titles <~ lift (Py.join "|" image_titles) ;;
           img_response <~ requests_get net
                              (Request commons_url
                                       (Some (commons_image_params file_titles))) ;;
           let (img_status_code, img_body) := img_response in
           if img_status_code =? 200 then
             image_data <~ lift (commons_image_data img_body) ;;
             ret (VList image_data)
           else ret (VList [])
       end
     else ret (VList []))
    (VList []).

(** *** get_wikisource_texts *)

Definition wikisource_url : string := "https://en.wikisource.org/w/api.php".

Definition wikisource_params (term : string) : list (string * value) :=
  [ str_param "action" "query"; str_param "format" "json";
    str_param "list" "search"; str_param "srsearch" term; ("srlimit", VInt 3) ].

Definition double_quote : string := String (ascii_of_nat 34) EmptyString.

Definition searchmatch_open : string :=
  "<span class=" ++ double_quote ++ "searchmatch" ++ double_quote ++ ">".

Fixpoint wikisource_results_loop (search_results text_data : list value)
  : res (list value) :=
  match search_results with
  | [] => Ok text_data
  | result :: rest =>
      title <- Py.get result "title" (VStr "") ;;
      snippet0 <- Py.get result "snippet" (VStr "") ;;
      snippet1 <- Py.replace snippet0 searchmatch_open "" ;;
      snippet <- Py.replace snippet1 "</span>" "" ;;
      wikisource_results_loop rest
        (text_data ++ [VDict [("title", title); ("snippet", snippet)]])
  end.

Definition wikisource_texts_200 (body : res value) : res value :=
  data <- response_json body ;;
  query <- Py.get data "query" (VDict []) ;;
  search_results <- Py.get query "search" (VList []) ;;
  results <- Py.iter search_results ;;
  text_data <- wikisource_results_loop results [] ;;
  Ok (VList text_data).

Definition get_wikisource_texts (net : network) (term : string) : io value :=
  try_except_RequestException
    (response <~ requests_get net
                   (Request wikisource_url (Some (wikisource_params term))) ;;
     let (status_code, body) := response in
     if status_code =? 200 then lift (wikisource_texts_200 body)
     else ret (VList []))
    (VList []).

(** *** get_wikidata_health_info *)

Definition wikidata_url : string := "https://www.wikidata.org/w/api.php".

Definition wikidata_search_params (term : string) : list (string * value) :=
  [ str_param "action" "wbsearchentities"; str_param "format" "json";
    str_param "search" term; str_param "language" "en" ].

Definition wikidata_entity_params (entity_id : value) : list (string * value) :=
  [ str_param "action" "wbgetentities"; str_param "format" "json";
    ("ids", entity_id); str_param "languages" "en" ].

(** The allow-list, in the order [property_map.items()] yields it. *)
Definition property_map : list (string * string) :=
  [ ("P2175", "medical condition treated");
    ("P2176", "drug used for treatment");
    ("P780", "symptoms");
    ("P1050", "medical condition");
    ("P1995", "health specialty") ].

(** [mainsnak.get("datatype") == "wikibase-item" and "datavalue" in mainsnak] *)
Definition is_item_snak (mainsnak : value) : res bool :=
  datatype <- Py.get mainsnak "datatype" VNone ;;
  if eq_str datatype "wikibase-item"
  then Py.contains (VStr "datavalue") mainsnak
  else Ok false.

(** [for claim in claims[prop_id]:] *)
Fixpoint claim_values_loop (claim_list values : list value) : res (list value) :=
  match claim_list with
  | [] => Ok values
  | claim :: rest =>
      mainsnak <- Py.get claim "mainsnak" (VDict []) ;;
      cond <- is_item_snak mainsnak ;;
      if cond then
        datavalue <- Py.getitem mainsnak (VStr "datavalue") ;;
        inner <- Py.getitem datavalue (VStr "value") ;;
        value_id <- Py.getitem inner (VStr "id") ;;
        claim_values_loop rest (values ++ [value_id])
      else claim_values_loop rest values
  end.

(** [for prop_id, prop_name in property_map.items():] *)
Fixpoint properties_loop (claims : value) (props : list (string * string))
  (properties : list (string * value)) : res (list (string * value)) :=
  match props with
  | [] => Ok properties
  | (prop_id, prop_name) :: rest =>
      present <- Py.contains (VStr prop_id) claims ;;
      if present then
        prop_claims <- Py.getitem claims (VStr prop_id) ;;
        claim_list <- Py.iter prop_claims ;;
        values <- claim_values_loop claim_list [] ;;
        match values with
        | _ :: _ =>
            properties_loop claims rest
              (dict_set properties prop_name (VList values))
        | [] => properties_loop claims rest properties
        end
      else properties_loop claims rest properties
  end.

(** [entity.get(field, {}).get("en", {}).get("value", default)] *)
Definition english_value (entity : value) (field default : string) : res value :=
  by_language <- Py.get entity field (VDict []) ;;
  en <- Py.get by_language "en" (VDict []) ;;
  Py.get en "value" (VStr default).

(** The structured result built from [entities[entity_id]]. *)
Definition wikidata_entity_info (entity : value) : res value :=
  label <- english_value entity "labels" "No label" ;;
  description <- english_value entity "descriptions" "No description" ;;
  claims <- Py.get entity "claims" (VDict []) ;;
  properties <- properties_loop claims property_map [] ;;
  Ok (VDict [("label", label); ("description", description);
             ("properties", VDict properties)]).

Definition wikidata_no_detail : string :=
  "No detailed Wikidata information available.".

(** The branch taken when the entity fetch answers 200. *)
Definition wikidata_entity_200 (entity_id : value) (entity_body : res value)
  : res value :=
  entity_data <- response_json entity_body ;;
  entities <- Py.get entity_data "entities" (VDict []) ;;
  found <- Py.contains entity_id entities ;;
  if found then
    entity <- Py.getitem entities entity_id ;;
    wikidata_entity_info entity
  else Ok (VStr wikidata_no_detail).

Definition get_wikidata_health_info (net : network) (term : string) : io value :=
  try_except_RequestException
    (response <~ requests_get net
                   (Request wikidata_url (Some (wikidata_search_params term))) ;;
     let (status_code, body) := response in
     if status_code =? 200 then
       data <~ lift (response_json body) ;;
       search_results <~ lift (Py.get data "search" (VList [])) ;;
       if negb (truthy search_results)
       then ret (VStr "No Wikidata information found for this term.")
       else
         first <~ lift (Py.getitem search_results (VInt 0)) ;;
         entity_id <~ lift (Py.get first "id" VNone) ;;
         entity_response <~ requests_get net
                               (Request wikidata_url
                                        (Some (wikidata_entity_params entity_id))) ;;
         let (entity_status_code, entity_body) := entity_response in
         if entity_status_code =? 200
         then lift (wikidata_entity_200 entity_id entity_body)
         else ret (VStr wikidata_no_detail)
     else ret (VStr ("Error retrieving Wikidata: HTTP " ++ PyStr.of_int status_code)))
    (VStr connection_error).

(** *** search_all_wikimedia *)

(** [term.strip().replace(" ", "_")] *)
Definition normalize (term : string) : string :=
  PyStr.replace " " "_" (PyStr.strip term).

Definition source_keys : list string :=
  [ "wikipedia"; "wiktionary"; "wikiquote"; "wikibooks"; "commons";
    "wikisource"; "wikiversity"; "wikispecies"; "wikidata" ].

(** The literal [{"wikipedia": None, ..., "wikidata": None}]. *)
Definition empty_results : list (string * value) :=
  map (fun k => (k, VNone)) source_keys.

Definition search_all_wikimedia (net : network) (term : string) : io value :=
  let search_term := normalize term in
  let results := empty_results in
  r <~ get_wikipedia_summary net search_term ;;
  let results := dict_set results "wikipedia" r in
  r <~ get_wiktionary_definition net search_term ;;
  let results := dict_set results "wiktionary" r in
  r <~ get_wikiquote_quotes net search_term ;;
  let results := dict_set results "wikiquote" r in
  r <~ get_wikibooks_content net search_term ;;
  let results := dict_set results "wikibooks" r in
  r <~ get_wikimedia_commons_images net search_term (VInt 5) ;;
  let results := dict_set results "commons" r in
  r <~ get_wikisource_texts net search_term ;;
  let results := dict_set results "wikisource" r in
  r <~ get_wikiversity_resources net search_term ;;
  let results := dict_set results "wikiversity" r in
  r <~ get_wikispecies_info net search_term ;;
  let results := dict_set results "wikispecies" r in
  r <~ get_wikidata_health_info net search_term ;;
  let results := dict_set results "wikidata" r in
  ret (VDict results).

End Wikimedia.

(** ** app.py: the question-answering pipeline and its gate *)

Module App.

(** A call into third-party code either returns or raises; of the exception
    only [str(e)] is ever used. *)
Inductive outcome (A : Type) : Type :=
| Returns (a : A)
| Raises (str_e : string).
Arguments Returns {A} a.
Arguments Raises {A} str_e.

(** The keyword arguments of one call of the pipeline object. *)
Record qa_call : Type := QaCall {
  question : string;
  context : string;
  max_answer_len : Z;
  handle_impossible_answer : bool
}.

(** The dict a question-answering pipeline returns, reduced to the two keys
    the caller reads; [None] is an absent key. *)
Record qa_result : Type := QaResult {
  score : option float;
  answer : option string
}.

(** The pipeline object: the opaque scorer. *)
Definition scorer : Type := qa_call -> outcome qa_result.



Definition unavailable_message : string :=
  "AI model is not available. Please check if transformers and torch are installed correctly.".

Definition rejection_message : string := "Please ask a more specific question.".

Definition low_confidence_message : string :=
  "I don't have enough information to answer that question accurately. Please try a different question related to the topics covered.".

Definition error_message (str_e : string) : string :=
  "Sorry, I couldn't process your question. Error: " ++ str_e.

(** The threshold literal [0.1], the binary64 nearest to one tenth. *)
Definition threshold : float := 0.1%float.

(** [result.get('score', 0)] *)
Definition score_or_default (result : qa_result) : float :=
  match score result with
  | Some s => s
  | None => 0%float
  end.

(** [answer_health_question], with [qa_pipeline] (a module-level global in
    the source) as a parameter.  The first component lists the calls made
    to the scorer. *)
Definition answer_health_question (qa_pipeline : option scorer)
  (question context : string) : list qa_call * string :=
  match qa_pipeline with
  | None => ([], unavailable_message)
  | Some pipeline =>
      if (String.length question <? 5)%nat then ([], rejection_message)
      else
        let call := QaCall question context 100 true in
        ([call],
         match pipeline call with
         | Raises str_e => error_message str_e
         | Returns result =>
             if PrimFloat.ltb (score_or_default result) threshold
             then low_confidence_message
             else match answer result with
                  | Some span => span
                  | None => error_message "'answer'"
                  end
         end)
  end.

End App.

(** * Vocabulary of the properties

    Tables over the adapters, the predicates the statements use, and the
    concrete scorers and networks at which they are exercised. *)

Module Vocabulary.
Import Py Http Wikimedia.

(** *** Strings *)

(** What [replace(" ", "_")] does to one character. *)
Definition underscore (c : ascii) : ascii :=
  if Ascii.eqb " " c then "_"%char else c.

Fixpoint map_chars (f : ascii -> ascii) (s : string) : string :=
  match s with
  | EmptyString => EmptyString
  | String c s' => String (f c) (map_chars f s')
  end.

(** *** Scorers *)

(** A scorer that reports what it is told to report. *)
Definition fixed_scorer (s : float) (span : string) : App.scorer :=
  fun _ => App.Returns (App.QaResult (Some s) (Some span)).

(** A scorer that would be noticed: it raises on every call. *)
Definition refusing_scorer : App.scorer := fun _ => App.Raises "called".


(** *** The nine sources *)

Inductive source : Type :=
| Wikipedia | Wiktionary | Wikiquote | Wikibooks | Commons
| Wikisource | Wikiversity | Wikispecies | Wikidata.

(** The key under which [search_all_wikimedia] stores a source. *)
Definition key_of (src : source) : string :=
  match src with
  | Wikipedia => "wikipedia" | Wiktionary => "wiktionary"
  | Wikiquote => "wikiquote" | Wikibooks => "wikibooks"
  | Commons => "commons" | Wikisource => "wikisource"
  | Wikiversity => "wikiversity" | Wikispecies => "wikispecies"
  | Wikidata => "wikidata"
  end.

(** The adapter of a source, called as [search_all_wikimedia] calls it
    ([limit] of the media search at its default 5). *)
Definition fetch (src : source) : network -> string -> io value :=
  match src with
  | Wikipedia => get_wikipedia_summary
  | Wiktionary => get_wiktionary_definition
  | Wikiquote => get_wikiquote_quotes
  | Wikibooks => get_wikibooks_content
  | Commons => fun net term => get_wikimedia_commons_images net term (VInt 5)
  | Wikisource => get_wikisource_texts
  | Wikiversity => get_wikiversity_resources
  | Wikispecies => get_wikispecies_info
  | Wikidata => get_wikidata_health_info
  end.







(** The one request a summary-style adapter issues. *)
Definition summary_request (src : source) (term : string) : request :=
  match src with
  | Wikipedia => Request (wikipedia_url term) None
  | Wiktionary => Request wiktionary_url (Some (wiktionary_params term))
  | Wikiquote => Request wikiquote_url (Some (extracts_params term 5))
  | Wikibooks => Request wikibooks_url (Some (extracts_params term 10))
  | Wikiversity => Request wikiversity_url (Some (extracts_params term 5))
  | Wikispecies => Request wikispecies_url (Some (wikispecies_params term))
  | _ => Request "" None
  end.

(** A call that ends in the adapter's own handling: transport failure, a
    status other than 200, or a 200 response whose body is not JSON (the
    decoding error of [requests] is a [RequestException]).  A 200 response on
    whose body the decoder faults is not one. *)
Definition broken (o : outcome) : bool :=
  match o with
  | Unreachable => true
  | Response code body =>
      negb (code =? 200) || match body with None => true | Some _ => false end
  | Unparsed code _ => negb (code =? 200)
  end.

(** *** Messages *)





(** A page key that reads as an integer that is not positive: the key of a
    missing page. *)
Definition missing_page_id (page_id : value) : bool :=
  match page_id with
  | VStr s => match PyStr.parse_int s with Some n => n <=? 0 | None => false end
  | _ => false
  end.

Definition present_page_id (page_id : value) : bool := negb (missing_page_id page_id).

(** *** Networks *)

(** Nothing can be reached. *)
Definition offline : network := fun _ => Unreachable.

(** Every request is answered with the same status and body. *)
Definition always (status_code : Z) (body : option value) : network :=
  fun _ => Response status_code body.


(** The action-API body [{"query": {"pages": {page_id: page}}}]. *)
Definition one_page (page_id : string) (page : value) : value :=
  VDict [("query", VDict [("pages", VDict [(page_id, page)])])].

(** *** The structured knowledge base *)

(** The human-readable names of the allow-list. *)
Definition property_names : list string :=
  [ "medical condition treated"; "drug used for treatment"; "symptoms";
    "medical condition"; "health specialty" ].

(** The allow-list: the property identifiers that are read and the names
    they are shown under. *)
Definition allow_list : list (string * string) :=
  [ ("P2175", "medical condition treated");
    ("P2176", "drug used for treatment");
    ("P780", "symptoms");
    ("P1050", "medical condition");
    ("P1995", "health specialty") ].

(** What a JSON object stores under a key; nothing for a missing key and for
    a value that is not an object. *)
Definition field (v : value) (k : string) : option value :=
  match v with
  | VDict d => dict_get d k
  | _ => None
  end.

(** The identifier a claim links to: the main snak of the claim has the
    datatype wikibase-item and a datavalue, and the identifier is the "id"
    of the "value" of that datavalue.  Other claims link to nothing. *)
Definition linked_entity_id (claim : value) : option value :=
  match field claim "mainsnak" with
  | Some mainsnak =>
      match field mainsnak "datatype", field mainsnak "datavalue" with
      | Some (VStr datatype), Some datavalue =>
          if String.eqb datatype "wikibase-item" then
            match field datavalue "value" with
            | Some inner => field inner "id"
            | None => None
            end
          else None
      | _, _ => None
      end
  | None => None
  end.

(** The identifiers that the claims of a list link to, in the order of the
    claims. *)
Definition linked_entity_ids (claim_list : list value) : list value :=
  flat_map (fun claim => match linked_entity_id claim with
                         | Some id => [id]
                         | None => []
                         end) claim_list.

(** The claims that an entity lists under a property identifier. *)
Definition claims_under (entity : value) (prop_id : string) : list value :=
  match field entity "claims" with
  | Some claims =>
      match field claims prop_id with
      | Some (VList claim_list) => claim_list
      | _ => []
      end
  | None => []
  end.

(** What the "properties" mapping of a result must hold under a name: the
    identifiers that the entity's claims under the property link to, and no
    entry at all when there are none. *)
Definition expected_property (entity : value) (prop_id : string) : option value :=
  match linked_entity_ids (claims_under entity prop_id) with
  | [] => None
  | ids => Some (VList ids)
  end.

Definition item_claim (id : string) : value :=
  VDict [("mainsnak",
          VDict [("snaktype", VStr "value"); ("datatype", VStr "wikibase-item");
                 ("datavalue",
                  VDict [("value", VDict [("id", VStr id)]);
                         ("type", VStr "wikibase-entityid")])])].

Definition string_claim (text : string) : value :=
  VDict [("mainsnak",
          VDict [("snaktype", VStr "value"); ("datatype", VStr "string");
                 ("datavalue",
                  VDict [("value", VStr text); ("type", VStr "string")])])].

(** A knowledge base that knows one entity, Q18216, with two linked
    entities under P2175 and only a string under P780. *)
Definition aspirin_search : value :=
  VDict [("search", VList [VDict [("id", VStr "Q18216"); ("label", VStr "aspirin")]])].

Definition aspirin_entities : value :=
  VDict [("entities",
          VDict [("Q18216",
                  VDict [("labels", VDict [("en", VDict [("value", VStr "aspirin")])]);
                         ("descriptions",
                          VDict [("en", VDict [("value", VStr "medication")])]);
                         ("claims",
                          VDict [("P2175", VList [item_claim "Q86"; item_claim "Q38933"]);
                                 ("P780", VList [string_claim "none"])])])])].

Definition action_of (rq : request) : value :=
  match params rq with
  | Some ps => match dict_get ps "action" with Some a => a | None => VNone end
  | None => VNone
  end.

Definition aspirin_net : network :=
  fun rq =>
    if eq_str (action_of rq) "wbsearchentities" then Response 200 (Some aspirin_search)
    else if eq_str (action_of rq) "wbgetentities" then Response 200 (Some aspirin_entities)
    else Unreachable.

(** *** The media search *)

(** A complete image descriptor: an object with exactly the keys "title",
    "url" and "description", title and description strings, the URL
    neither null nor empty. *)
Definition complete_descriptor (entry : value) : Prop :=
  exists title url description,
    entry = VDict [ ("title", VStr title); ("url", url);
                    ("description", VStr description) ]
    /\ url <> VNone /\ url <> VStr "" /\ truthy url = true.

(** [v] sits inside [body]: it is [body] itself, or it sits inside an
    element of a list or inside the value of a key of an object. *)
Inductive inside (v : value) : value -> Prop :=
| inside_here : inside v v
| inside_list (l : list value) (x : value) :
    In x l -> inside v x -> inside v (VList l)
| inside_dict (d : list (string * value)) (k : string) (x : value) :
    dict_get d k = Some x -> inside v x -> inside v (VDict d).


(** A decoded body that is a JSON object. *)
Definition is_object (v : value) : bool :=
  match v with
  | VDict _ => true
  | _ => false
  end.


(** The thumbnail of a page of an image look-up: the "thumburl" of the
    first of its image infos. *)
Definition thumbnail_of (page url : value) : Prop :=
  exists p info others,
    page = VDict p
    /\ dict_get p "imageinfo" = Some (VList (VDict info :: others))
    /\ dict_get info "thumburl" = Some url.

(** A complete descriptor that carries the thumbnail of one of [pages]. *)
Definition appended (pages entry : value) : Prop :=
  complete_descriptor entry
  /\ exists page_id page url,
       Py.getitem pages page_id = Ok page
       /\ thumbnail_of page url
       /\ field entry "url" = Some url.

(** [entry] carries the thumbnail of a page inside [body]. *)
Definition shows_thumbnail_from (body entry : value) : Prop :=
  exists page url,
    inside page body /\ thumbnail_of page url /\ field entry "url" = Some url.

Definition list_of (rq : request) : value :=
  match params rq with
  | Some ps => match dict_get ps "list" with Some a => a | None => VNone end
  | None => VNone
  end.

Definition commons_hits : value :=
  VDict [("query", VDict [("search", VList [VDict [("title", VStr "File:Aspirin.jpg")];
                                            VDict [("title", VStr "File:Pills.png")]])])].

(** Two pages: one with a thumbnail, one whose image info has none. *)
Definition commons_pages : value :=
  VDict [("query",
          VDict [("pages",
                  VDict [("101",
                          VDict [("title", VStr "File:Aspirin.jpg");
                                 ("imageinfo",
                                  VList [VDict [("thumburl", VStr "https://upload.example/a.jpg");
                                                ("extmetadata",
                                                 VDict [("ImageDescription",
                                                         VDict [("value", VStr "<p>Aspirin</p>")])])]])]);
                         ("102",
                          VDict [("title", VStr "File:Pills.png");
                                 ("imageinfo", VList [VDict [("url", VStr "https://upload.example/p.png")]])])])])].

(** The search answers; the image lookup answers with [second]. *)
Definition commons_net (second : outcome) : network :=
  fun rq =>
    if eq_str (list_of rq) "search" then Response 200 (Some commons_hits)
    else second.

(** The quotation service answers 200 with a page keyed by a non-numeric
    identifier; nothing else can be reached. *)
Definition wikiquote_garbled : network :=
  fun rq =>
    if String.eqb (url rq) wikiquote_url
    then Response 200 (Some (one_page "abc" (VDict [("extract", VStr "To be.")])))
    else Unreachable.

End Vocabulary.

(** * app.py and wikifit_basic.py: the helpers behind the pages *)

(** ** Body-mass index, workout plans, tips and quiz *)

Module AppUtils.

(** What the arithmetic of [calculate_bmi] can raise. *)
Inductive exn : Type := ZeroDivisionError | ValueError | OverflowError.

Inductive answer (A : Type) : Type :=
| Value (a : A)
| Error (e : exn).
Arguments Value {A} a.
Arguments Error {A} e.

Definition abind {A B} (m : answer A) (k : A -> answer B) : answer B :=
  match m with
  | Value a => k a
  | Error e => Error e
  end.

(** [int(x)] for a float: truncation; NaN is ValueError, an infinity
    OverflowError. *)
Definition int_of_float (x : float) : answer Z :=
  match Py.float_trunc x with
  | Py.Ok n => Value n
  | Py.Raise Py.OverflowError => Error OverflowError
  | Py.Raise _ => Error ValueError
  end.

(** The float that an int becomes in mixed arithmetic: the nearest one, ties
    to even; OverflowError beyond the largest float. *)
Definition float_of_int (n : Z) : answer float :=
  match binary_normalize prec emax n 0 false with
  | S754_infinity _ => Error OverflowError
  | sf => Value (SF2Prim sf)
  end.

(** [x / y] on floats. *)
Definition truediv (x y : float) : answer float :=
  if PrimFloat.eqb y 0%float then Error ZeroDivisionError
  else Value (PrimFloat.div x y).

(** The chain of comparisons that names the category of a BMI value. *)
Definition bmi_category (bmi : float) : string :=
  if PrimFloat.ltb bmi 18.5%float then "Underweight"
  else if PrimFloat.leb 18.5%float bmi && PrimFloat.ltb bmi 25%float
       then "Normal weight"
  else if PrimFloat.leb 25%float bmi && PrimFloat.ltb bmi 30%float
       then "Overweight"
  else "Obese".

Section Builtins.

(** [x ** n] on a float, which goes to the C library's [pow], and the
    built-in [round(x, ndigits)]: both are taken as they come. *)
Variable pow : float -> Z -> answer float.
Variable round : float -> Z -> float.

(** The height in metres: the two conversions of [calculate_bmi]. *)
Definition height_in_metres (height : float) (unit : string) : answer float :=
  if String.eqb unit "cm" then Value (PrimFloat.div height 100%float)
  else if String.eqb unit "ft" then
    abind (int_of_float height) (fun feet_whole =>
    abind (float_of_int feet_whole) (fun feet =>
    let inches := PrimFloat.mul (PrimFloat.sub height feet) 10%float in
    Value (PrimFloat.add (PrimFloat.mul feet 0.3048%float)
                         (PrimFloat.mul inches 0.0254%float))))
  else Value height.

(** [calculate_bmi(weight, height, unit)] on floats, as the number inputs
    of the pages deliver them; the same function stands in both files. *)
Definition calculate_bmi (weight height : float) (unit : string)
  : answer (option float * option string) :=
  if PrimFloat.leb weight 0%float || PrimFloat.leb height 0%float
  then Value (None, None)
  else
    abind (height_in_metres height unit) (fun metres =>
    abind (pow metres 2) (fun square =>
    abind (truediv weight square) (fun bmi =>
    Value (Some (round bmi 2), Some (bmi_category bmi))))).

End Builtins.

(** *** get_workout_plan *)

Definition workouts : list (string * list string) :=
  [ ("full_body",
     [ "10 Jumping Jacks"; "10 Push-ups"; "15 Squats"; "20-second Plank";
       "10 Lunges (each leg)"; "Repeat 3 times" ]);
    ("cardio",
     [ "30 seconds Jumping Jacks"; "30 seconds High Knees"; "30 seconds Butt Kicks";
       "30 seconds Mountain Climbers"; "30 seconds rest"; "Repeat 4 times" ]);
    ("strength",
     [ "12 Push-ups"; "15 Squats with 5 second hold"; "10 Tricep Dips";
       "10 Glute Bridges"; "8 Superman Holds"; "Repeat 3 times" ]);
    ("flexibility",
     [ "30 seconds Hamstring Stretch"; "30 seconds Quad Stretch (each leg)";
       "30 seconds Child's Pose"; "30 seconds Cat-Cow Stretch";
       "30 seconds Butterfly Stretch"; "Repeat 2 times" ]) ].



(** *** random.choice *)

(** [random.choice(seq)]: the element at the index the generator draws
    below [len(seq)]; [draw] is the generator's number, [None] the
    IndexError on an empty sequence. *)
Definition random_choice {A} (seq : list A) (draw : nat) : option A :=
  match seq with
  | [] => None
  | _ :: _ => nth_error seq (draw mod List.length seq)
  end.

(** *** get_random_health_tip (app.py) *)







(** *** generate_quiz *)

Definition questions : list (string * list string * string) :=
  [ ("How many bones are there in the human body?",
     ["206"; "201"; "212"; "195"], "206");
    ("What vitamin do we get from sunlight?",
     ["Vitamin A"; "Vitamin B12"; "Vitamin D"; "Vitamin C"], "Vitamin D");
    ("Which organ uses the most oxygen?",
     ["Heart"; "Brain"; "Lungs"; "Liver"], "Brain");
    ("What percentage of the human body is water?",
     ["50-60%"; "60-70%"; "70-80%"; "80-90%"], "60-70%");
    ("Which nutrient is the primary source of energy for the body?",
     ["Protein"; "Fats"; "Carbohydrates"; "Vitamins"], "Carbohydrates") ].

Definition generate_quiz (draw : nat) : option (string * list string * string) :=
  random_choice questions draw.

End AppUtils.

(** ** wikifit_basic.py: the guarded summary *)

Module WikifitBasic.
Import Py Http.

(** What one call leaves behind: the requests issued, the error boxes shown
    with [st.error], and the value returned. *)
Record shown : Type := Shown {
  requests : list request;
  errors : list string;
  returned : value
}.

Section Messages.

(** [str(e)] of an exception, as the interpreter words it. *)
Variable str : exn -> string.

(** [get_wikipedia_summary] of wikifit_basic.py:
    [try: return wikimedia.get_wikipedia_summary(term)
     except Exception as e: st.error(...); return "Connection error. ..."] *)
Definition get_wikipedia_summary (net : network) (term : string) : shown :=
  match Wikimedia.get_wikipedia_summary net term with
  | (issued, Ok v) => Shown issued [] v
  | (issued, Raise e) =>
      Shown issued ["Request error: " ++ str e]
        (VStr "Connection error. Please try again later.")
  end.

End Messages.

End WikifitBasic.

(** ** app.py: the bookkeeping at the top of every run *)

Module Session.

(** The keys of [st.session_state] that the script keeps; [None] is a key
    that is not there yet.  [last_visit] can be there and hold [None]. *)
Record session_state : Type := SessionState {
  visit_history : option (list string);
  workout_completed : option Z;
  quiz_score : option Z;
  last_visit : option (option string)
}.

(** The readings of [datetime.now()] during the bookkeeping, one per call:
    the hour, the date as the sidebar words it, and the date as
    [%Y-%m-%d], which is read twice. *)
Record clock : Type := Clock {
  hour : Z;
  today : string;
  first_date : string;
  second_date : string
}.

(** What goes to the sidebar. *)
Inductive sidebar_item : Type :=
| Markdown (text : string)
| Success (text : string).

Definition greeting (current_hour : Z) : string :=
  if (5 <=? current_hour) && (current_hour <? 12) then "Good morning"
  else if (12 <=? current_hour) && (current_hour <? 17) then "Good afternoon"
  else "Good evening".

(** [if current_date not in history: history.append(current_date)] *)
Definition record_date (history : list string) (current_date : string) : list string :=
  if Py.mem_string current_date history then history
  else (history ++ [current_date])%list.

(** [x != y] between [last_visit] and a date. *)
Definition differs (last : option string) (current_date : string) : bool :=
  match last with
  | None => true
  | Some d => negb (String.eqb d current_date)
  end.

(** The run of the script from the initialisation of [visit_history] to the
    check for a new day: the state it leaves and what it writes to the
    sidebar. *)
Definition bookkeeping (s : session_state) (now : clock)
  : session_state * list sidebar_item :=
  let history := match visit_history s with Some h => h | None => [] end in
  let days_visited := List.length history in
  let streak :=
    if (0 <? days_visited)%nat
    then [Markdown ("**Streak**: " ++ PyStr.of_int (Z.of_nat days_visited) ++ " days")]
    else [] in
  let history := record_date history (first_date now) in
  let workouts := match workout_completed s with Some n => n | None => 0 end in
  let score := match quiz_score s with Some n => n | None => 0 end in
  let last := match last_visit s with Some l => l | None => None end in
  let top :=
    ([ Markdown ("### " ++ greeting (hour now) ++ "!");
       Markdown "Welcome to WikiFit, your personal health assistant.";
       Markdown ("**Today**: " ++ today now) ] ++ streak)%list in
  if differs last (second_date now) then
    (SessionState (Some (record_date history (second_date now)))
       (Some workouts) (Some score) (Some (Some (second_date now))),
     (top ++ [Success "Welcome to a new day of health & fitness!"])%list)
  else
    (SessionState (Some history) (Some workouts) (Some score) (Some last), top).

End Session.

(** * Further vocabulary: request protocol, response order, normal forms *)

Module Specs.
Import Py Http Wikimedia Vocabulary.

(** A term in normal form: no space character in it, no whitespace around
    it. *)
Definition normal_form (t : string) : bool :=
  negb (PyStr.str_contains " " t) && String.eqb (PyStr.strip t) t.

(** The sources in the order in which [search_all_wikimedia] queries them. *)
Definition source_order : list source :=
  [ Wikipedia; Wiktionary; Wikiquote; Wikibooks; Commons;
    Wikisource; Wikiversity; Wikispecies; Wikidata ].

(** The body of [search_all_wikimedia] from some adapter on: query the
    remaining sources one after the other, storing each result under its
    key. *)
Fixpoint collect (net : network) (search_term : string) (srcs : list source)
  (results : list (string * value)) : io value :=
  match srcs with
  | [] => ret (VDict results)
  | src :: rest =>
      bind (fetch src net search_term)
        (fun r => collect net search_term rest (dict_set results (key_of src) r))
  end.

(** The adapters that look up in two steps. *)
Definition two_step (src : source) : bool :=
  match src with
  | Commons | Wikidata => true
  | _ => false
  end.

(** The request an adapter issues first. *)
Definition first_request (src : source) (term : string) : request :=
  match src with
  | Commons => Request commons_url (Some (commons_search_params term (VInt 5)))
  | Wikisource => Request wikisource_url (Some (wikisource_params term))
  | Wikidata => Request wikidata_url (Some (wikidata_search_params term))
  | _ => summary_request src term
  end.

(** The requests that the sources in [srcs] issue, source after source. *)
Definition requests_of (net : network) (search_term : string) (srcs : list source)
  : list request :=
  flat_map (fun src => calls (fetch src net search_term)) srcs.

(** *** Response order *)

(** The adapters that return the "extract" of a page as they find it, read
    from an action-API response. *)
Definition extract_source (src : source) : bool :=
  match src with
  | Wiktionary | Wikibooks | Wikiversity | Wikispecies => true
  | _ => false
  end.

(** A page key that reads as a positive integer. *)
Definition positive_id (page_id : string) : bool :=
  match PyStr.parse_int page_id with
  | Some n => 0 <? n
  | None => false
  end.

(** The page keys an adapter is prepared to look at: all of them for the
    dictionary, the positive ones for the others. *)
Definition keeps (src : source) (page_id : string) : bool :=
  match src with
  | Wiktionary => true
  | _ => positive_id page_id
  end.

(** What an adapter says when no page yields an extract. *)
Definition nothing_found (src : source) : string :=
  match src with
  | Wiktionary => "No definition found."
  | Wikiquote => "No quotes found for this topic."
  | Wikibooks => "No Wikibooks content found for this topic."
  | Wikiversity => "No Wikiversity resources found for this topic."
  | Wikispecies => "No species information found."
  | _ => ""
  end.

(** The extract of the first page, in the order of [page_ids], whose key is
    kept and which has an "extract". *)
Fixpoint first_extract (keep : string -> bool) (pages : list (string * value))
  (page_ids : list string) : option value :=
  match page_ids with
  | [] => None
  | page_id :: rest =>
      match (if keep page_id then dict_get pages page_id else None) with
      | Some (VDict page) =>
          match dict_get page "extract" with
          | Some extract => Some extract
          | None => first_extract keep pages rest
          end
      | _ => first_extract keep pages rest
      end
  end.

(** Every page of the response is a JSON object. *)
Definition pages_are_objects (pages : list (string * value)) : Prop :=
  Forall (fun entry => exists page, snd entry = VDict page) pages.

(** Every page key reads as an integer. *)
Definition keys_are_numeric (pages : list (string * value)) : Prop :=
  Forall (fun entry => PyStr.parse_int (fst entry) <> None) pages.

(** A response with three pages: a missing one, one without text, and two
    with text. *)
Definition four_pages : value :=
  VDict [("query",
          VDict [("pages",
                  VDict [("-1", VDict [("title", VStr "Zzyzx"); ("extract", VStr "stub")]);
                         ("7", VDict [("title", VStr "Yoga")]);
                         ("12", VDict [("title", VStr "Yoga (practice)");
                                       ("extract", VStr "Yoga is a group of practices.")]);
                         ("15", VDict [("extract", VStr "Later text.")])])])].

(** *** Results that are never blank *)

(** The sources whose adapter always has something to show. *)
Definition never_blank (src : source) : bool :=
  match src with
  | Wikipedia | Wikiquote | Wikidata => true
  | _ => false
  end.

(** A response with one page whose extract is blank. *)
Definition blank_page : value :=
  one_page "42" (VDict [("extract", VStr "")]).

(** A response whose first page holds only whitespace and whose second page
    holds a padded quotation. *)
Definition padded_quotes : value :=
  VDict [("query",
          VDict [("pages",
                  VDict [("7", VDict [("extract", VStr "   ")]);
                         ("12", VDict [("extract", VStr "  To be, or not to be.  ")])])])].

(** *** Search hits *)






(** *** The knowledge base, step by step *)

(** The two requests as they go out, parameter by parameter: the search
    for a term and the look-up of an identifier. *)
Definition entity_search (term : string) : request :=
  Request "https://www.wikidata.org/w/api.php"
    (Some [ ("action", VStr "wbsearchentities"); ("format", VStr "json");
            ("search", VStr term); ("language", VStr "en") ]).

Definition entity_lookup (entity_id : value) : request :=
  Request "https://www.wikidata.org/w/api.php"
    (Some [ ("action", VStr "wbgetentities"); ("format", VStr "json");
            ("ids", entity_id); ("languages", VStr "en") ]).

(** [xs] is [ys] with some elements left out. *)
Inductive subsequence {A : Type} : list A -> list A -> Prop :=
| subsequence_nil : forall ys, subsequence [] ys
| subsequence_skip : forall xs y ys, subsequence xs ys -> subsequence xs (y :: ys)
| subsequence_take : forall x xs ys, subsequence xs ys -> subsequence (x :: xs) (x :: ys).

(** A search with two hits for the knowledge base of [aspirin_net]; the
    second hit names an entity that does not exist. *)
Definition two_hit_search : value :=
  VDict [("search", VList [VDict [("id", VStr "Q18216")];
                           VDict [("id", VStr "Q0")]])].

Definition two_hit_net : network :=
  fun rq =>
    if eq_str (action_of rq) "wbsearchentities" then Response 200 (Some two_hit_search)
    else if eq_str (action_of rq) "wbgetentities" then Response 200 (Some aspirin_entities)
    else Unreachable.

(** *** Titles found by the media search *)

(** The titles of the hits that have one, in response order: what
    [image_titles] holds after the first loop. *)
Fixpoint hit_titles (hits : list (list (string * value))) : list value :=
  match hits with
  | [] => []
  | hit :: rest =>
      match dict_get hit "title" with
      | Some title => title :: hit_titles rest
      | None => hit_titles rest
      end
  end.

(** The two requests as they go out, parameter by parameter: the search
    for a term and the look-up of a list of titles, which go into one
    parameter with "|" between them. *)
Definition image_search (term : string) (limit : value) : request :=
  Request "https://commons.wikimedia.org/w/api.php"
    (Some [ ("action", VStr "query"); ("format", VStr "json");
            ("list", VStr "search");
            ("srsearch", VStr (term ++ " haswbstatement:P180=" ++ term));
            ("srnamespace", VInt 6); ("srlimit", limit) ]).

Definition image_request (titles : list string) : request :=
  Request "https://commons.wikimedia.org/w/api.php"
    (Some [ ("action", VStr "query"); ("format", VStr "json");
            ("titles", VStr (String.concat "|" titles));
            ("prop", VStr "imageinfo"); ("iiprop", VStr "url|extmetadata");
            ("iiurlwidth", VInt 300) ]).

(** A search response with three hits, the second without a title. *)
Definition three_hits : list (list (string * value)) :=
  [ [("title", VStr "File:Aspirin.jpg"); ("ns", VInt 6)];
    [("ns", VInt 6)];
    [("title", VStr "File:Pills.png")] ].

Definition three_hits_net : network :=
  fun rq =>
    if eq_str (list_of rq) "search"
    then Response 200
           (Some (VDict [("query", VDict [("search", VList (map VDict three_hits))])]))
    else Response 200 (Some commons_pages).

(** *** Stand-ins for the built-ins of [calculate_bmi] *)

(** A [pow] that squares by multiplying, and a [round] that leaves its
    argument alone: enough to run [calculate_bmi] on examples. *)
Definition multiplying_pow : float -> Z -> AppUtils.answer float :=
  fun x _ => AppUtils.Value (PrimFloat.mul x x).

Definition idle_round : float -> Z -> float := fun x _ => x.

(** The four category names. *)
Definition bmi_categories : list string :=
  ["Underweight"; "Normal weight"; "Overweight"; "Obese"].

(** *** Tips, plans and quiz *)



(** *** Sessions *)

(** The visit history of a session, empty while the key is missing. *)
Definition history_of (s : Session.session_state) : list string :=
  match Session.visit_history s with
  | Some h => h
  | None => []
  end.

(** The state of a browser session before the first run. *)
Definition fresh_session : Session.session_state :=
  Session.SessionState None None None None.

(** A session whose history holds each date once and holds the date of the
    last visit. *)
Definition consistent (s : Session.session_state) : Prop :=
  NoDup (history_of s)
  /\ forall d, Session.last_visit s = Some (Some d) -> In d (history_of s).

Definition new_day_message : Session.sidebar_item :=
  Session.Success "Welcome to a new day of health & fitness!".

(** The three lines every run writes first. *)
Definition sidebar_top (now : Session.clock) : list Session.sidebar_item :=
  [ Session.Markdown ("### " ++ Session.greeting (Session.hour now) ++ "!");
    Session.Markdown "Welcome to WikiFit, your personal health assistant.";
    Session.Markdown ("**Today**: " ++ Session.today now) ].

Definition streak_line (days_visited : nat) : Session.sidebar_item :=
  Session.Markdown
    ("**Streak**: " ++ PyStr.of_int (Z.of_nat days_visited) ++ " days").

(** A run in which midnight passes between the two readings of the
    date. *)
Definition across_midnight : Session.clock :=
  Session.Clock 23 "November 03, 2026" "2026-11-03" "2026-11-04".

(** A session that was last used the day before. *)
Definition returning_session : Session.session_state :=
  Session.SessionState (Some ["2026-11-01"; "2026-11-02"]) (Some 3) (Some 1)
    (Some (Some "2026-11-02")).

(** *** Scorers off the beaten path *)


End Specs.

(** * Properties *)

(** ** Worked examples *)

Section Examples.
Import Py Http Wikimedia Vocabulary.

Example normalize_vitamin_d : normalize "  vitamin d " = "vitamin_d".
Proof. reflexivity. Qed.

(** A summary source answering 200 with an extract yields that text. *)
Example wikipedia_vitamin_d :
  get_wikipedia_summary
    (always 200 (Some (VDict [("type", VStr "standard");
                              ("extract", VStr "Vitamin D is a...")])))
    "Vitamin_D"
  = ([Request "https://en.wikipedia.org/api/rest_v1/page/summary/Vitamin_D" None],
     Ok (VStr "Vitamin D is a...")).
Proof. reflexivity. Qed.

Example wikipedia_not_found_404 :
  result (get_wikipedia_summary (always 404 None) "Nonexistent_Topic_Xyz")
  = Ok (VStr "The topic 'Nonexistent_Topic_Xyz' was not found on Wikipedia. Please check spelling or try another term.").
Proof. reflexivity. Qed.

Example wikipedia_disambiguation_page :
  result (get_wikipedia_summary
            (always 200 (Some (VDict [("type", VStr "disambiguation");
                                      ("extract", VStr "")])))
            "Mercury")
  = Ok (VStr "'Mercury' refers to multiple topics. Please try a more specific search term.").
Proof. reflexivity. Qed.

(** A missing page comes back keyed "-1" and without an extract. *)
Example wikibooks_missing_page :
  result (get_wikibooks_content
            (always 200 (Some (one_page "-1" (VDict [("title", VStr "Zzyzx");
                                                     ("missing", VStr "")]))))
            "Zzyzx")
  = Ok (VStr "No Wikibooks content found for this topic.").
Proof. reflexivity. Qed.

Example wikiquote_first_page_wins :
  result (get_wikiquote_quotes
            (always 200
               (Some (VDict [("query",
                              VDict [("pages",
                                      VDict [("7", VDict [("extract", VStr "  ")]);
                                             ("12", VDict [("extract", VStr " To be. ")]);
                                             ("15", VDict [("extract", VStr "Not to be.")])])])])))
            "Hamlet")
  = Ok (VStr "To be.").
Proof. reflexivity. Qed.

Example wikisource_strips_highlight :
  result (get_wikisource_texts
            (always 200
               (Some (VDict [("query",
                              VDict [("search",
                                      VList [VDict [("title", VStr "On Diet");
                                                    ("snippet",
                                                     VStr ("the " ++ searchmatch_open
                                                           ++ "diet</span> of"))]])])])))
            "diet")
  = Ok (VList [VDict [("title", VStr "On Diet"); ("snippet", VStr "the diet of")]]).
Proof. reflexivity. Qed.

Example commons_two_calls :
  get_wikimedia_commons_images (commons_net (Response 200 (Some commons_pages)))
    "aspirin" (VInt 5)
  = ([Request commons_url (Some (commons_search_params "aspirin" (VInt 5)));
      Request commons_url
        (Some (commons_image_params "File:Aspirin.jpg|File:Pills.png"))],
     Ok (VList [image_descriptor (VStr "Aspirin.jpg")
                  (VStr "https://upload.example/a.jpg") (VStr "Aspirin")])).
Proof. reflexivity. Qed.

Example wikidata_no_hit :
  result (get_wikidata_health_info (always 200 (Some (VDict [("search", VList [])])))
            "zzyzx")
  = Ok (VStr "No Wikidata information found for this term.").
Proof. reflexivity. Qed.

Example answer_smoking :
  App.answer_health_question (Some (fixed_scorer 0.9 "Smoking"))
    "What is the leading cause of preventable death?"
    "Smoking is the leading cause of preventable death worldwide."
  = ([App.QaCall "What is the leading cause of preventable death?"
        "Smoking is the leading cause of preventable death worldwide." 100 true],
     "Smoking").
Proof. reflexivity. Qed.

Example answer_scorer_fault :
  snd (App.answer_health_question (Some refusing_scorer) "What is BMI?" "")
  = "Sorry, I couldn't process your question. Error: called".
Proof. reflexivity. Qed.

End Examples.

(** ** The answer extractor *)

Section AnswerExtractor.
Import App Vocabulary.

(** Comparison of floats is antisymmetric: [x < y] excludes [y <= x]. *)
Lemma SFcompare_Lt_swap (x y : spec_float) :
  SFcompare x y = Some Lt -> SFcompare y x = Some Gt.
Proof.
  destruct x as [sx | sx | | sx mx ex], y as [sy | sy | | sy my ey]; simpl;
    try discriminate;
    try (destruct sx; simpl; congruence);
    try (destruct sy; simpl; congruence);
    try (destruct sx, sy; simpl; congruence).
  destruct sx, sy; simpl; try congruence;
    rewrite (Z.compare_antisym ex ey);
    destruct (ex ?= ey) eqn:E; simpl; try congruence;
    pose proof (Pos.compare_cont_antisym mx my Eq) as A; simpl in A;
    rewrite <- A; destruct (Pos.compare_cont Eq mx my); simpl; congruence.
Qed.

Lemma ltb_false_of_leb (x y : float) :
  PrimFloat.leb y x = true -> PrimFloat.ltb x y = false.
Proof.
  rewrite leb_spec, ltb_spec. unfold SFleb, SFltb.
  destruct (SFcompare (Prim2SF x) (Prim2SF y)) as [[ | | ] | ] eqn:E; try reflexivity.
  apply SFcompare_Lt_swap in E. rewrite E. discriminate.
Qed.



(** C4.  With the pipeline loaded, a question of fewer than five characters
    gets the fixed rejection message, whatever the context, and the scorer
    is not called. *)
Theorem answer_health_question_short_question
  (qa : scorer) (question context : string) :
  (String.length question < 5)%nat ->
  answer_health_question (Some qa) question context = ([], rejection_message)
  /\ rejection_message = "Please ask a more specific question.".
Proof.
  intros Hlen. unfold answer_health_question.
  apply Nat.ltb_lt in Hlen. rewrite Hlen. split; reflexivity.
Qed.

Lemma answer_health_question_short_question_witness :
  answer_health_question (Some refusing_scorer) "BMI?" "Body mass index."
    = ([], rejection_message)
  /\ rejection_message = "Please ask a more specific question.".
Proof.
  apply (answer_health_question_short_question refusing_scorer "BMI?"
           "Body mass index.").
  simpl; lia.
Defined.



End AnswerExtractor.

(** ** Term normalization *)

Section Normalization.
Import PyStr Vocabulary.

Lemma replace_space_map (s : string) :
  replace " " "_" s = map_chars underscore s.
Proof.
  unfold replace. induction s as [ | c s IH]; [reflexivity | ].
  cbn [replace_from starts_with String.length Nat.pred map_chars].
  unfold underscore. destruct (Ascii.eqb " " c); cbn; now rewrite IH.
Qed.

Lemma underscore_not_space (c : ascii) :
  is_space c = false -> is_space (underscore c) = false.
Proof.
  unfold underscore. destruct (Ascii.eqb " " c); [reflexivity | trivial].
Qed.

Lemma underscore_idempotent (c : ascii) : underscore (underscore c) = underscore c.
Proof.
  unfold underscore at 2 3. destruct (Ascii.eqb " " c) eqn:E; [reflexivity | ].
  unfold underscore. now rewrite E.
Qed.

Lemma map_chars_underscore_idempotent (s : string) :
  map_chars underscore (map_chars underscore s) = map_chars underscore s.
Proof.
  induction s as [ | c s IH]; simpl; [reflexivity | ].
  now rewrite underscore_idempotent, IH.
Qed.

End Normalization.

Section StrippingLemmas.
Import PyStr Vocabulary.
Variable space : ascii -> bool.
Variable f : ascii -> ascii.
Hypothesis f_keeps_non_space : forall c, space c = false -> space (f c) = false.

Lemma lstrip_of_length (s : string) :
  (String.length (lstrip_of space s) <= String.length s)%nat.
Proof.
  induction s as [ | c s IH]; simpl; [lia | ].
  destruct (space c); simpl; lia.
Qed.

(** A string that [lstrip] leaves alone is empty or starts with a
    non-space; likewise at the other end for [rstrip]. *)
Lemma lstrip_of_fixed_map (s : string) :
  lstrip_of space s = s -> lstrip_of space (map_chars f s) = map_chars f s.
Proof.
  destruct s as [ | c s]; [reflexivity | ]. simpl.
  destruct (space c) eqn:E.
  - intros H. pose proof (lstrip_of_length s) as L. rewrite H in L. simpl in L. lia.
  - intros _. now rewrite (f_keeps_non_space _ E).
Qed.

Lemma rstrip_of_fixed_map (s : string) :
  rstrip_of space s = s -> rstrip_of space (map_chars f s) = map_chars f s.
Proof.
  induction s as [ | c s IH]; [reflexivity | ]. simpl.
  destruct (rstrip_of space s) as [ | a r] eqn:E.
  - destruct (space c) eqn:Ec; [discriminate | ].
    intros H. injection H as <-. simpl.
    now rewrite (f_keeps_non_space _ Ec).
  - intros H. injection H as H. rewrite (IH H). rewrite <- H. reflexivity.
Qed.

Lemma lstrip_of_idempotent (s : string) :
  lstrip_of space (lstrip_of space s) = lstrip_of space s.
Proof.
  induction s as [ | c s IH]; [reflexivity | ]. simpl.
  destruct (space c) eqn:E; [exact IH | ]. simpl. now rewrite E.
Qed.

Lemma rstrip_of_idempotent (s : string) :
  rstrip_of space (rstrip_of space s) = rstrip_of space s.
Proof.
  induction s as [ | c s IH]; [reflexivity | ]. simpl.
  destruct (rstrip_of space s) as [ | a r] eqn:E.
  - destruct (space c) eqn:Ec; [reflexivity | ]. simpl. now rewrite Ec.
  - simpl in *. rewrite IH. reflexivity.
Qed.

(** [rstrip] keeps a string that starts with a non-space starting so. *)
Lemma lstrip_of_strip_of (s : string) :
  lstrip_of space (strip_of space s) = strip_of space s.
Proof.
  assert (K : forall t, lstrip_of space t = t ->
                        lstrip_of space (rstrip_of space t) = rstrip_of space t).
  { intros [ | c t]; [reflexivity | ]. simpl.
    destruct (space c) eqn:Ec.
    - intros H. pose proof (lstrip_of_length t) as L. rewrite H in L. simpl in L. lia.
    - intros _. destruct (rstrip_of space t); simpl; now rewrite Ec. }
  apply K, lstrip_of_idempotent.
Qed.

End StrippingLemmas.

Section NormalizationTheorem.
Import PyStr Vocabulary.

(** C8.  Normalizing a term ([strip], then every space replaced by an
    underscore) is idempotent. *)
Theorem normalize_idempotent (t : string) :
  Wikimedia.normalize (Wikimedia.normalize t) = Wikimedia.normalize t.
Proof.
  unfold Wikimedia.normalize. rewrite !replace_space_map.
  set (u := strip t).
  assert (Hl : lstrip_of is_space u = u) by apply lstrip_of_strip_of.
  assert (Hr : rstrip_of is_space u = u) by apply rstrip_of_idempotent.
  unfold strip at 1, strip_of.
  rewrite (lstrip_of_fixed_map _ _ underscore_not_space _ Hl),
    (rstrip_of_fixed_map _ _ underscore_not_space _ Hr).
  apply map_chars_underscore_idempotent.
Qed.

End NormalizationTheorem.

(** ** Reasoning about [io] *)

Section IoLemmas.
Import Py Http.

Lemma result_ret {A} (a : A) : result (ret a) = Ok a.
Proof. reflexivity. Qed.

Lemma result_lift {A} (r : res A) : result (lift r) = r.
Proof. reflexivity. Qed.

Lemma result_bind {A B} (m : io A) (k : A -> io B) :
  result (bind m k)
    = match result m with
      | Ok a => result (k a)
      | Raise e => Raise e
      end.
Proof.
  destruct m as [t [a | e]]; simpl; [ | reflexivity].
  now destruct (k a).
Qed.

Lemma calls_bind {A B} (m : io A) (k : A -> io B) :
  calls (bind m k)
    = match result m with
      | Ok a => (calls m ++ calls (k a))%list
      | Raise _ => calls m
      end.
Proof.
  destruct m as [t [a | e]]; simpl; [ | reflexivity].
  now destruct (k a).
Qed.

Lemma result_try_except (body : io value) (fallback : value) :
  result (try_except_RequestException body fallback)
    = match result body with
      | Ok v => Ok v
      | Raise e => if is_RequestException e then Ok fallback else Raise e
      end.
Proof.
  destruct body as [t [v | e]]; simpl; [reflexivity | ].
  now destruct (is_RequestException e).
Qed.

Lemma calls_try_except (body : io value) (fallback : value) :
  calls (try_except_RequestException body fallback) = calls body.
Proof.
  destruct body as [t [v | e]]; simpl; [reflexivity | ].
  now destruct (is_RequestException e).
Qed.

Lemma result_requests_get (net : network) (rq : request) :
  result (requests_get net rq) = delivers (net rq).
Proof. reflexivity. Qed.

Lemma calls_requests_get (net : network) (rq : request) :
  calls (requests_get net rq) = [rq].
Proof. reflexivity. Qed.


End IoLemmas.

(** Reduction that leaves the code reading a body alone. *)
Ltac step :=
  cbn - [Wikimedia.wikipedia_summary_200 Wikimedia.commons_image_titles
         Wikimedia.commons_image_data Wikimedia.wikidata_entity_200
         Py.get Py.getitem Py.join Py.truthy].

(** ** The summary-style adapters *)

Section SummaryAdapters.
Import Py Http Wikimedia Vocabulary.




(** An entry whose key reads as an integer that is not positive fails the
    guard of the four adapters that have it. *)
Lemma nonpositive_page_fails_guard (pages : value) (page_id : string) (n : Z) :
  PyStr.parse_int page_id = Some n -> n <= 0 ->
  positive_with_extract pages (VStr page_id) = Ok false.
Proof.
  intros Hparse Hn. unfold positive_with_extract. simpl. rewrite Hparse. simpl.
  destruct (0 <? n) eqn:E; [apply Z.ltb_lt in E; lia | reflexivity].
Qed.

(** ... so their loops pass over it. *)
Lemma nonpositive_page_skipped (pages : value) (page_id : string) (n : Z)
  (rest : list value) (nothing_found : string) :
  PyStr.parse_int page_id = Some n -> n <= 0 ->
  wikiquote_pages_loop pages (VStr page_id :: rest)
    = wikiquote_pages_loop pages rest
  /\ extract_pages_loop nothing_found pages (VStr page_id :: rest)
     = extract_pages_loop nothing_found pages rest.
Proof.
  intros Hparse Hn. simpl.
  now rewrite (nonpositive_page_fails_guard pages page_id n Hparse Hn).
Qed.

(** The guarded loops run as if the entries of missing pages were not
    there. *)
Lemma guarded_loops_ignore_missing_pages (pages : value) (page_ids : list value)
  (nothing_found : string) :
  wikiquote_pages_loop pages page_ids
    = wikiquote_pages_loop pages (filter present_page_id page_ids)
  /\ extract_pages_loop nothing_found pages page_ids
     = extract_pages_loop nothing_found pages (filter present_page_id page_ids).
Proof.
  induction page_ids as [ | page_id rest [IHq IHe]]; [now split | ].
  unfold present_page_id in *. cbn [filter].
  destruct (missing_page_id page_id) eqn:Hmiss; cbn [negb].
  - destruct page_id as [ | | | | s | | ]; try discriminate Hmiss.
    cbn [missing_page_id] in Hmiss.
    destruct (PyStr.parse_int s) as [n | ] eqn:Hparse; [ | discriminate].
    apply Z.leb_le in Hmiss.
    destruct (nonpositive_page_skipped pages s n rest nothing_found Hparse Hmiss)
      as [Hq He].
    rewrite Hq, He. now split.
  - cbn [wikiquote_pages_loop extract_pages_loop]. rewrite <- IHq, <- IHe. now split.
Qed.

(** C7 at its failing input.  On a 200 response whose only entry is keyed
    "-1" and carries an extract, the dictionary adapter returns that
    extract; the quotation, book, course and taxonomy adapters skip the
    entry and report that nothing was found. *)
Theorem wiktionary_returns_missing_page :
  let net := always 200 (Some (one_page "-1" (VDict [("extract", VStr "stub")]))) in
  result (get_wiktionary_definition net "Zzyzx") = Ok (VStr "stub")
  /\ result (get_wikiquote_quotes net "Zzyzx")
     = Ok (VStr "No quotes found for this topic.")
  /\ result (get_wikibooks_content net "Zzyzx")
     = Ok (VStr "No Wikibooks content found for this topic.")
  /\ result (get_wikiversity_resources net "Zzyzx")
     = Ok (VStr "No Wikiversity resources found for this topic.")
  /\ result (get_wikispecies_info net "Zzyzx")
     = Ok (VStr "No species information found.").
Proof. repeat split; vm_compute; reflexivity. Qed.

End SummaryAdapters.

(** ** The structured knowledge-base adapter *)

Section Wikidata.
Import Py Http Wikimedia Vocabulary.
Local Open Scope res_scope.

Lemma in_dict_set (d : list (string * value)) (k k' : string) (v v' : value) :
  In (k, v) (dict_set d k' v') -> (k, v) = (k', v') \/ In (k, v) d.
Proof.
  induction d as [ | [k0 v0] d IH]; simpl.
  - intros [H | []]. left; congruence.
  - destruct (String.eqb k0 k'); simpl.
    + intros [H | H]; [left; congruence | right; right; exact H].
    + intros [H | H]; [right; left; exact H | ].
      destruct (IH H) as [E | I]; [left; exact E | right; right; exact I].
Qed.

Lemma dict_get_set_same (d : list (string * value)) (k : string) (v : value) :
  dict_get (dict_set d k v) k = Some v.
Proof.
  induction d as [ | [k0 v0] d IH]; cbn [dict_set dict_get].
  - now rewrite String.eqb_refl.
  - destruct (String.eqb k0 k) eqn:E; cbn [dict_get].
    + now rewrite String.eqb_refl.
    + now rewrite E.
Qed.

Lemma dict_get_set_other (d : list (string * value)) (k k' : string) (v : value) :
  k' <> k -> dict_get (dict_set d k v) k' = dict_get d k'.
Proof.
  intros Hne. induction d as [ | [k0 v0] d IH]; cbn [dict_set dict_get].
  - destruct (String.eqb k k') eqn:E; [ | reflexivity].
    apply String.eqb_eq in E. congruence.
  - destruct (String.eqb k0 k) eqn:E; cbn [dict_get].
    + apply String.eqb_eq in E. subst k0.
      destruct (String.eqb k k') eqn:E'; [ | reflexivity].
      apply String.eqb_eq in E'. congruence.
    + now rewrite IH.
Qed.

(** [v == "literal"] holds of that string only. *)
Lemma eq_str_true (v : value) (s : string) : eq_str v s = true <-> v = VStr s.
Proof.
  unfold eq_str. destruct v; cbn; split; try discriminate.
  - intros E. apply String.eqb_eq in E. now subst.
  - intros [= ->]. apply String.eqb_refl.
Qed.

(** One round of the inner loop: a claim that the code takes links to the
    identifier it appends, a claim it passes over links to nothing. *)
Lemma claim_values_loop_step (claim : value) (rest values out : list value) :
  claim_values_loop (claim :: rest) values = Ok out ->
  claim_values_loop rest
    (values ++ match linked_entity_id claim with
               | Some id => [id]
               | None => []
               end) = Ok out.
Proof.
  cbn [claim_values_loop]. unfold linked_entity_id, field.
  destruct claim as [ | | | | | | c]; try discriminate.
  cbn [Py.get rbind].
  destruct (dict_get c "mainsnak") as [mainsnak | ];
    [ | cbn; now rewrite app_nil_r].
  unfold is_item_snak.
  destruct mainsnak as [ | | | | | | m]; try discriminate.
  cbn [Py.get rbind].
  destruct (dict_get m "datatype") as [datatype | ];
    [ | cbn; now rewrite app_nil_r].
  destruct (eq_str datatype "wikibase-item") eqn:Etype.
  - apply eq_str_true in Etype. subst datatype.
    cbn [Py.contains Py.getitem rbind]. unfold dict_mem.
    destruct (dict_get m "datavalue") as [datavalue | ];
      [ | cbn; now rewrite app_nil_r].
    cbn [rbind String.eqb Ascii.eqb Bool.eqb].
    destruct datavalue as [ | | | | | | dv]; try discriminate.
    cbn [Py.getitem rbind].
    destruct (dict_get dv "value") as [inner | ]; [ | discriminate].
    cbn [rbind].
    destruct inner as [ | | | | | | i]; try discriminate.
    cbn [Py.getitem rbind].
    destruct (dict_get i "id") as [value_id | ]; [ | discriminate].
    cbn [rbind]. tauto.
  - cbn [rbind].
    destruct datatype as [ | | | | dt | | ]; try (now rewrite app_nil_r).
    unfold eq_str in Etype. cbn [py_eq] in Etype. rewrite Etype.
    destruct (dict_get m "datavalue"); now rewrite app_nil_r.
Qed.

(** The inner loop collects the identifiers that the claims link to, in
    order. *)
Lemma claim_values_loop_linked (claim_list : list value) :
  forall values out,
    claim_values_loop claim_list values = Ok out ->
    out = (values ++ linked_entity_ids claim_list)%list.
Proof.
  induction claim_list as [ | claim rest IH]; intros values out H.
  - cbn in H. injection H as <-. cbn. now rewrite app_nil_r.
  - apply claim_values_loop_step in H. rewrite (IH _ _ H).
    unfold linked_entity_ids. cbn [flat_map]. now rewrite <- app_assoc.
Qed.

(** A list of strings is no list of claims. *)
Lemma claim_values_loop_strings (l : list string) (out : list value) :
  claim_values_loop (map VStr l) [] = Ok out -> l = [].
Proof. destruct l as [ | s l]; [reflexivity | discriminate]. Qed.

Lemma chars_strings (s : string) :
  exists l, chars s = map VStr l.
Proof.
  unfold chars. induction (list_ascii_of_string s) as [ | c cs [l IH]].
  - now exists [].
  - exists (String c EmptyString :: l). cbn [map]. now rewrite IH.
Qed.

(** What the code collects for one property is what the entity's claims
    under it link to. *)
Lemma property_values (entity claims : value) (prop_id : string) :
  Py.get entity "claims" (VDict []) = Ok claims ->
  (Py.contains (VStr prop_id) claims = Ok false ->
   claims_under entity prop_id = [])
  /\ (forall prop_claims claim_list values,
         Py.contains (VStr prop_id) claims = Ok true ->
         Py.getitem claims (VStr prop_id) = Ok prop_claims ->
         Py.iter prop_claims = Ok claim_list ->
         claim_values_loop claim_list [] = Ok values ->
         values = linked_entity_ids (claims_under entity prop_id)).
Proof.
  unfold claims_under, field.
  destruct entity as [ | | | | | | e]; try discriminate.
  cbn [Py.get]. intros [= <-].
  destruct (dict_get e "claims") as [claims | ].
  - destruct claims as [ | b | n | f | s | l | cl]; split; try discriminate;
      try reflexivity.
    + cbn [Py.contains]. unfold dict_mem.
      destruct (dict_get cl prop_id); [discriminate | reflexivity].
    + intros prop_claims claim_list values _. cbn [Py.getitem].
      destruct (dict_get cl prop_id) as [x | ]; [ | discriminate].
      intros [= <-] Hiter Hloop.
      destruct x as [ | b | n | f | s | l | items]; try discriminate Hiter;
        cbn [Py.iter] in Hiter; injection Hiter as <-.
      * destruct (chars_strings s) as [l El]. rewrite El in Hloop.
        pose proof (claim_values_loop_strings _ _ Hloop) as ->.
        cbn in Hloop. now injection Hloop as <-.
      * now rewrite (claim_values_loop_linked _ _ _ Hloop).
      * pose proof (claim_values_loop_strings _ _ Hloop) as E.
        rewrite E in Hloop. cbn in Hloop. now injection Hloop as <-.
  - split; [reflexivity | ]. intros prop_claims claim_list values _. discriminate.
Qed.

Lemma properties_loop_entries (claims : value) (props : list (string * string)) :
  forall properties out,
    properties_loop claims props properties = Ok out ->
    forall name v,
      In (name, v) out ->
      In (name, v) properties
      \/ (In name (map snd props) /\ exists ids, v = VList ids /\ ids <> []).
Proof.
  induction props as [ | [prop_id prop_name] rest IH];
    intros properties out H name v Hin; simpl in H.
  - injection H as <-. now left.
  - destruct (Py.contains (VStr prop_id) claims) as [[ | ] | ] eqn:Ep; simpl in H;
      [ | | discriminate].
    + destruct (Py.getitem claims (VStr prop_id)) as [prop_claims | ] eqn:Eg;
        simpl in H; [ | discriminate].
      destruct (Py.iter prop_claims) as [claim_list | ] eqn:Ei;
        simpl in H; [ | discriminate].
      destruct (claim_values_loop claim_list []) as [values | ] eqn:Ev;
        simpl in H; [ | discriminate].
      destruct values as [ | value_id values'].
      * destruct (IH _ _ H _ _ Hin) as [Hold | [Hname Hv]];
          [now left | right; split; [simpl; now right | exact Hv]].
      * destruct (IH _ _ H _ _ Hin) as [Hnew' | [Hname Hv]].
        -- destruct (in_dict_set _ _ _ _ _ Hnew') as [E | Hold]; [ | now left].
           injection E as -> ->. right. split; [simpl; now left | ].
           exists (value_id :: values'). now split.
        -- right; split; [simpl; now right | exact Hv].
    + destruct (IH _ _ H _ _ Hin) as [Hold | [Hname Hv]];
        [now left | right; split; [simpl; now right | exact Hv]].
Qed.

(** The outer loop binds each name of its table to what the entity's
    claims under the property link to, or leaves the name out. *)
Lemma properties_loop_expected (entity claims : value)
  (props : list (string * string)) :
  Py.get entity "claims" (VDict []) = Ok claims ->
  forall properties out,
    properties_loop claims props properties = Ok out ->
    NoDup (map snd props) ->
    (forall name, In name (map snd props) -> dict_get properties name = None) ->
    (forall prop_id name,
        In (prop_id, name) props ->
        dict_get out name = expected_property entity prop_id)
    /\ (forall name,
           ~ In name (map snd props) -> dict_get out name = dict_get properties name).
Proof.
  intros Hclaims.
  induction props as [ | [prop_id prop_name] rest IH];
    intros properties out H Hnodup Hfresh; cbn [properties_loop] in H.
  - injection H as <-. split; [intros ? ? [] | reflexivity].
  - cbn [map snd] in Hnodup, Hfresh. inversion Hnodup as [ | ? ? Hhead Hrest]; subst.
    destruct (property_values entity claims prop_id Hclaims) as [Hskip Htake].
    assert (Hstay : forall out',
               properties_loop claims rest properties = Ok out' ->
               expected_property entity prop_id = None ->
               (forall prop_id' name,
                   In (prop_id', name) ((prop_id, prop_name) :: rest) ->
                   dict_get out' name = expected_property entity prop_id')
               /\ (forall name,
                      ~ In name (prop_name :: map snd rest) ->
                      dict_get out' name = dict_get properties name)).
    { intros out' H' Hnone.
      destruct (IH _ _ H' Hrest) as [IH1 IH2].
      { intros name Hname. apply Hfresh. now right. }
      split.
      - intros prop_id' name [[= <- <-] | Hin]; [ | now apply IH1].
        rewrite (IH2 _ Hhead), Hnone. apply Hfresh. now left.
      - intros name Hname. apply IH2. intros Hin. apply Hname. now right. }
    destruct (Py.contains (VStr prop_id) claims) as [[ | ] | ] eqn:Ep;
      cbn [rbind] in H; [ | | discriminate].
    + destruct (Py.getitem claims (VStr prop_id)) as [prop_claims | ] eqn:Eg;
        cbn [rbind] in H; [ | discriminate].
      destruct (Py.iter prop_claims) as [claim_list | ] eqn:Ei;
        cbn [rbind] in H; [ | discriminate].
      destruct (claim_values_loop claim_list []) as [values | ] eqn:Ev;
        cbn [rbind] in H; [ | discriminate].
      pose proof (Htake _ _ _ eq_refl eq_refl Ei Ev) as Hvalues.
      destruct values as [ | value_id values'].
      * apply (Hstay _ H). unfold expected_property. now rewrite <- Hvalues.
      * destruct (IH _ _ H Hrest) as [IH1 IH2].
        { intros name Hname. rewrite dict_get_set_other; [apply Hfresh; now right | ].
          intros ->. contradiction. }
        split.
        -- intros prop_id' name [[= <- <-] | Hin]; [ | now apply IH1].
           rewrite (IH2 _ Hhead), dict_get_set_same.
           unfold expected_property. now rewrite <- Hvalues.
        -- intros name Hname. rewrite IH2; [ | intros Hin; apply Hname; now right].
           apply dict_get_set_other. intros ->. apply Hname. now left.
    + apply (Hstay _ H). unfold expected_property. now rewrite (Hskip eq_refl).
Qed.

(** The structured result, read against the entity it was built from. *)
Lemma wikidata_entity_info_shape (entity : value) (d : list (string * value)) :
  wikidata_entity_info entity = Ok (VDict d) ->
  exists label description properties,
    d = [("label", label); ("description", description);
         ("properties", VDict properties)]
    /\ (forall name v,
           In (name, v) properties ->
           In name property_names /\ exists ids, v = VList ids /\ ids <> [])
    /\ (forall prop_id name,
           In (prop_id, name) allow_list ->
           dict_get properties name = expected_property entity prop_id).
Proof.
  unfold wikidata_entity_info. intros H.
  destruct (english_value entity "labels" "No label") as [label | ];
    cbn [rbind] in H; [ | discriminate].
  destruct (english_value entity "descriptions" "No description") as [description | ];
    cbn [rbind] in H; [ | discriminate].
  destruct (Py.get entity "claims" (VDict [])) as [claims | ] eqn:Ec;
    cbn [rbind] in H; [ | discriminate].
  destruct (properties_loop claims property_map []) as [properties | ] eqn:Ep;
    cbn [rbind] in H; [ | discriminate].
  injection H as <-. exists label, description, properties.
  split; [reflexivity | split].
  - intros name v Hin.
    destruct (properties_loop_entries _ _ _ _ Ep _ _ Hin) as [[] | Hok]. exact Hok.
  - apply (properties_loop_expected entity claims property_map Ec [] properties Ep).
    + repeat constructor; simpl; intuition discriminate.
    + reflexivity.
Qed.

(** Where a result comes from: it is a message, or the structured result
    built from an entity of a 200 response to one of the calls. *)
Lemma wikidata_result_origin (net : network) (term : string) (v : value) :
  result (get_wikidata_health_info net term) = Ok v ->
  (exists s, v = VStr s)
  \/ (exists rq entity_data entities entity_id entity,
         In rq (calls (get_wikidata_health_info net term))
         /\ net rq = Response 200 (Some entity_data)
         /\ Py.get entity_data "entities" (VDict []) = Ok entities
         /\ Py.getitem entities entity_id = Ok entity
         /\ wikidata_entity_info entity = Ok v).
Proof.
  unfold get_wikidata_health_info, try_except_RequestException, bind,
    requests_get, lift, ret, calls, result.
  set (rq1 := Request wikidata_url (Some (wikidata_search_params term))).
  destruct (net rq1) as [ | status_code body | status_code fault]; step;
    [intros [= <-]; left; now eexists | | ].
  - destruct (status_code =? 200); step; [ | intros [= <-]; left; now eexists].
    destruct body as [data | ]; step; [ | intros [= <-]; left; now eexists].
    destruct (Py.get data "search" (VList [])) as [search_results | e]; step;
      [ | destruct (is_RequestException e); step;
          [intros [= <-]; left; now eexists | discriminate]].
    destruct (negb (truthy search_results)); step;
      [intros [= <-]; left; now eexists | ].
    destruct (Py.getitem search_results (VInt 0)) as [first | e]; step;
      [ | destruct (is_RequestException e); step;
          [intros [= <-]; left; now eexists | discriminate]].
    destruct (Py.get first "id" VNone) as [entity_id | e]; step;
      [ | destruct (is_RequestException e); step;
          [intros [= <-]; left; now eexists | discriminate]].
    set (rq2 := Request wikidata_url (Some (wikidata_entity_params entity_id))).
    destruct (net rq2) as [ | entity_status_code entity_body
                           | entity_status_code entity_fault] eqn:E2; step;
      [intros [= <-]; left; now eexists | | ].
    + destruct (entity_status_code =? 200) eqn:S2; step;
        [ | intros [= <-]; left; now eexists].
      apply Z.eqb_eq in S2. subst entity_status_code.
      destruct entity_body as [entity_data | ]; cbn [decoded];
        [ | cbn; intros [= <-]; left; now eexists].
      destruct (wikidata_entity_200 entity_id (Ok entity_data)) as [w | e] eqn:E;
        step; [ | destruct (is_RequestException e); step;
                  [intros [= <-]; left; now eexists | discriminate]].
      intros [= <-]. revert E. unfold wikidata_entity_200, response_json.
      cbn [rbind].
      destruct (Py.get entity_data "entities" (VDict [])) as [entities | ] eqn:Ee;
        cbn [rbind]; [ | discriminate].
      destruct (Py.contains entity_id entities) as [[ | ] | ]; cbn [rbind];
        [ | intros [= <-]; left; now eexists | discriminate].
      destruct (Py.getitem entities entity_id) as [entity | ] eqn:Eg; cbn [rbind];
        [ | discriminate].
      intros E. right. exists rq2, entity_data, entities, entity_id, entity.
      repeat split; try assumption. right. now left.
    + destruct (entity_status_code =? 200); step;
        [ | intros [= <-]; left; now eexists].
      destruct entity_fault; cbn; discriminate.
  - destruct (status_code =? 200); step; [ | intros [= <-]; left; now eexists].
    destruct fault; cbn; discriminate.
Qed.

(** What the adapter returns is a message or the structured result built
    from some entity. *)
Lemma wikidata_result_shape (net : network) (term : string) (v : value) :
  result (get_wikidata_health_info net term) = Ok v ->
  (exists s, v = VStr s) \/ (exists entity, wikidata_entity_info entity = Ok v).
Proof.
  intros H. destruct (wikidata_result_origin _ _ _ H)
    as [Hs | (rq & entity_data & entities & entity_id & entity & _ & _ & _ & _ & E)];
    [now left | right; now exists entity].
Qed.

(** C10.  Whenever the adapter returns a dict, it is the dict of label,
    description and properties, built from an entity that a 200 response to
    one of its calls holds under "entities".  Every key of the properties
    mapping is one of the five names of the allow-list and is bound to a
    non-empty list; and for each property of the allow-list the mapping
    holds, under the property's name, exactly the identifiers that the
    wikibase-item claims of the entity under that property link to, in the
    order of the claims, and no entry at all when there are none. *)
Theorem wikidata_properties_allow_listed
  (net : network) (term : string) (d : list (string * value)) :
  result (get_wikidata_health_info net term) = Ok (VDict d) ->
  exists rq entity_data entities entity_id entity label description properties,
    In rq (calls (get_wikidata_health_info net term))
    /\ net rq = Response 200 (Some entity_data)
    /\ Py.get entity_data "entities" (VDict []) = Ok entities
    /\ Py.getitem entities entity_id = Ok entity
    /\ d = [("label", label); ("description", description);
            ("properties", VDict properties)]
    /\ (forall name v,
           In (name, v) properties ->
           In name property_names /\ exists ids, v = VList ids /\ ids <> [])
    /\ (forall prop_id name,
           In (prop_id, name) allow_list ->
           dict_get properties name
             = match linked_entity_ids (claims_under entity prop_id) with
               | [] => None
               | ids => Some (VList ids)
               end).
Proof.
  intros H.
  destruct (wikidata_result_origin _ _ _ H)
    as [[s Hs] | (rq & entity_data & entities & entity_id & entity
                  & Hin & Hnet & Hentities & Hentity & Hinfo)].
  - discriminate Hs.
  - destruct (wikidata_entity_info_shape _ _ Hinfo)
      as (label & description & properties & -> & Hkeys & Hvalues).
    exists rq, entity_data, entities, entity_id, entity, label, description, properties.
    split; [exact Hin | split; [exact Hnet | split; [exact Hentities | ]]].
    split; [exact Hentity | split; [reflexivity | split; [exact Hkeys | exact Hvalues]]].
Qed.

(** Aspirin has two linked entities under P2175 and only a string under
    P780: the result binds "medical condition treated" to the two
    identifiers and has no entry for "symptoms". *)
Lemma wikidata_properties_allow_listed_witness :
  exists rq entity_data entities entity_id entity label description properties,
    In rq (calls (get_wikidata_health_info aspirin_net "aspirin"))
    /\ aspirin_net rq = Response 200 (Some entity_data)
    /\ Py.get entity_data "entities" (VDict []) = Ok entities
    /\ Py.getitem entities entity_id = Ok entity
    /\ [("label", VStr "aspirin"); ("description", VStr "medication");
        ("properties",
         VDict [("medical condition treated", VList [VStr "Q86"; VStr "Q38933"])])]
       = [("label", label); ("description", description);
          ("properties", VDict properties)]
    /\ (forall name v,
           In (name, v) properties ->
           In name property_names /\ exists ids, v = VList ids /\ ids <> [])
    /\ (forall prop_id name,
           In (prop_id, name) allow_list ->
           dict_get properties name
             = match linked_entity_ids (claims_under entity prop_id) with
               | [] => None
               | ids => Some (VList ids)
               end).
Proof.
  apply (wikidata_properties_allow_listed aspirin_net "aspirin").
  vm_compute. reflexivity.
Defined.

End Wikidata.

Section Bodies.
Import Py Http Wikimedia Vocabulary.
Local Open Scope res_scope.

Lemma inside_trans (a b c : value) : inside a b -> inside b c -> inside a c.
Proof.
  intros Hab Hbc. induction Hbc as [ | l x Hx _ IH | d k x Hx _ IH].
  - exact Hab.
  - exact (inside_list a l x Hx IH).
  - exact (inside_dict a d k x Hx IH).
Qed.

Lemma seq_index_in {A} (l : list A) (i : Z) (x : A) :
  seq_index l i = Ok x -> In x l.
Proof.
  unfold seq_index.
  destruct ((0 <=? _) && _); [ | discriminate].
  destruct (nth_error l _) as [y | ] eqn:E; [ | discriminate].
  intros [= <-]. exact (nth_error_In _ _ E).
Qed.

Lemma seq_index_zero {A} (l : list A) (x : A) :
  seq_index l 0 = Ok x -> exists others, l = x :: others.
Proof.
  unfold seq_index. cbn [Z.ltb Z.compare].
  destruct ((0 <=? 0) && _); [ | discriminate].
  destruct l as [ | y others]; cbn; [discriminate | ].
  intros [= <-]. now exists others.
Qed.

Lemma chars_not_object (s : string) (d : list (string * value)) :
  ~ In (VDict d) (chars s).
Proof.
  unfold chars. intros H. apply in_map_iff in H. now destruct H as (c & [=] & _).
Qed.

(** Only an object answers to a string key. *)
Lemma getitem_key (c : value) (k : string) (v : value) :
  Py.getitem c (VStr k) = Ok v -> exists d, c = VDict d /\ dict_get d k = Some v.
Proof.
  destruct c as [ | | | | | | d]; try discriminate. cbn [Py.getitem].
  destruct (dict_get d k) as [x | ] eqn:E; [ | discriminate].
  intros [= <-]. now exists d.
Qed.

(** An object that indexing delivers sits inside what was indexed. *)
Lemma getitem_inside (c k : value) (d : list (string * value)) :
  Py.getitem c k = Ok (VDict d) -> inside (VDict d) c.
Proof.
  destruct c as [ | | | | s | l | items]; try discriminate; cbn [Py.getitem].
  - destruct k; try discriminate; intros H; apply seq_index_in in H;
      now apply chars_not_object in H.
  - destruct k; try discriminate; intros H; apply seq_index_in in H;
      exact (inside_list _ _ _ H (inside_here _)).
  - destruct k as [ | | | | key | | ]; try discriminate.
    destruct (dict_get items key) as [x | ] eqn:E; [ | discriminate].
    intros [= ->]. exact (inside_dict _ _ _ _ E (inside_here _)).
Qed.

(** [d.get(k, default)]: the stored value, which sits inside [d], or the
    default. *)
Lemma get_inside (c : value) (k : string) (default v : value) :
  Py.get c k default = Ok v -> inside v c \/ v = default.
Proof.
  destruct c as [ | | | | | | d]; try discriminate. cbn [Py.get].
  destruct (dict_get d k) as [x | ] eqn:E; intros [= <-]; [left | now right].
  exact (inside_dict _ _ _ _ E (inside_here _)).
Qed.

(** The pages of an action-API body sit inside it, unless there are none. *)
Lemma query_pages_inside (data pages : value) :
  query_pages data = Ok pages -> inside pages data \/ pages = VDict [].
Proof.
  unfold query_pages.
  destruct (Py.get data "query" (VDict [])) as [query | ] eqn:Eq; cbn [rbind];
    [ | discriminate].
  intros Ep. apply get_inside in Eq. apply get_inside in Ep.
  destruct Ep as [Ep | ->]; [ | now right].
  destruct Eq as [Eq | ->].
  - left. exact (inside_trans _ _ _ Ep Eq).
  - inversion Ep; subst; [now right | discriminate].
Qed.

(** An object taken from the pages of a body sits inside the body. *)
Lemma page_inside (data pages page_id : value) (page : list (string * value)) :
  query_pages data = Ok pages ->
  Py.getitem pages page_id = Ok (VDict page) ->
  inside (VDict page) data.
Proof.
  intros Hpages Hpage.
  destruct (query_pages_inside _ _ Hpages) as [Hin | ->].
  - apply getitem_inside in Hpage. exact (inside_trans _ _ _ Hpage Hin).
  - destruct page_id; discriminate Hpage.
Qed.

End Bodies.

(** ** The media-search adapter *)

Section Commons.
Import Py Http Wikimedia Vocabulary.
Local Open Scope res_scope.

Lemma commons_pages_loop_complete (pages : value) (page_ids : list value) :
  forall image_data out,
    commons_pages_loop pages page_ids image_data = Ok out ->
    Forall (appended pages) image_data ->
    Forall (appended pages) out.
Proof.
  induction page_ids as [ | page_id rest IH]; intros image_data out H Hacc;
    cbn [commons_pages_loop] in H.
  - now injection H as <-.
  - destruct (Py.getitem pages page_id) as [page | ] eqn:Epage;
      cbn [rbind] in H; [ | discriminate].
    destruct (has_imageinfo page) as [[ | ] | ]; cbn [rbind] in H;
      [ | now apply (IH _ _ H) | discriminate].
    destruct (Py.getitem page (VStr "imageinfo")) as [imageinfo | ] eqn:Einfo;
      cbn [rbind] in H; [ | discriminate].
    destruct (Py.getitem imageinfo (VInt 0)) as [info | ] eqn:Efirst;
      cbn [rbind] in H; [ | discriminate].
    destruct (Py.get page "title" (VStr "")) as [title0 | ];
      cbn [rbind] in H; [ | discriminate].
    destruct title0 as [ | | | | title0 | | ]; cbn [rbind Py.replace] in H;
      try discriminate.
    destruct (Py.get info "thumburl" (VStr "")) as [thumb_url | ] eqn:Ethumb;
      cbn [rbind] in H; [ | discriminate].
    destruct (Py.get info "extmetadata" (VDict [])) as [extmetadata | ];
      cbn [rbind] in H; [ | discriminate].
    destruct (Py.get extmetadata "ImageDescription" (VDict [])) as [image_description | ];
      cbn [rbind] in H; [ | discriminate].
    destruct (Py.get image_description "value" (VStr "")) as [description0 | ];
      cbn [rbind] in H; [ | discriminate].
    destruct description0 as [ | | | | description0 | | ]; cbn [rbind Py.replace] in H;
      try discriminate.
    destruct (truthy thumb_url) eqn:Eurl; [ | now apply (IH _ _ H)].
    apply (IH _ _ H). apply Forall_app. split; [exact Hacc | ].
    constructor; [ | constructor]. split.
    + eexists _, thumb_url, _. unfold image_descriptor.
      split; [reflexivity | ].
      split; [intros ->; discriminate Eurl | ].
      split; [intros ->; discriminate Eurl | exact Eurl].
    + exists page_id, page, thumb_url. split; [exact Epage | split; [ | reflexivity]].
      destruct (getitem_key _ _ _ Einfo) as (p & -> & Hp).
      destruct info as [ | | | | | | i]; try discriminate Ethumb.
      cbn [Py.get] in Ethumb.
      destruct (dict_get i "thumburl") as [url | ] eqn:Ei; injection Ethumb as <-;
        [ | discriminate Eurl].
      destruct imageinfo as [ | | | | s | l | ]; try discriminate Efirst;
        cbn [Py.getitem] in Efirst.
      * apply seq_index_in in Efirst. now apply chars_not_object in Efirst.
      * destruct (seq_index_zero _ _ Efirst) as [others ->].
        now exists p, i, others.
Qed.

Lemma commons_image_data_complete (img_data : value) (out : list value) :
  commons_image_data (Ok img_data) = Ok out ->
  Forall complete_descriptor out
  /\ Forall (shows_thumbnail_from img_data) out.
Proof.
  unfold commons_image_data, response_json. cbn [rbind]. intros H.
  destruct (query_pages img_data) as [pages | ] eqn:Ep; cbn [rbind] in H;
    [ | discriminate].
  destruct (Py.iter pages) as [page_ids | ]; cbn [rbind] in H; [ | discriminate].
  pose proof (commons_pages_loop_complete _ _ _ _ H (Forall_nil _)) as Hout.
  split; (eapply Forall_impl; [ | exact Hout]); intros entry [Hc Ht]; [exact Hc | ].
  destruct Ht as (page_id & page & url & Hpage & Hthumb & Hurl).
  exists page, url. split; [ | now split].
  destruct Hthumb as (p & info & others & -> & _).
  exact (page_inside _ _ _ _ Ep Hpage).
Qed.

(** A failed call is a broken call. *)
Lemma failed_broken (o : outcome) : failed o = true -> broken o = true.
Proof.
  destruct o as [ | status_code body | status_code fault]; cbn;
    [reflexivity | | tauto].
  intros ->. reflexivity.
Qed.

Lemma commons_broken (net : network) (term : string) (limit : value) (rq : request) :
  In rq (calls (get_wikimedia_commons_images net term limit)) ->
  broken (net rq) = true ->
  result (get_wikimedia_commons_images net term limit) = Ok (VList []).
Proof.
  unfold get_wikimedia_commons_images, try_except_RequestException, bind,
    requests_get, lift, ret, calls, result.
  set (rq1 := Request commons_url (Some (commons_search_params term limit))).
  destruct (net rq1) as [ | status_code body | status_code fault] eqn:E1; step;
    [reflexivity | | ].
  - destruct (status_code =? 200) eqn:S1; step; [ | reflexivity].
    destruct body as [data | ]; [ | cbn; reflexivity].
    assert (N1 : broken (net rq1) = false) by (rewrite E1; cbn; now rewrite S1).
    cbn [decoded].
    destruct (commons_image_titles (Ok data)) as [[ | title titles] | e]; step;
      [reflexivity | | destruct (is_RequestException e); step;
                       intros [<- | []] F; congruence].
    destruct (Py.join "|" (title :: titles)) as [file_titles | e]; step;
      [ | destruct (is_RequestException e); step; intros [<- | []] F; congruence].
    set (rq2 := Request commons_url (Some (commons_image_params file_titles))).
    destruct (net rq2) as [ | img_status_code img_body | img_status_code img_fault]
      eqn:E2; step; [reflexivity | | ].
    + destruct (img_status_code =? 200) eqn:S2; step; [ | reflexivity].
      destruct img_body as [img_data | ]; [ | cbn; reflexivity].
      assert (N2 : broken (net rq2) = false) by (rewrite E2; cbn; now rewrite S2).
      cbn [decoded].
      destruct (commons_image_data (Ok img_data)) as [image_data | e]; step;
        [ | destruct (is_RequestException e); step ];
        intros [<- | [<- | []]] F; congruence.
    + destruct (img_status_code =? 200) eqn:S2; step; [ | reflexivity].
      assert (N2 : broken (net rq2) = false) by (rewrite E2; cbn; now rewrite S2).
      destruct img_fault; cbn; intros [<- | [<- | []]] F; congruence.
  - destruct (status_code =? 200) eqn:S1; step; [ | reflexivity].
    assert (N1 : broken (net rq1) = false) by (rewrite E1; cbn; now rewrite S1).
    destruct fault; cbn; intros [<- | []] F; congruence.
Qed.

(** Whatever the adapter returns is a list of complete descriptors, and a
    list that is not empty shows thumbnails from the body of a 200 response
    to one of the calls. *)
Lemma commons_result_complete (net : network) (term : string) (limit v : value) :
  result (get_wikimedia_commons_images net term limit) = Ok v ->
  exists entries,
    v = VList entries
    /\ Forall complete_descriptor entries
    /\ (entries <> [] ->
        exists rq img_data,
          In rq (calls (get_wikimedia_commons_images net term limit))
          /\ net rq = Response 200 (Some img_data)
          /\ Forall (shows_thumbnail_from img_data) entries).
Proof.
  assert (Hnil : forall (P : list value -> Prop) w,
             Ok (VList []) = Ok w ->
             exists entries, w = VList entries
                             /\ Forall complete_descriptor entries
                             /\ (entries <> [] -> P entries)).
  { intros P w [= <-]. exists []. split; [reflexivity | split; [constructor | ]].
    intros Hne. now destruct Hne. }
  unfold get_wikimedia_commons_images, try_except_RequestException, bind,
    requests_get, lift, ret, calls, result.
  set (rq1 := Request commons_url (Some (commons_search_params term limit))).
  destruct (net rq1) as [ | status_code body | status_code fault]; step;
    [apply Hnil | | ].
  - destruct (status_code =? 200); step; [ | apply Hnil].
    destruct (commons_image_titles (decoded body)) as [[ | title titles] | e]; step;
      [apply Hnil | | destruct (is_RequestException e); step;
                      [apply Hnil | discriminate]].
    destruct (Py.join "|" (title :: titles)) as [file_titles | e]; step;
      [ | destruct (is_RequestException e); step; [apply Hnil | discriminate]].
    set (rq2 := Request commons_url (Some (commons_image_params file_titles))).
    destruct (net rq2) as [ | img_status_code img_body | img_status_code img_fault]
      eqn:E2; step; [apply Hnil | | ].
    + destruct (img_status_code =? 200) eqn:S2; step; [ | apply Hnil].
      apply Z.eqb_eq in S2. subst img_status_code.
      destruct img_body as [img_data | ]; cbn [decoded];
        [ | cbn; apply Hnil].
      destruct (commons_image_data (Ok img_data)) as [image_data | e] eqn:Ed; step;
        [ | destruct (is_RequestException e); step; [apply Hnil | discriminate]].
      intros [= <-]. exists image_data.
      destruct (commons_image_data_complete _ _ Ed) as [Hc Ht].
      split; [reflexivity | split; [exact Hc | ]].
      intros _. exists rq2, img_data.
      split; [right; now left | split; [exact E2 | exact Ht]].
    + destruct (img_status_code =? 200); step; [ | apply Hnil].
      destruct img_fault; cbn; discriminate.
  - destruct (status_code =? 200); step; [ | apply Hnil].
    destruct fault; cbn; discriminate.
Qed.

(** C5.  If a call that the media-search adapter issues fails (transport
    error or a status other than 200), the adapter returns the empty list.
    Whatever list it returns holds only complete descriptors: objects with
    exactly the keys "title", "url" and "description", the title and the
    description strings, the URL neither null nor empty.  And the URL of
    every entry is the thumbnail URL of a page in the body of the 200
    response to one of the calls. *)
Theorem commons_images_all_or_nothing
  (net : network) (term : string) (limit : value) :
  (forall rq,
      In rq (calls (get_wikimedia_commons_images net term limit)) ->
      failed (net rq) = true ->
      result (get_wikimedia_commons_images net term limit) = Ok (VList []))
  /\ (forall v,
         result (get_wikimedia_commons_images net term limit) = Ok v ->
         exists entries,
           v = VList entries
           /\ Forall complete_descriptor entries
           /\ (entries <> [] ->
               exists rq img_data,
                 In rq (calls (get_wikimedia_commons_images net term limit))
                 /\ net rq = Response 200 (Some img_data)
                 /\ Forall (shows_thumbnail_from img_data) entries)).
Proof.
  split.
  - intros rq Hin Hfailed.
    apply (commons_broken net term limit rq Hin).
    now apply failed_broken.
  - intros v. apply commons_result_complete.
Qed.

(** The image lookup answers 503 after a search with two hits: the result
    is empty.  When it answers 200, only the page that has a thumbnail
    yields an entry. *)
Lemma commons_images_all_or_nothing_witness :
  result (get_wikimedia_commons_images (commons_net (Response 503 None))
            "aspirin" (VInt 5)) = Ok (VList [])
  /\ exists entries,
       VList [VDict [ ("title", VStr "Aspirin.jpg");
                      ("url", VStr "https://upload.example/a.jpg");
                      ("description", VStr "Aspirin") ]]
         = VList entries
       /\ Forall complete_descriptor entries
       /\ (entries <> [] ->
           exists rq img_data,
             In rq (calls (get_wikimedia_commons_images
                             (commons_net (Response 200 (Some commons_pages)))
                             "aspirin" (VInt 5)))
             /\ commons_net (Response 200 (Some commons_pages)) rq
                = Response 200 (Some img_data)
             /\ Forall (shows_thumbnail_from img_data) entries).
Proof.
  split.
  - apply (proj1 (commons_images_all_or_nothing (commons_net (Response 503 None))
                    "aspirin" (VInt 5))
             (Request commons_url (Some (commons_image_params "File:Aspirin.jpg|File:Pills.png")))).
    + vm_compute. right. left. reflexivity.
    + reflexivity.
  - apply (proj2 (commons_images_all_or_nothing
                    (commons_net (Response 200 (Some commons_pages)))
                    "aspirin" (VInt 5))).
    vm_compute. reflexivity.
Defined.

End Commons.

(** ** Failures absorbed and failures that escape *)

Section ErrorIsolation.
Import Py Http Wikimedia Vocabulary Specs.
Local Open Scope res_scope.

(** The shape shared by the seven adapters that issue one call. *)
Lemma single_call (net : network) (rq : request)
  (on_200 : res value -> res value) (on_status : Z -> value)
  (fallback : value) :
  let m :=
    try_except_RequestException
      (bind (requests_get net rq)
         (fun response =>
            let (status_code, body) := response in
            if status_code =? 200 then lift (on_200 body)
            else ret (on_status status_code)))
      fallback in
  calls m = [rq]
  /\ result m
     = match delivers (net rq) with
       | Ok (status_code, body) =>
           if status_code =? 200
           then match on_200 body with
                | Ok v => Ok v
                | Raise e => if is_RequestException e then Ok fallback else Raise e
                end
           else Ok (on_status status_code)
       | Raise e => if is_RequestException e then Ok fallback else Raise e
       end.
Proof.
  unfold try_except_RequestException, bind, requests_get, lift, ret, calls, result.
  destruct (delivers (net rq)) as [[status_code body] | e]; cbn.
  - destruct (status_code =? 200); cbn; [ | now split].
    destruct (on_200 body) as [v | e]; cbn; [now split | ].
    destruct (is_RequestException e); now split.
  - destruct (is_RequestException e); now split.
Qed.


(** A body that is no object fails at the first [get]. *)
Lemma query_pages_not_object (data : value) :
  is_object data = false -> query_pages data = Raise AttributeError.
Proof. destruct data; try reflexivity; discriminate. Qed.














(** The adapter's first request is among its calls. *)
Lemma first_request_issued (src : source) (net : network) (term : string) :
  In (first_request src term) (calls (fetch src net term)).
Proof.
  destruct src; cbn [fetch first_request summary_request];
    unfold get_wikipedia_summary, get_wiktionary_definition, get_wikiquote_quotes,
      get_wikibooks_content, get_wikimedia_commons_images, get_wikisource_texts,
      get_wikiversity_resources, get_wikispecies_info, get_wikidata_health_info;
    rewrite calls_try_except, calls_bind, calls_requests_get;
    destruct (result (requests_get net _)); now left.
Qed.


















(** Nor is the value always a string, a dict or a list: the encyclopedia
    adapter hands back whatever non-empty value sits under "extract". *)
Lemma wikipedia_returns_extract_as_is :
  result (get_wikipedia_summary (always 200 (Some (VDict [("extract", VInt 5)])))
            "Five")
    = Ok (VInt 5).
Proof. vm_compute. reflexivity. Qed.





End ErrorIsolation.


(** * Further properties of the code *)

(** ** Normal form of search terms *)

Section NormalForm.
Import Py Http Wikimedia Vocabulary Specs PyStr.

Lemma map_chars_length (f : ascii -> ascii) (s : string) :
  String.length (map_chars f s) = String.length s.
Proof. induction s as [ | c s IH]; simpl; congruence. Qed.

Lemma rstrip_of_length (space : ascii -> bool) (s : string) :
  (String.length (rstrip_of space s) <= String.length s)%nat.
Proof.
  induction s as [ | c s IH]; simpl; [lia | ].
  destruct (rstrip_of space s); [destruct (space c) | ]; simpl in *; lia.
Qed.

Lemma no_space_after_underscore (s : string) :
  str_contains " " (map_chars underscore s) = false.
Proof.
  induction s as [ | c s IH]; [reflexivity | ].
  cbn [map_chars str_contains starts_with]. rewrite IH.
  unfold underscore. destruct (Ascii.eqb " " c) eqn:E; [reflexivity | ].
  now rewrite E.
Qed.

Lemma underscore_without_space (s : string) :
  str_contains " " s = false -> map_chars underscore s = s.
Proof.
  induction s as [ | c s IH]; [reflexivity | ].
  cbn [map_chars str_contains starts_with]. intros H.
  apply orb_false_iff in H. destruct H as [Hc Hs].
  rewrite andb_true_r in Hc. rewrite (IH Hs). unfold underscore. now rewrite Hc.
Qed.

Lemma strip_normalize (t : string) : strip (normalize t) = normalize t.
Proof.
  unfold normalize. rewrite replace_space_map. set (u := strip t).
  assert (Hl : lstrip_of is_space u = u) by apply lstrip_of_strip_of.
  assert (Hr : rstrip_of is_space u = u) by apply rstrip_of_idempotent.
  unfold strip at 1, strip_of.
  now rewrite (lstrip_of_fixed_map _ _ underscore_not_space _ Hl),
    (rstrip_of_fixed_map _ _ underscore_not_space _ Hr).
Qed.

Lemma normalize_is_normal (t : string) : normal_form (normalize t) = true.
Proof.
  unfold normal_form. rewrite strip_normalize, String.eqb_refl, andb_true_r.
  unfold normalize. rewrite replace_space_map. now rewrite no_space_after_underscore.
Qed.

Lemma normal_form_unchanged (t : string) : normal_form t = true -> normalize t = t.
Proof.
  unfold normal_form. intros H. apply andb_true_iff in H. destruct H as [Hs Hstrip].
  apply negb_true_iff in Hs. apply String.eqb_eq in Hstrip.
  unfold normalize. rewrite Hstrip, replace_space_map.
  now apply underscore_without_space.
Qed.

(** X1.  A normalized term is in normal form (it holds no space character and
    stripping leaves it alone) and is no longer than the term it comes from;
    the terms that normalization leaves unchanged are exactly those in
    normal form. *)
Theorem normalize_normal_form (t : string) :
  normal_form (normalize t) = true
  /\ (String.length (normalize t) <= String.length t)%nat
  /\ (normalize t = t <-> normal_form t = true).
Proof.
  split; [apply normalize_is_normal | split].
  - unfold normalize. rewrite replace_space_map, map_chars_length.
    unfold strip, strip_of.
    pose proof (rstrip_of_length is_space (lstrip_of is_space t)).
    pose proof (lstrip_of_length is_space t). lia.
  - split.
    + intros H. rewrite <- H. apply normalize_is_normal.
    + apply normal_form_unchanged.
Qed.

(** X2.  The aggregation sees a term only through its normal form: querying
    with a term or with its normalization issues the same requests and gives
    the same result. *)
Theorem search_all_wikimedia_normalized (net : network) (term : string) :
  search_all_wikimedia net (normalize term) = search_all_wikimedia net term.
Proof.
  unfold search_all_wikimedia. cbv zeta.
  now rewrite (normal_form_unchanged _ (normalize_is_normal term)).
Qed.

End NormalForm.

(** ** The requests the adapters issue *)

Section RequestProtocol.
Import Py Http Wikimedia Vocabulary Specs.
Local Open Scope res_scope.

Lemma one_step_calls (src : source) (net : network) (term : string) :
  two_step src = false ->
  calls (fetch src net term) = [first_request src term].
Proof.
  intros Hsrc. destruct src; try discriminate Hsrc; cbn [fetch first_request summary_request].
  - unfold get_wikipedia_summary, try_except_RequestException, bind, requests_get,
      lift, ret, calls.
    destruct (delivers (net _)) as [[status_code body] | e]; cbn;
      [ | now destruct (is_RequestException e)].
    destruct (status_code =? 200); cbn.
    + destruct (wikipedia_summary_200 term body) as [v | e]; cbn; [reflexivity | ].
      now destruct (is_RequestException e).
    + now destruct (status_code =? 404).
  - exact (proj1 (single_call net _ wiktionary_definition_200
                    (fun c => VStr ("Error retrieving definition: HTTP " ++ PyStr.of_int c))
                    (VStr connection_error))).
  - exact (proj1 (single_call net _ wikiquote_quotes_200
                    (fun c => VStr ("Error retrieving quotes: HTTP " ++ PyStr.of_int c))
                    (VStr connection_error))).
  - exact (proj1 (single_call net _
                    (extract_200 "No Wikibooks content found for this topic.")
                    (fun c => VStr ("Error retrieving content: HTTP " ++ PyStr.of_int c))
                    (VStr connection_error))).
  - exact (proj1 (single_call net _ wikisource_texts_200 (fun _ => VList [])
                    (VList []))).
  - exact (proj1 (single_call net _
                    (extract_200 "No Wikiversity resources found for this topic.")
                    (fun c => VStr ("Error retrieving resources: HTTP " ++ PyStr.of_int c))
                    (VStr connection_error))).
  - exact (proj1 (single_call net _
                    (extract_200 "No species information found.")
                    (fun c => VStr ("Error retrieving species information: HTTP "
                                    ++ PyStr.of_int c))
                    (VStr connection_error))).
Qed.

Lemma commons_calls (net : network) (term : string) (limit : value) :
  let rq1 := Request commons_url (Some (commons_search_params term limit)) in
  exists rest,
    calls (get_wikimedia_commons_images net term limit) = rq1 :: rest
    /\ (List.length rest <= 1)%nat
    /\ (failed (net rq1) = true -> rest = []).
Proof.
  intros rq1.
  unfold get_wikimedia_commons_images, try_except_RequestException, bind,
    requests_get, lift, ret, calls.
  fold rq1.
  destruct (net rq1) as [ | status_code body | status_code fault]; step;
    [exists []; repeat split; auto | | ];
    (destruct (status_code =? 200) eqn:S1; step; [ | exists []; repeat split; auto]);
    match goal with
    | |- context [commons_image_titles ?b] =>
        destruct (commons_image_titles b) as [[ | title titles] | e]
    end; step;
    try (exists []; repeat split; auto; fail);
    try (destruct (is_RequestException e); step; exists []; repeat split; auto; fail).
  all: destruct (Py.join "|" (title :: titles)) as [file_titles | e]; step;
    [ | destruct (is_RequestException e); step; exists []; repeat split; auto].
  all: destruct (net _) as [ | img_status_code img_body | img_status_code img_fault];
    step; [eexists [_]; repeat split; auto; discriminate | | ];
    (destruct (img_status_code =? 200); step;
     [ | eexists [_]; repeat split; auto; discriminate]);
    match goal with
    | |- context [commons_image_data ?b] =>
        destruct (commons_image_data b) as [image_data | e]
    end; step;
    try (destruct (is_RequestException e); step);
    eexists [_]; repeat split; auto; discriminate.
Qed.

Lemma wikidata_calls (net : network) (term : string) :
  let rq1 := Request wikidata_url (Some (wikidata_search_params term)) in
  exists rest,
    calls (get_wikidata_health_info net term) = rq1 :: rest
    /\ (List.length rest <= 1)%nat
    /\ (failed (net rq1) = true -> rest = []).
Proof.
  intros rq1.
  unfold get_wikidata_health_info, try_except_RequestException, bind,
    requests_get, lift, ret, calls.
  fold rq1.
  destruct (net rq1) as [ | status_code body | status_code fault]; step;
    [exists []; repeat split; auto | | ];
    (destruct (status_code =? 200) eqn:S1; step; [ | exists []; repeat split; auto]);
    [ | destruct fault; step; exists []; repeat split; auto].
  destruct (decoded body) as [data | e]; step;
    [ | destruct (is_RequestException e); step; exists []; repeat split; auto].
  destruct (Py.get data "search" (VList [])) as [search_results | e]; step;
    [ | destruct e; step; exists []; repeat split; auto].
  destruct (negb (truthy search_results)); step; [exists []; repeat split; auto | ].
  destruct (Py.getitem search_results (VInt 0)) as [first | e]; step;
    [ | destruct e; step; exists []; repeat split; auto].
  destruct (Py.get first "id" VNone) as [entity_id | e]; step;
    [ | destruct e; step; exists []; repeat split; auto].
  destruct (net _) as [ | entity_status_code entity_body
                       | entity_status_code entity_fault]; step;
    [eexists [_]; repeat split; auto; discriminate | | ];
    (destruct (entity_status_code =? 200); step;
     [ | eexists [_]; repeat split; auto; discriminate]);
    match goal with
    | |- context [wikidata_entity_200 entity_id ?b] =>
        destruct (wikidata_entity_200 entity_id b) as [v | e]
    end; step;
    try (destruct (is_RequestException e); step);
    eexists [_]; repeat split; auto; discriminate.
Qed.

(** Every adapter issues one or two requests, the first of them its
    [first_request]. *)
Lemma fetch_calls_shape (src : source) (net : network) (term : string) :
  exists rest,
    calls (fetch src net term) = first_request src term :: rest
    /\ (List.length rest <= 1)%nat
    /\ (two_step src = false -> rest = [])
    /\ (failed (net (first_request src term)) = true -> rest = []).
Proof.
  destruct (two_step src) eqn:Hsrc.
  - destruct src; try discriminate Hsrc; cbn [fetch first_request].
    + destruct (commons_calls net term (VInt 5)) as (rest & Hc & Hl & Hf).
      exists rest. repeat split; auto. discriminate.
    + destruct (wikidata_calls net term) as (rest & Hc & Hl & Hf).
      exists rest. repeat split; auto. discriminate.
  - exists []. rewrite (one_step_calls src net term Hsrc). repeat split; auto.
Qed.

(** X3.  No adapter retries.  Each call of an adapter issues its first
    request and at most one more; the seven single-step adapters issue
    exactly one request whatever the answer, and the two-step adapters do
    not go on to their second request when the first one failed. *)
Theorem adapter_request_budget (src : source) (net : network) (term : string) :
  exists rest,
    calls (fetch src net term) = first_request src term :: rest
    /\ (List.length rest <= 1)%nat
    /\ (two_step src = false -> rest = [])
    /\ (failed (net (first_request src term)) = true -> rest = []).
Proof.
  destruct (fetch_calls_shape src net term) as (rest & Hc & Hl & Hone & Hfailed).
  exists rest. split; [exact Hc | split; [exact Hl | split]].
  - exact Hone.
  - exact Hfailed.
Qed.

End RequestProtocol.

(** ** The aggregation as a sequence of adapter calls *)

Section Aggregation.
Import Py Http Wikimedia Vocabulary Specs.

Lemma search_all_wikimedia_collect (net : network) (term : string) :
  search_all_wikimedia net term
    = collect net (normalize term) source_order empty_results.
Proof. reflexivity. Qed.

Lemma requests_of_cons (net : network) (t : string) (src : source)
  (rest : list source) :
  requests_of net t (src :: rest)
    = (calls (fetch src net t) ++ requests_of net t rest)%list.
Proof. reflexivity. Qed.

Lemma collect_returns (net : network) (t : string) (srcs : list source) :
  forall results,
    (forall src, In src srcs -> exists v, result (fetch src net t) = Ok v) ->
    calls (collect net t srcs results) = requests_of net t srcs
    /\ exists d, result (collect net t srcs results) = Ok (VDict d).
Proof.
  induction srcs as [ | src rest IH]; intros results Hall; cbn [collect].
  - split; [reflexivity | now exists results].
  - destruct (Hall src (or_introl eq_refl)) as [v Hv].
    rewrite calls_bind, result_bind, Hv, requests_of_cons.
    destruct (IH (dict_set results (key_of src) v)) as [Hc Hr].
    { intros s Hs. apply Hall. now right. }
    now rewrite Hc.
Qed.

Lemma collect_raises (net : network) (t : string) (src : source)
  (after : list source) (e : exn) (before : list source) :
  forall results,
    (forall s, In s before -> exists v, result (fetch s net t) = Ok v) ->
    result (fetch src net t) = Raise e ->
    result (collect net t (before ++ src :: after) results) = Raise e
    /\ calls (collect net t (before ++ src :: after) results)
       = requests_of net t (before ++ [src]).
Proof.
  induction before as [ | s before IH]; intros results Hbefore Hraise;
    cbn [collect app].
  - rewrite calls_bind, result_bind, Hraise. unfold requests_of. cbn [flat_map].
    now rewrite app_nil_r.
  - destruct (Hbefore s (or_introl eq_refl)) as [v Hv].
    rewrite calls_bind, result_bind, Hv, requests_of_cons.
    destruct (IH (dict_set results (key_of s) v)) as [Hr Hc]; [ | exact Hraise | ].
    { intros s' Hs'. apply Hbefore. now right. }
    now rewrite Hr, Hc.
Qed.

Lemma fetch_calls_length (src : source) (net : network) (t : string) :
  (1 <= List.length (calls (fetch src net t)) <= 2)%nat
  /\ (two_step src = false -> List.length (calls (fetch src net t)) = 1%nat).
Proof.
  destruct (fetch_calls_shape src net t) as (rest & Hc & Hl & Hone & _).
  rewrite Hc. cbn [List.length]. split; [lia | ].
  intros Hsrc. now rewrite (Hone Hsrc).
Qed.

(** X4.  When no adapter raises, the aggregation queries all nine sources,
    each once, in the fixed order and with the normalized term: its requests
    are those of the nine adapters one after the other, between nine and
    eleven in all. *)
Theorem search_all_wikimedia_requests (net : network) (term : string) :
  (forall src, exists v, result (fetch src net (normalize term)) = Ok v) ->
  calls (search_all_wikimedia net term)
    = requests_of net (normalize term) source_order
  /\ (9 <= List.length (calls (search_all_wikimedia net term)) <= 11)%nat.
Proof.
  intros Hall. rewrite search_all_wikimedia_collect.
  destruct (collect_returns net (normalize term) source_order empty_results)
    as [Hc _]; [intros src _; apply Hall | ].
  rewrite Hc. split; [reflexivity | ].
  unfold requests_of, source_order. cbn [flat_map].
  rewrite !length_app. cbn [List.length].
  pose proof (fetch_calls_length Wikipedia net (normalize term)) as [_ H1].
  pose proof (fetch_calls_length Wiktionary net (normalize term)) as [_ H2].
  pose proof (fetch_calls_length Wikiquote net (normalize term)) as [_ H3].
  pose proof (fetch_calls_length Wikibooks net (normalize term)) as [_ H4].
  pose proof (fetch_calls_length Commons net (normalize term)) as [H5 _].
  pose proof (fetch_calls_length Wikisource net (normalize term)) as [_ H6].
  pose proof (fetch_calls_length Wikiversity net (normalize term)) as [_ H7].
  pose proof (fetch_calls_length Wikispecies net (normalize term)) as [_ H8].
  pose proof (fetch_calls_length Wikidata net (normalize term)) as [H9 _].
  rewrite (H1 eq_refl), (H2 eq_refl), (H3 eq_refl), (H4 eq_refl), (H6 eq_refl),
    (H7 eq_refl), (H8 eq_refl).
  lia.
Qed.

Lemma search_all_wikimedia_requests_witness :
  calls (search_all_wikimedia offline " vitamin d ")
    = requests_of offline (normalize " vitamin d ") source_order
  /\ (9 <= List.length (calls (search_all_wikimedia offline " vitamin d ")) <= 11)%nat.
Proof.
  apply (search_all_wikimedia_requests offline " vitamin d ").
  intros src. destruct src; eexists; vm_compute; reflexivity.
Defined.

(** X5.  The aggregation fails fast.  When an adapter raises and the ones
    queried before it returned, the aggregation raises the same exception,
    has issued the requests up to and including those of the raising
    adapter, and queries none of the sources after it. *)
Theorem search_all_wikimedia_fail_fast (net : network) (term : string)
  (before after : list source) (src : source) (e : exn) :
  source_order = (before ++ src :: after)%list ->
  (forall s, In s before -> exists v, result (fetch s net (normalize term)) = Ok v) ->
  result (fetch src net (normalize term)) = Raise e ->
  result (search_all_wikimedia net term) = Raise e
  /\ calls (search_all_wikimedia net term)
     = requests_of net (normalize term) (before ++ [src]).
Proof.
  intros Horder Hbefore Hraise. rewrite search_all_wikimedia_collect, Horder.
  now apply collect_raises.
Qed.

Lemma search_all_wikimedia_fail_fast_witness :
  result (search_all_wikimedia wikiquote_garbled "Hamlet") = Raise ValueError
  /\ calls (search_all_wikimedia wikiquote_garbled "Hamlet")
     = requests_of wikiquote_garbled (normalize "Hamlet")
         ([Wikipedia; Wiktionary] ++ [Wikiquote]).
Proof.
  apply (search_all_wikimedia_fail_fast wikiquote_garbled "Hamlet"
           [Wikipedia; Wiktionary]
           [Wikibooks; Commons; Wikisource; Wikiversity; Wikispecies; Wikidata]
           Wikiquote ValueError).
  - reflexivity.
  - intros s [<- | [<- | []]]; eexists; vm_compute; reflexivity.
  - vm_compute. reflexivity.
Defined.

End Aggregation.


(** ** Response order: the first usable page wins *)

Section ResponseOrder.
Import Py Http Wikimedia Vocabulary Specs.
Local Open Scope res_scope.

Lemma dict_get_in (pages : list (string * value)) (k : string) (v : value) :
  dict_get pages k = Some v -> In (k, v) pages.
Proof.
  induction pages as [ | [k' v'] pages IH]; cbn [dict_get]; [discriminate | ].
  destruct (String.eqb k' k) eqn:E.
  - apply String.eqb_eq in E. intros [= <-]. left. now subst.
  - intros H. right. now apply IH.
Qed.

Lemma dict_get_of_key (pages : list (string * value)) (k : string) :
  In k (map fst pages) -> exists v, dict_get pages k = Some v.
Proof.
  induction pages as [ | [k' v'] pages IH]; cbn [map fst dict_get In]; [intros [] | ].
  destruct (String.eqb k' k) eqn:E; [now eexists | ].
  intros [H | H]; [ | now apply IH].
  subst. now rewrite String.eqb_refl in E.
Qed.

Lemma dict_keys_from_in (pages : list (string * value)) :
  forall seen k, In k (dict_keys_from seen pages) -> In k (map fst pages).
Proof.
  induction pages as [ | [k' v'] pages IH]; intros seen k; cbn [dict_keys_from map fst].
  - intros [].
  - destruct (mem_string k' seen).
    + intros H. right. exact (IH _ _ H).
    + intros [H | H]; [now left | right; exact (IH _ _ H)].
Qed.

(** A key that the iteration visits is bound, and to one of the pages. *)
Lemma dict_keys_bound (pages : list (string * value)) (k : string) :
  In k (dict_keys pages) -> exists v, dict_get pages k = Some v /\ In (k, v) pages.
Proof.
  intros H. apply dict_keys_from_in, dict_get_of_key in H. destruct H as [v Hv].
  exists v. split; [exact Hv | now apply dict_get_in].
Qed.

Lemma wiktionary_pages_loop_first (pages : list (string * value))
  (page_ids : list string) :
  (forall k, In k page_ids -> exists page, dict_get pages k = Some (VDict page)) ->
  wiktionary_pages_loop (VDict pages) (map VStr page_ids)
    = Ok (match first_extract (keeps Wiktionary) pages page_ids with
          | Some extract => extract
          | None => VStr (nothing_found Wiktionary)
          end).
Proof.
  induction page_ids as [ | k rest IH]; intros Hobj; [reflexivity | ].
  destruct (Hobj k (or_introl eq_refl)) as [page Hpage].
  cbn [map wiktionary_pages_loop first_extract keeps Py.getitem].
  rewrite Hpage. cbn [rbind Py.contains]. unfold dict_mem.
  destruct (dict_get page "extract") as [extract | ] eqn:E; cbn [rbind].
  - cbn [Py.getitem]. now rewrite E.
  - apply IH. intros k' Hk'. apply Hobj. now right.
Qed.

Lemma extract_pages_loop_first (src : source) (pages : list (string * value))
  (page_ids : list string) :
  src <> Wiktionary ->
  (forall k, In k page_ids -> exists page, dict_get pages k = Some (VDict page)) ->
  (forall k, In k page_ids -> PyStr.parse_int k <> None) ->
  extract_pages_loop (nothing_found src) (VDict pages) (map VStr page_ids)
    = Ok (match first_extract (keeps src) pages page_ids with
          | Some extract => extract
          | None => VStr (nothing_found src)
          end).
Proof.
  intros Hsrc. induction page_ids as [ | k rest IH]; intros Hobj Hnum; [reflexivity | ].
  destruct (Hobj k (or_introl eq_refl)) as [page Hpage].
  assert (Hkeep : keeps src k = positive_id k)
    by (destruct src; try reflexivity; now destruct Hsrc).
  cbn [map extract_pages_loop first_extract]. rewrite Hkeep.
  unfold positive_with_extract, positive_id. cbn [Py.int].
  destruct (PyStr.parse_int k) as [n | ] eqn:Hparse;
    [ | now destruct (Hnum k (or_introl eq_refl))].
  cbn [rbind]. destruct (0 <? n).
  - cbn [Py.getitem]. rewrite Hpage. cbn [rbind Py.contains]. unfold dict_mem.
    destruct (dict_get page "extract") as [extract | ] eqn:E; cbn [rbind].
    + cbn [Py.getitem]. now rewrite E.
    + apply IH; intros k' Hk'; [apply Hobj | apply Hnum]; now right.
  - apply IH; intros k' Hk'; [apply Hobj | apply Hnum]; now right.
Qed.

Lemma pages_loop_hypotheses (pages : list (string * value)) :
  pages_are_objects pages ->
  forall k, In k (dict_keys pages) -> exists page, dict_get pages k = Some (VDict page).
Proof.
  intros Hobj k Hk. destruct (dict_keys_bound _ _ Hk) as (v & Hget & Hin).
  unfold pages_are_objects in Hobj. rewrite Forall_forall in Hobj.
  destruct (Hobj _ Hin) as [page Hpage]. cbn in Hpage. subst v. now exists page.
Qed.

Lemma pages_loop_numeric (pages : list (string * value)) :
  keys_are_numeric pages ->
  forall k, In k (dict_keys pages) -> PyStr.parse_int k <> None.
Proof.
  intros Hnum k Hk. destruct (dict_keys_bound _ _ Hk) as (v & _ & Hin).
  unfold keys_are_numeric in Hnum. rewrite Forall_forall in Hnum.
  exact (Hnum _ Hin).
Qed.

(** X6.  The first usable page wins.  On a 200 response whose pages are
    JSON objects (keyed by integers, for the adapters that read the key), the
    dictionary, book, course and taxonomy adapters return the extract of the
    first page, in response order, that has one (and, for the last three,
    whose key is positive), however many pages follow; if there is no such
    page they return their nothing-found message. *)
Theorem first_page_with_extract_wins (src : source) (net : network) (term : string)
  (data : value) (pages : list (string * value)) :
  extract_source src = true ->
  net (summary_request src term) = Response 200 (Some data) ->
  query_pages data = Ok (VDict pages) ->
  pages_are_objects pages ->
  (src <> Wiktionary -> keys_are_numeric pages) ->
  result (fetch src net term)
    = Ok (match first_extract (keeps src) pages (dict_keys pages) with
          | Some extract => extract
          | None => VStr (nothing_found src)
          end).
Proof.
  intros Hsrc Hnet Hquery Hobj Hnum.
  pose proof (pages_loop_hypotheses pages Hobj) as Hobj'.
  destruct src; try discriminate Hsrc; cbn [fetch summary_request] in *.
  - unfold get_wiktionary_definition.
    rewrite (proj2 (single_call net _ wiktionary_definition_200
                      (fun c => VStr ("Error retrieving definition: HTTP " ++ PyStr.of_int c))
                      (VStr connection_error))), Hnet.
    cbn [delivers decoded Z.eqb Pos.eqb]. unfold wiktionary_definition_200.
    cbn [response_json rbind]. rewrite Hquery. cbn [rbind Py.iter].
    now rewrite (wiktionary_pages_loop_first pages _ Hobj').
  - assert (Hother : Wikibooks <> Wiktionary) by discriminate.
    unfold get_wikibooks_content.
    rewrite (proj2 (single_call net _
                      (extract_200 "No Wikibooks content found for this topic.")
                      (fun c => VStr ("Error retrieving content: HTTP " ++ PyStr.of_int c))
                      (VStr connection_error))), Hnet.
    cbn [delivers decoded Z.eqb Pos.eqb]. unfold extract_200.
    cbn [response_json rbind]. rewrite Hquery. cbn [rbind Py.iter].
    pose proof (extract_pages_loop_first Wikibooks pages _ Hother Hobj'
                  (pages_loop_numeric pages (Hnum Hother))) as Hloop.
    cbn [nothing_found] in Hloop. now rewrite Hloop.
  - assert (Hother : Wikiversity <> Wiktionary) by discriminate.
    unfold get_wikiversity_resources.
    rewrite (proj2 (single_call net _
                      (extract_200 "No Wikiversity resources found for this topic.")
                      (fun c => VStr ("Error retrieving resources: HTTP " ++ PyStr.of_int c))
                      (VStr connection_error))), Hnet.
    cbn [delivers decoded Z.eqb Pos.eqb]. unfold extract_200.
    cbn [response_json rbind]. rewrite Hquery. cbn [rbind Py.iter].
    pose proof (extract_pages_loop_first Wikiversity pages _ Hother Hobj'
                  (pages_loop_numeric pages (Hnum Hother))) as Hloop.
    cbn [nothing_found] in Hloop. now rewrite Hloop.
  - assert (Hother : Wikispecies <> Wiktionary) by discriminate.
    unfold get_wikispecies_info.
    rewrite (proj2 (single_call net _
                      (extract_200 "No species information found.")
                      (fun c => VStr ("Error retrieving species information: HTTP "
                                      ++ PyStr.of_int c))
                      (VStr connection_error))), Hnet.
    cbn [delivers decoded Z.eqb Pos.eqb]. unfold extract_200.
    cbn [response_json rbind]. rewrite Hquery. cbn [rbind Py.iter].
    pose proof (extract_pages_loop_first Wikispecies pages _ Hother Hobj'
                  (pages_loop_numeric pages (Hnum Hother))) as Hloop.
    cbn [nothing_found] in Hloop. now rewrite Hloop.
Qed.

(** Of four pages the book adapter passes over the one keyed -1 and the one
    without text and returns the third; the fourth does not matter. *)
Lemma first_page_with_extract_wins_witness :
  result (fetch Wikibooks (always 200 (Some four_pages)) "Yoga")
    = Ok (VStr "Yoga is a group of practices.").
Proof.
  apply (first_page_with_extract_wins Wikibooks (always 200 (Some four_pages)) "Yoga"
           four_pages
           [("-1", VDict [("title", VStr "Zzyzx"); ("extract", VStr "stub")]);
            ("7", VDict [("title", VStr "Yoga")]);
            ("12", VDict [("title", VStr "Yoga (practice)");
                          ("extract", VStr "Yoga is a group of practices.")]);
            ("15", VDict [("extract", VStr "Later text.")])]).
  - reflexivity.
  - reflexivity.
  - reflexivity.
  - repeat constructor; cbn; eexists; reflexivity.
  - intros _. repeat constructor; cbn; discriminate.
Defined.

End ResponseOrder.


(** ** Results that are never blank *)

Section NeverBlank.
Import Py Http Wikimedia Vocabulary Specs.
Local Open Scope res_scope.

Lemma wikipedia_never_blank (net : network) (term : string) (v : value) :
  result (get_wikipedia_summary net term) = Ok v -> truthy v = true.
Proof.
  unfold get_wikipedia_summary.
  rewrite result_try_except, result_bind, result_requests_get.
  destruct (delivers (net _)) as [[status_code body] | e];
    [ | destruct (is_RequestException e); [now intros [= <-] | discriminate]].
  destruct (status_code =? 200).
  - rewrite result_lift. unfold wikipedia_summary_200.
    destruct (response_json body) as [data | e]; cbn [rbind];
      [ | destruct (is_RequestException e); [now intros [= <-] | discriminate]].
    destruct (Py.get data "extract" (VStr "")) as [extract | e]; cbn [rbind];
      [ | destruct (is_RequestException e); [now intros [= <-] | discriminate]].
    destruct (truthy extract) eqn:Hextract; cbn [negb]; [now intros [= <-] | ].
    destruct (Py.get data "type" VNone) as [type | e]; cbn [rbind];
      [ | destruct (is_RequestException e); [now intros [= <-] | discriminate]].
    destruct (eq_str type "disambiguation"); now intros [= <-].
  - destruct (status_code =? 404); rewrite result_ret; now intros [= <-].
Qed.

Lemma rstrip_of_stripped (s : string) :
  PyStr.strip (PyStr.strip s) = PyStr.strip s.
Proof.
  unfold PyStr.strip, PyStr.strip_of at 1.
  rewrite (lstrip_of_strip_of PyStr.is_space s).
  apply rstrip_of_idempotent.
Qed.

Lemma wikiquote_pages_loop_stripped (pages : value) (page_ids : list value) (v : value) :
  wikiquote_pages_loop pages page_ids = Ok v ->
  exists s, v = VStr s /\ s <> "" /\ PyStr.strip s = s.
Proof.
  induction page_ids as [ | page_id rest IH]; cbn [wikiquote_pages_loop].
  - intros [= <-]. eexists. split; [reflexivity | split; [discriminate | reflexivity]].
  - destruct (positive_with_extract pages page_id) as [[ | ] | ]; cbn [rbind];
      [ | exact IH | discriminate].
    destruct (Py.getitem pages page_id) as [page | ]; cbn [rbind]; [ | discriminate].
    destruct (Py.getitem page (VStr "extract")) as [extract | ]; cbn [rbind];
      [ | discriminate].
    destruct extract as [ | | | | text | | ]; cbn [rbind Py.strip]; try discriminate.
    destruct (truthy (VStr (PyStr.strip text))) eqn:Hcontent; [ | exact IH].
    intros [= <-]. exists (PyStr.strip text). split; [reflexivity | split].
    + cbn [truthy] in Hcontent. intros Hempty. rewrite Hempty in Hcontent.
      discriminate Hcontent.
    + apply rstrip_of_stripped.
Qed.

Lemma wikiquote_200_stripped (body : res value) (v : value) :
  wikiquote_quotes_200 body = Ok v ->
  exists s, v = VStr s /\ s <> "" /\ PyStr.strip s = s.
Proof.
  unfold wikiquote_quotes_200.
  destruct (response_json body) as [data | ]; cbn [rbind]; [ | discriminate].
  destruct (query_pages data) as [pages | ]; cbn [rbind]; [ | discriminate].
  destruct (Py.iter pages) as [page_ids | ]; cbn [rbind]; [ | discriminate].
  apply wikiquote_pages_loop_stripped.
Qed.

Lemma wikiquote_never_blank (net : network) (term : string) (v : value) :
  result (get_wikiquote_quotes net term) = Ok v -> truthy v = true.
Proof.
  unfold get_wikiquote_quotes.
  rewrite (proj2 (single_call net _ wikiquote_quotes_200
                    (fun c => VStr ("Error retrieving quotes: HTTP " ++ PyStr.of_int c))
                    (VStr connection_error))).
  destruct (delivers (net _)) as [[status_code body] | e];
    [ | destruct (is_RequestException e); [now intros [= <-] | discriminate]].
  destruct (status_code =? 200); [ | now intros [= <-]].
  destruct (wikiquote_quotes_200 body) as [w | e] eqn:E.
  - intros [= <-]. destruct (wikiquote_200_stripped _ _ E) as (s & -> & Hs & _).
    cbn [truthy]. destruct s; [now destruct Hs | reflexivity].
  - destruct (is_RequestException e); [now intros [= <-] | discriminate].
Qed.

Lemma wikidata_entity_info_truthy (entity v : value) :
  wikidata_entity_info entity = Ok v -> truthy v = true.
Proof.
  unfold wikidata_entity_info.
  destruct (english_value entity "labels" "No label"); cbn [rbind]; [ | discriminate].
  destruct (english_value entity "descriptions" "No description"); cbn [rbind];
    [ | discriminate].
  destruct (Py.get entity "claims" (VDict [])); cbn [rbind]; [ | discriminate].
  destruct (properties_loop _ property_map []); cbn [rbind]; [ | discriminate].
  now intros [= <-].
Qed.

Lemma wikidata_never_blank (net : network) (term : string) (v : value) :
  result (get_wikidata_health_info net term) = Ok v -> truthy v = true.
Proof.
  unfold get_wikidata_health_info. rewrite result_try_except, result_bind.
  rewrite result_requests_get.
  destruct (delivers (net _)) as [[status_code body] | e];
    [ | destruct (is_RequestException e); [now intros [= <-] | discriminate]].
  destruct (status_code =? 200); [ | now intros [= <-]].
  rewrite result_bind, result_lift.
  destruct (response_json body) as [data | e];
    [ | destruct (is_RequestException e); [now intros [= <-] | discriminate]].
  rewrite result_bind, result_lift.
  destruct (Py.get data "search" (VList [])) as [search_results | e];
    [ | destruct (is_RequestException e); [now intros [= <-] | discriminate]].
  destruct (negb (truthy search_results)); [now intros [= <-] | ].
  rewrite result_bind, result_lift.
  destruct (Py.getitem search_results (VInt 0)) as [first | e];
    [ | destruct (is_RequestException e); [now intros [= <-] | discriminate]].
  rewrite result_bind, result_lift.
  destruct (Py.get first "id" VNone) as [entity_id | e];
    [ | destruct (is_RequestException e); [now intros [= <-] | discriminate]].
  rewrite result_bind, result_requests_get.
  destruct (delivers (net _)) as [[entity_status_code entity_body] | e];
    [ | destruct (is_RequestException e); [now intros [= <-] | discriminate]].
  destruct (entity_status_code =? 200); [ | now intros [= <-]].
  rewrite result_lift.
  destruct (wikidata_entity_200 entity_id entity_body) as [w | e] eqn:E;
    [ | destruct (is_RequestException e); [now intros [= <-] | discriminate]].
  intros [= <-]. revert E. unfold wikidata_entity_200.
  destruct (response_json entity_body) as [entity_data | ]; cbn [rbind];
    [ | discriminate].
  destruct (Py.get entity_data "entities" (VDict [])) as [entities | ];
    cbn [rbind]; [ | discriminate].
  destruct (Py.contains entity_id entities) as [[ | ] | ]; cbn [rbind];
    [ | now intros [= <-] | discriminate].
  destruct (Py.getitem entities entity_id) as [entity | ]; cbn [rbind];
    [ | discriminate].
  apply wikidata_entity_info_truthy.
Qed.

(** X7.  The encyclopedia, quotation and knowledge-base adapters never hand
    back a blank: whatever they return (text, message or structured result)
    is a non-empty value.  The dictionary adapter gives no such guarantee:
    it returns an empty extract as it is. *)
Theorem blank_results (src : source) (net : network) (term : string) :
  (never_blank src = true ->
   forall v, result (fetch src net term) = Ok v -> truthy v = true)
  /\ result (fetch Wiktionary (always 200 (Some blank_page)) term) = Ok (VStr "").
Proof.
  split; [ | reflexivity].
  intros Hsrc v. destruct src; try discriminate Hsrc; cbn [fetch].
  - apply wikipedia_never_blank.
  - apply wikiquote_never_blank.
  - apply wikidata_never_blank.
Qed.

Lemma blank_results_witness :
  truthy (VStr "No summary found. This topic might not have an article on Wikipedia yet.")
    = true.
Proof.
  apply (proj1 (blank_results Wikipedia
                  (always 200 (Some (VDict [("extract", VStr "")]))) "Yoga")).
  - reflexivity.
  - reflexivity.
Defined.

(** X8.  A quotation comes back stripped.  On a 200 response the text the
    quotation adapter returns is non-empty and has no whitespace at either
    end: a page whose extract is only whitespace is passed over. *)
Theorem wikiquote_text_is_stripped (net : network) (term : string)
  (body : option value) (v : value) :
  net (summary_request Wikiquote term) = Response 200 body ->
  result (get_wikiquote_quotes net term) = Ok v ->
  exists s, v = VStr s /\ s <> "" /\ PyStr.strip s = s.
Proof.
  intros Hnet. unfold get_wikiquote_quotes.
  rewrite (proj2 (single_call net _ wikiquote_quotes_200
                    (fun c => VStr ("Error retrieving quotes: HTTP " ++ PyStr.of_int c))
                    (VStr connection_error))).
  cbn [summary_request] in Hnet. rewrite Hnet. cbn [delivers decoded Z.eqb Pos.eqb].
  destruct (wikiquote_quotes_200 (decoded body)) as [w | e] eqn:E.
  - intros [= <-]. exact (wikiquote_200_stripped _ _ E).
  - destruct (is_RequestException e); [ | discriminate].
    intros [= <-]. eexists. split; [reflexivity | split; [discriminate | reflexivity]].
Qed.

Lemma wikiquote_text_is_stripped_witness :
  exists s, VStr "To be, or not to be." = VStr s /\ s <> "" /\ PyStr.strip s = s.
Proof.
  apply (wikiquote_text_is_stripped (always 200 (Some padded_quotes)) "Hamlet"
           (Some padded_quotes)).
  - reflexivity.
  - reflexivity.
Defined.

End NeverBlank.


(** ** Search hits and look-ups *)

Section Hits.
Import Py Http Wikimedia Vocabulary Specs.
Local Open Scope res_scope.




Lemma getitem_head (x : value) (l : list value) :
  Py.getitem (VList (x :: l)) (VInt 0) = Ok x.
Proof.
  cbn [Py.getitem]. unfold seq_index. cbn [Z.ltb Z.compare List.length].
  rewrite Nat2Z.inj_succ.
  destruct (0 <=? 0) eqn:E0; [ | discriminate E0].
  destruct (0 <? Z.succ (Z.of_nat (List.length l))) eqn:E1; [reflexivity | ].
  apply Z.ltb_ge in E1. lia.
Qed.

(** What the adapter does once the search has named a first hit. *)
Lemma wikidata_two_steps (net : network) (term : string)
  (data first : value) (others : list value) (entity_id : value) :
  net (entity_search term) = Response 200 (Some data) ->
  Py.get data "search" (VList []) = Ok (VList (first :: others)) ->
  Py.get first "id" VNone = Ok entity_id ->
  get_wikidata_health_info net term
    = ([entity_search term; entity_lookup entity_id],
       match delivers (net (entity_lookup entity_id)) with
       | Ok (status_code, body) =>
           if status_code =? 200
           then match wikidata_entity_200 entity_id body with
                | Ok v => Ok v
                | Raise e =>
                    if is_RequestException e then Ok (VStr connection_error)
                    else Raise e
                end
           else Ok (VStr wikidata_no_detail)
       | Raise e =>
           if is_RequestException e then Ok (VStr connection_error) else Raise e
       end).
Proof.
  intros Hnet Hsearch Hid.
  unfold entity_search, entity_lookup in *.
  unfold get_wikidata_health_info, try_except_RequestException, bind,
    requests_get, lift, ret, wikidata_url, wikidata_search_params,
    wikidata_entity_params, str_param.
  rewrite Hnet. step. rewrite Hsearch. step. cbn [truthy negb].
  rewrite getitem_head. step. rewrite Hid. step.
  destruct (delivers (net _)) as [[entity_status_code entity_body] | e]; step;
    [ | now destruct (is_RequestException e)].
  destruct (entity_status_code =? 200); step; [ | reflexivity].
  destruct (wikidata_entity_200 entity_id entity_body) as [v | e]; step;
    [reflexivity | ].
  now destruct (is_RequestException e).
Qed.

(** X10.  The first hit wins.  When the entity search answers 200 with a
    non-empty list of hits, the knowledge-base adapter issues exactly two
    requests: the search for the term and a look-up whose "ids" parameter
    is the identifier of the first hit.  Its result depends on the search
    only through that identifier: any search whose first hit has the same
    identifier, met by the same answer to the look-up, gives the same
    result, whatever the term and the later hits.  When the search finds
    nothing, there is no second request. *)
Theorem wikidata_first_hit_wins (net : network) (term : string) (data : value) :
  net (entity_search term) = Response 200 (Some data) ->
  (forall first others entity_id,
      Py.get data "search" (VList []) = Ok (VList (first :: others)) ->
      Py.get first "id" VNone = Ok entity_id ->
      calls (get_wikidata_health_info net term)
        = [entity_search term; entity_lookup entity_id]
      /\ forall net' term' data' first' others',
           net' (entity_search term') = Response 200 (Some data') ->
           Py.get data' "search" (VList []) = Ok (VList (first' :: others')) ->
           Py.get first' "id" VNone = Ok entity_id ->
           net' (entity_lookup entity_id) = net (entity_lookup entity_id) ->
           result (get_wikidata_health_info net' term')
             = result (get_wikidata_health_info net term))
  /\ (Py.get data "search" (VList []) = Ok (VList []) ->
      get_wikidata_health_info net term
        = ([entity_search term],
           Ok (VStr "No Wikidata information found for this term."))).
Proof.
  intros Hnet. split.
  - intros first others entity_id Hsearch Hid.
    rewrite (wikidata_two_steps net term data first others entity_id Hnet Hsearch Hid).
    split; [reflexivity | ].
    intros net' term' data' first' others' Hnet' Hsearch' Hid' Hsame.
    rewrite (wikidata_two_steps net' term' data' first' others' entity_id
               Hnet' Hsearch' Hid').
    cbn [result snd]. now rewrite Hsame.
  - intros Hsearch. unfold entity_search in *.
    unfold get_wikidata_health_info, try_except_RequestException, bind,
      requests_get, lift, ret, wikidata_url, wikidata_search_params, str_param.
    rewrite Hnet. step. rewrite Hsearch. reflexivity.
Qed.

(** A search with two hits looks up the first one only, and gives what the
    search with that single hit gives. *)
Lemma wikidata_first_hit_wins_witness :
  calls (get_wikidata_health_info two_hit_net "aspirin")
    = [entity_search "aspirin"; entity_lookup (VStr "Q18216")]
  /\ result (get_wikidata_health_info aspirin_net "acetylsalicylic acid")
     = result (get_wikidata_health_info two_hit_net "aspirin").
Proof.
  destruct (proj1 (wikidata_first_hit_wins two_hit_net "aspirin" two_hit_search eq_refl)
              (VDict [("id", VStr "Q18216")]) [VDict [("id", VStr "Q0")]]
              (VStr "Q18216") eq_refl eq_refl) as [Hcalls Hresult].
  split; [exact Hcalls | ].
  apply (Hresult aspirin_net "acetylsalicylic acid" aspirin_search
           (VDict [("id", VStr "Q18216"); ("label", VStr "aspirin")]) []);
    reflexivity.
Defined.

Lemma dict_set_fresh (d : list (string * value)) (k : string) (v : value) :
  ~ In k (map fst d) -> dict_set d k v = (d ++ [(k, v)])%list.
Proof.
  induction d as [ | [k' v'] d IH]; cbn [dict_set map fst In app]; [reflexivity | ].
  intros Hfresh. destruct (String.eqb k' k) eqn:E.
  - apply String.eqb_eq in E. destruct Hfresh. now left.
  - rewrite IH; [reflexivity | ]. intros H. apply Hfresh. now right.
Qed.

Lemma properties_loop_order (claims : value) (props : list (string * string)) :
  forall properties out,
    properties_loop claims props properties = Ok out ->
    NoDup (map snd props) ->
    (forall name, In name (map fst properties) -> ~ In name (map snd props)) ->
    exists added,
      map fst out = (map fst properties ++ added)%list
      /\ subsequence added (map snd props).
Proof.
  induction props as [ | [prop_id prop_name] rest IH];
    intros properties out H Hnodup Hfresh; cbn [properties_loop] in H.
  - injection H as <-. exists []. split; [now rewrite app_nil_r | constructor].
  - cbn [map snd] in Hnodup, Hfresh. apply NoDup_cons_iff in Hnodup.
    destruct Hnodup as [Hnew Hnodup].
    assert (Hrest : forall name, In name (map fst properties) ->
                                 ~ In name (map snd rest)).
    { intros name Hin Hname. apply (Hfresh name Hin). now right. }
    assert (Hskip : forall out',
               properties_loop claims rest properties = Ok out' ->
               exists added,
                 map fst out' = (map fst properties ++ added)%list
                 /\ subsequence added (prop_name :: map snd rest)).
    { intros out' H'. destruct (IH _ _ H' Hnodup Hrest) as (added & Hout & Hsub).
      exists added. split; [exact Hout | now constructor]. }
    destruct (Py.contains (VStr prop_id) claims) as [[ | ] | ]; cbn [rbind] in H;
      [ | now apply Hskip | discriminate].
    destruct (Py.getitem claims (VStr prop_id)) as [prop_claims | ];
      cbn [rbind] in H; [ | discriminate].
    destruct (Py.iter prop_claims) as [claim_list | ]; cbn [rbind] in H;
      [ | discriminate].
    destruct (claim_values_loop claim_list []) as [[ | value_id values] | ];
      cbn [rbind] in H; [now apply Hskip | | discriminate].
    rewrite dict_set_fresh in H.
    + destruct (IH _ _ H Hnodup) as (added & Hout & Hsub).
      * intros name Hin Hname. rewrite map_app in Hin. apply in_app_or in Hin.
        destruct Hin as [Hin | [<- | []]]; [exact (Hrest name Hin Hname) | ].
        exact (Hnew Hname).
      * exists (prop_name :: added). split; [ | now constructor].
        rewrite Hout, map_app. cbn [map fst]. now rewrite <- app_assoc.
    + intros Hin. apply (Hfresh prop_name Hin). now left.
Qed.

Lemma subsequence_in {A : Type} (xs ys : list A) :
  subsequence xs ys -> forall x, In x xs -> In x ys.
Proof.
  induction 1 as [ys | xs y ys _ IH | x xs ys _ IH]; intros z Hz.
  - destruct Hz.
  - right. now apply IH.
  - destruct Hz as [<- | Hz]; [now left | right; now apply IH].
Qed.

Lemma subsequence_nodup {A : Type} (xs ys : list A) :
  subsequence xs ys -> NoDup ys -> NoDup xs.
Proof.
  induction 1 as [ys | xs y ys _ IH | x xs ys Hsub IH]; intros Hnodup.
  - constructor.
  - apply IH. now apply NoDup_cons_iff in Hnodup.
  - apply NoDup_cons_iff in Hnodup. destruct Hnodup as [Hx Hys].
    constructor; [ | now apply IH].
    intros Hin. apply Hx. exact (subsequence_in _ _ Hsub _ Hin).
Qed.

Lemma property_names_nodup : NoDup property_names.
Proof.
  unfold property_names.
  repeat (constructor; [cbn; intuition discriminate | ]). constructor.
Qed.

(** X11.  The properties come in allow-list order.  In a structured result
    the keys of the "properties" mapping are a selection of the five names
    in the order of the allow-list, each at most once, whatever the order of
    the claims in the response. *)
Theorem wikidata_properties_in_order
  (net : network) (term : string) (d : list (string * value)) :
  result (get_wikidata_health_info net term) = Ok (VDict d) ->
  exists properties,
    dict_get d "properties" = Some (VDict properties)
    /\ subsequence (map fst properties) property_names
    /\ NoDup (map fst properties).
Proof.
  intros H. destruct (wikidata_result_shape _ _ _ H) as [[s Hs] | [entity Hentity]];
    [discriminate Hs | ].
  revert Hentity. unfold wikidata_entity_info.
  destruct (english_value entity "labels" "No label"); cbn [rbind]; [ | discriminate].
  destruct (english_value entity "descriptions" "No description"); cbn [rbind];
    [ | discriminate].
  destruct (Py.get entity "claims" (VDict [])) as [claims | ]; cbn [rbind];
    [ | discriminate].
  destruct (properties_loop claims property_map []) as [properties | ] eqn:Hloop;
    cbn [rbind]; [ | discriminate].
  intros [= <-]. exists properties. split; [reflexivity | ].
  destruct (properties_loop_order _ _ _ _ Hloop) as (added & Hout & Hsub).
  - exact property_names_nodup.
  - intros name [].
  - cbn [map app] in Hout. rewrite Hout. split; [exact Hsub | ].
    exact (subsequence_nodup _ _ Hsub property_names_nodup).
Qed.

Lemma wikidata_properties_in_order_witness :
  exists properties,
    dict_get [("label", VStr "aspirin"); ("description", VStr "medication");
              ("properties",
               VDict [("medical condition treated",
                       VList [VStr "Q86"; VStr "Q38933"])])] "properties"
      = Some (VDict properties)
    /\ subsequence (map fst properties) property_names
    /\ NoDup (map fst properties).
Proof.
  apply (wikidata_properties_in_order aspirin_net "aspirin").
  vm_compute. reflexivity.
Defined.

Lemma commons_titles_loop_titles (hits : list (list (string * value))) :
  forall image_titles,
    commons_titles_loop (map VDict hits) image_titles
      = Ok (image_titles ++ hit_titles hits)%list.
Proof.
  induction hits as [ | hit hits IH]; intros image_titles;
    cbn [map commons_titles_loop hit_titles].
  - now rewrite app_nil_r.
  - cbn [Py.contains rbind]. unfold dict_mem.
    destruct (dict_get hit "title") as [title | ] eqn:E; cbn [rbind Py.getitem].
    + rewrite E. cbn [rbind]. rewrite IH. now rewrite <- app_assoc.
    + apply IH.
Qed.

Lemma strings_of_map (titles : list string) :
  strings_of (map VStr titles) = Ok titles.
Proof.
  induction titles as [ | t titles IH]; cbn [map strings_of]; [reflexivity | ].
  rewrite IH. reflexivity.
Qed.

Lemma join_concat (sep : string) (l : list string) :
  PyStr.join sep l = String.concat sep l.
Proof.
  induction l as [ | x l IH]; [reflexivity | ].
  destruct l as [ | y l]; [reflexivity | ].
  change (PyStr.join sep (x :: y :: l)) with (x ++ sep ++ PyStr.join sep (y :: l)).
  change (String.concat sep (x :: y :: l))
    with (x ++ sep ++ String.concat sep (y :: l)).
  now rewrite IH.
Qed.

(** X12.  The image look-up asks for what the search found.  When the
    search answers 200 with hits that are JSON objects, the adapter's second
    request carries, in its "titles" parameter, the titles of the hits that
    have one, in response order, with "|" between them, next to the fixed
    parameters of the look-up; a search without any titled hit ends the call
    with the empty list and no second request. *)
Theorem commons_looks_up_found_titles (net : network) (term : string) (limit : value)
  (data query : value) (hits : list (list (string * value))) :
  net (image_search term limit) = Response 200 (Some data) ->
  Py.get data "query" (VDict []) = Ok query ->
  Py.get query "search" (VList []) = Ok (VList (map VDict hits)) ->
  (hit_titles hits = [] ->
   get_wikimedia_commons_images net term limit
     = ([image_search term limit], Ok (VList [])))
  /\ (forall titles,
         titles <> [] -> hit_titles hits = map VStr titles ->
         calls (get_wikimedia_commons_images net term limit)
           = [image_search term limit; image_request titles]).
Proof.
  intros Hnet Hquery Hsearch.
  assert (Htitles : commons_image_titles (Ok data) = Ok (hit_titles hits)).
  { unfold commons_image_titles. cbn [response_json rbind].
    rewrite Hquery. cbn [rbind]. rewrite Hsearch. cbn [rbind Py.iter].
    now rewrite commons_titles_loop_titles. }
  unfold image_search in *.
  split.
  - intros Hnone.
    unfold get_wikimedia_commons_images, try_except_RequestException, bind,
      requests_get, lift, ret, commons_url, commons_search_params, str_param.
    rewrite Hnet. step. rewrite Htitles, Hnone. reflexivity.
  - intros titles Hsome Hstrings.
    unfold get_wikimedia_commons_images, try_except_RequestException, bind,
      requests_get, lift, ret, calls, image_request, commons_url,
      commons_search_params, str_param.
    rewrite Hnet. step. rewrite Htitles, Hstrings.
    destruct titles as [ | title titles]; [now destruct Hsome | ].
    cbn [map]. unfold Py.join. change (VStr title :: map VStr titles)
      with (map VStr (title :: titles)).
    rewrite strings_of_map. cbn [rbind]. rewrite join_concat.
    generalize (String.concat "|" (title :: titles)). intros file_titles. step.
    destruct (delivers (net _)) as [[img_status_code img_body] | e]; step;
      [ | now destruct (is_RequestException e)].
    destruct (img_status_code =? 200); step; [ | reflexivity].
    destruct (commons_image_data img_body) as [image_data | e]; step;
      [reflexivity | ].
    now destruct (is_RequestException e).
Qed.

Lemma commons_looks_up_found_titles_witness :
  calls (get_wikimedia_commons_images three_hits_net "aspirin" (VInt 5))
    = [image_search "aspirin" (VInt 5);
       image_request ["File:Aspirin.jpg"; "File:Pills.png"]].
Proof.
  apply (proj2 (commons_looks_up_found_titles three_hits_net "aspirin" (VInt 5)
                  (VDict [("query", VDict [("search", VList (map VDict three_hits))])])
                  (VDict [("search", VList (map VDict three_hits))])
                  three_hits eq_refl eq_refl eq_refl)
           ["File:Aspirin.jpg"; "File:Pills.png"]).
  - discriminate.
  - reflexivity.
Defined.

End Hits.


(** ** Body-mass index *)

Section FloatOrder.

(** Swapping the operands of a comparison swaps its outcome. *)
Lemma SFcompare_swap (x y : spec_float) :
  SFcompare y x = option_map CompOpp (SFcompare x y).
Proof.
  destruct x as [sx | sx | | sx mx ex], y as [sy | sy | | sy my ey]; cbn;
    try reflexivity;
    try (destruct sx; reflexivity);
    try (destruct sy; reflexivity);
    try (destruct sx, sy; reflexivity).
  destruct sx, sy; cbn; try reflexivity;
    rewrite (Z.compare_antisym ex ey);
    destruct (ex ?= ey) eqn:E; cbn; try reflexivity;
    pose proof (Pos.compare_cont_antisym mx my Eq) as A; cbn in A;
    rewrite <- A; destruct (Pos.compare_cont Eq mx my); reflexivity.
Qed.

(** Two floats compare unless one of them is NaN. *)
Lemma SFcompare_defined (x y : spec_float) :
  x <> S754_nan -> y <> S754_nan -> SFcompare x y <> None.
Proof.
  destruct x as [sx | sx | | sx mx ex], y as [sy | sy | | sy my ey]; cbn;
    intros Hx Hy; try discriminate; try (now destruct Hx); now destruct Hy.
Qed.

Lemma SFcompare_left_defined (x y : spec_float) (c : comparison) :
  SFcompare x y = Some c -> x <> S754_nan.
Proof. intros H ->. discriminate H. Qed.

(** Below a positive float, below every larger one of the same exponent. *)
Lemma SFltb_same_exponent (x : spec_float) (m1 m2 : positive) (e : Z) :
  (m1 < m2)%positive ->
  SFltb x (S754_finite false m1 e) = true ->
  SFltb x (S754_finite false m2 e) = true.
Proof.
  intros Hm. unfold SFltb.
  destruct x as [sx | sx | | sx mx ex]; cbn; try (intros H; exact H).
  destruct sx; [intros H; exact H | ].
  destruct (ex ?= e); try (intros H; exact H).
  change (Pos.compare_cont Eq mx m1) with (mx ?= m1)%positive.
  change (Pos.compare_cont Eq mx m2) with (mx ?= m2)%positive.
  destruct (mx ?= m1)%positive eqn:E1; try discriminate. intros _.
  apply Pos.compare_lt_iff in E1.
  assert (E2 : (mx ?= m2)%positive = Lt)
    by (apply Pos.compare_lt_iff; exact (Pos.lt_trans _ _ _ E1 Hm)).
  now rewrite E2.
Qed.

(** If [x] compares with [y] and is not below it, [y] is below or equal to
    [x]. *)
Lemma leb_of_not_ltb (x y z : float) :
  PrimFloat.ltb x z = true -> Prim2SF y <> S754_nan ->
  PrimFloat.ltb x y = false -> PrimFloat.leb y x = true.
Proof.
  rewrite !ltb_spec, leb_spec. unfold SFltb, SFleb. intros Hz Hy.
  assert (Hx : Prim2SF x <> S754_nan).
  { destruct (SFcompare (Prim2SF x) (Prim2SF z)) as [c | ] eqn:E; [ | discriminate].
    exact (SFcompare_left_defined _ _ _ E). }
  rewrite (SFcompare_swap (Prim2SF x) (Prim2SF y)).
  pose proof (SFcompare_defined _ _ Hx Hy) as Hdef.
  destruct (SFcompare (Prim2SF x) (Prim2SF y)) as [[ | | ] | ]; cbn;
    try reflexivity; try discriminate. now destruct Hdef.
Qed.

Lemma ltb_18_5_25 (x : float) :
  PrimFloat.ltb x 18.5%float = true -> PrimFloat.ltb x 25%float = true.
Proof.
  rewrite !ltb_spec.
  change (Prim2SF 18.5%float) with (S754_finite false 5207287069147136 (-48)).
  change (Prim2SF 25%float) with (S754_finite false 7036874417766400 (-48)).
  apply SFltb_same_exponent. reflexivity.
Qed.

Lemma ltb_25_30 (x : float) :
  PrimFloat.ltb x 25%float = true -> PrimFloat.ltb x 30%float = true.
Proof.
  rewrite !ltb_spec.
  change (Prim2SF 25%float) with (S754_finite false 7036874417766400 (-48)).
  change (Prim2SF 30%float) with (S754_finite false 8444249301319680 (-48)).
  apply SFltb_same_exponent. reflexivity.
Qed.

End FloatOrder.

Section BodyMassIndex.
Import AppUtils Specs.

(** X13.  The thresholds of the categories.  A value is Underweight exactly
    when it is below 18.5, Normal weight exactly from 18.5 up to but not
    including 25, Overweight exactly from 25 up to but not including 30, and
    Obese exactly when it is not below 30, which takes in NaN as well as
    every value from 30 on.  Every value has one of the four names. *)
Theorem bmi_category_thresholds (bmi : float) :
  (bmi_category bmi = "Underweight" <-> PrimFloat.ltb bmi 18.5%float = true)
  /\ (bmi_category bmi = "Normal weight"
      <-> PrimFloat.leb 18.5%float bmi = true /\ PrimFloat.ltb bmi 25%float = true)
  /\ (bmi_category bmi = "Overweight"
      <-> PrimFloat.leb 25%float bmi = true /\ PrimFloat.ltb bmi 30%float = true)
  /\ (bmi_category bmi = "Obese" <-> PrimFloat.ltb bmi 30%float = false)
  /\ In (bmi_category bmi) bmi_categories.
Proof.
  pose proof (ltb_18_5_25 bmi) as M1. pose proof (ltb_25_30 bmi) as M2.
  pose proof (ltb_false_of_leb bmi 18.5%float) as A1.
  pose proof (ltb_false_of_leb bmi 25%float) as A2.
  assert (T1 : PrimFloat.ltb bmi 30%float = true ->
               PrimFloat.ltb bmi 18.5%float = false ->
               PrimFloat.leb 18.5%float bmi = true).
  { intros H. apply (leb_of_not_ltb bmi 18.5%float 30%float H). discriminate. }
  assert (T2 : PrimFloat.ltb bmi 30%float = true ->
               PrimFloat.ltb bmi 25%float = false ->
               PrimFloat.leb 25%float bmi = true).
  { intros H. apply (leb_of_not_ltb bmi 25%float 30%float H). discriminate. }
  unfold bmi_category, bmi_categories.
  destruct (PrimFloat.ltb bmi 18.5%float) eqn:a;
    destruct (PrimFloat.leb 18.5%float bmi) eqn:b;
    destruct (PrimFloat.ltb bmi 25%float) eqn:c;
    destruct (PrimFloat.leb 25%float bmi) eqn:d;
    destruct (PrimFloat.ltb bmi 30%float) eqn:e; cbn;
    try (specialize (M1 eq_refl); discriminate M1);
    try (specialize (M2 eq_refl); discriminate M2);
    try (specialize (A1 eq_refl); discriminate A1);
    try (specialize (A2 eq_refl); discriminate A2);
    try (specialize (T1 eq_refl eq_refl); discriminate T1);
    try (specialize (T2 eq_refl eq_refl); discriminate T2);
    repeat split; intros; try discriminate; try reflexivity;
    try (match goal with H : _ /\ _ |- _ => destruct H; discriminate end);
    tauto.
Qed.

Section AnyBuiltins.
Variable pow : float -> Z -> answer float.
Variable round : float -> Z -> float.

(** X14.  The guard of the calculator.  [calculate_bmi] answers (None, None)
    exactly when the weight or the height is zero or negative, whatever the
    unit; in every other case it either raises or returns a number with a
    category. *)
Theorem calculate_bmi_guard (weight height : float) (unit : string) :
  (calculate_bmi pow round weight height unit = Value (None, None)
   <-> PrimFloat.leb weight 0%float || PrimFloat.leb height 0%float = true)
  /\ (PrimFloat.leb weight 0%float || PrimFloat.leb height 0%float = false ->
      (exists e, calculate_bmi pow round weight height unit = Error e)
      \/ (exists bmi,
            calculate_bmi pow round weight height unit
              = Value (Some (round bmi 2), Some (bmi_category bmi)))).
Proof.
  unfold calculate_bmi.
  destruct (PrimFloat.leb weight 0%float || PrimFloat.leb height 0%float).
  - split; [now split | discriminate].
  - destruct (height_in_metres height unit) as [metres | e]; cbn [abind];
      [ | split; [split; discriminate | intros _; left; now exists e]].
    destruct (pow metres 2) as [square | e]; cbn [abind];
      [ | split; [split; discriminate | intros _; left; now exists e]].
    destruct (truediv weight square) as [bmi | e]; cbn [abind];
      [ | split; [split; discriminate | intros _; left; now exists e]].
    split; [split; discriminate | intros _; right; now exists bmi].
Qed.

(** X15.  The units of the calculator.  A unit that is neither "cm" nor
    "ft" is taken for metres without notice; and a height in centimetres
    gives what the hundredth of it gives in metres, provided the division by
    100 does not move the height across the guard. *)
Theorem calculate_bmi_units (weight height : float) (unit : string) :
  (unit <> "cm" -> unit <> "ft" ->
   calculate_bmi pow round weight height unit
     = calculate_bmi pow round weight height "m")
  /\ (PrimFloat.leb (PrimFloat.div height 100%float) 0%float
        = PrimFloat.leb height 0%float ->
      calculate_bmi pow round weight height "cm"
        = calculate_bmi pow round weight (PrimFloat.div height 100%float) "m").
Proof.
  split.
  - intros Hcm Hft. unfold calculate_bmi, height_in_metres.
    apply String.eqb_neq in Hcm. apply String.eqb_neq in Hft.
    now rewrite Hcm, Hft.
  - intros Hguard. unfold calculate_bmi, height_in_metres. cbn [String.eqb Ascii.eqb Bool.eqb].
    now rewrite Hguard.
Qed.

(** X16.  What the calculator computes.  Past the guard, with the height
    brought to metres and squared, a square that comes out as zero makes the
    call raise ZeroDivisionError, positive height or not; otherwise the
    number returned is the rounded quotient, while the category is that of
    the quotient before rounding. *)
Theorem calculate_bmi_quotient (weight height : float) (unit : string)
  (metres square : float) :
  PrimFloat.leb weight 0%float || PrimFloat.leb height 0%float = false ->
  height_in_metres height unit = Value metres ->
  pow metres 2 = Value square ->
  calculate_bmi pow round weight height unit
    = if PrimFloat.eqb square 0%float then Error ZeroDivisionError
      else Value (Some (round (PrimFloat.div weight square) 2),
                  Some (bmi_category (PrimFloat.div weight square))).
Proof.
  intros Hguard Hmetres Hsquare. unfold calculate_bmi.
  rewrite Hguard, Hmetres. cbn [abind]. rewrite Hsquare. cbn [abind].
  unfold truediv. now destruct (PrimFloat.eqb square 0%float).
Qed.

End AnyBuiltins.

Lemma calculate_bmi_units_witness :
  calculate_bmi multiplying_pow idle_round 70%float 175%float "cm"
    = calculate_bmi multiplying_pow idle_round 70%float
        (PrimFloat.div 175%float 100%float) "m"
  /\ calculate_bmi multiplying_pow idle_round 70%float 1.75%float "metres"
     = calculate_bmi multiplying_pow idle_round 70%float 1.75%float "m".
Proof.
  split.
  - apply (proj2 (calculate_bmi_units multiplying_pow idle_round 70%float 175%float "cm")).
    reflexivity.
  - apply (proj1 (calculate_bmi_units multiplying_pow idle_round 70%float 1.75%float
                    "metres")); discriminate.
Defined.

Lemma calculate_bmi_guard_witness :
  (exists e, calculate_bmi multiplying_pow idle_round 70%float 1.75%float "m" = Error e)
  \/ (exists bmi,
        calculate_bmi multiplying_pow idle_round 70%float 1.75%float "m"
          = Value (Some (idle_round bmi 2), Some (bmi_category bmi))).
Proof.
  apply (proj2 (calculate_bmi_guard multiplying_pow idle_round 70%float 1.75%float "m")).
  reflexivity.
Defined.

(** A height of 1e-200 m passes the guard, and its square is zero. *)
Lemma calculate_bmi_quotient_witness :
  calculate_bmi multiplying_pow idle_round 70%float 1e-200%float "m"
    = (if PrimFloat.eqb 0%float 0%float then Error ZeroDivisionError
       else Value (Some (idle_round (PrimFloat.div 70%float 0%float) 2),
                   Some (bmi_category (PrimFloat.div 70%float 0%float)))).
Proof.
  apply (calculate_bmi_quotient multiplying_pow idle_round 70%float 1e-200%float "m"
           1e-200%float 0%float); reflexivity.
Defined.

End BodyMassIndex.

(** ** Tips, workout plans and quiz questions *)

Section Draws.
Import AppUtils Specs.

(** [random.choice] on a sequence that is not empty returns one of its
    elements. *)
Lemma random_choice_in {A} (seq : list A) (draw : nat) :
  seq <> [] -> exists a, random_choice seq draw = Some a /\ In a seq.
Proof.
  intros Hseq. destruct seq as [ | a0 seq]; [contradiction | ].
  unfold random_choice.
  destruct (nth_error (a0 :: seq) (draw mod List.length (a0 :: seq))) as [a | ] eqn:E.
  - exists a. split; [reflexivity | now apply nth_error_In in E].
  - apply nth_error_None in E.
    pose proof (Nat.mod_upper_bound draw (List.length (a0 :: seq))) as B.
    simpl in *. lia.
Qed.





(** X19.  Quiz questions.  Whatever the draw, [generate_quiz] returns a
    question whose four options are distinct and hold the answer that is
    counted as correct. *)
Theorem quiz_answer_among_options (draw : nat) :
  exists question options answer,
    generate_quiz draw = Some (question, options, answer)
    /\ In answer options
    /\ List.length options = 4%nat
    /\ NoDup options.
Proof.
  destruct (random_choice_in questions draw) as ([[question options] answer] & Hq & Hin);
    [discriminate | ].
  exists question, options, answer. split; [exact Hq | ].
  simpl in Hin.
  repeat (destruct Hin as [[= <- <- <-] | Hin];
          [split; [simpl; tauto | split; [reflexivity | ]];
           repeat constructor; simpl; intuition discriminate | ]).
  contradiction.
Qed.

End Draws.

(** ** The guarded summary of wikifit_basic.py *)

Section GuardedSummary.
Import Py Http Wikimedia Vocabulary Specs.

Variable str : exn -> string.

(** When the encyclopedia adapter raises, and what. *)
Lemma wikipedia_raises (net : network) (term : string) (e : exn) :
  let rq := Request ("https://en.wikipedia.org/api/rest_v1/page/summary/" ++ term)
              None in
  result (Wikimedia.get_wikipedia_summary net term) = Raise e
  <-> (exists data, net rq = Response 200 (Some data)
                    /\ (forall d, data <> VDict d) /\ e = AttributeError)
      \/ (exists fault, net rq = Unparsed 200 fault /\ e = fault_exn fault).
Proof.
  cbv zeta.
  unfold Wikimedia.get_wikipedia_summary, try_except_RequestException, bind,
    requests_get, lift, ret, result, wikipedia_url.
  destruct (net _) as [ | code body | code fault]; cbn [delivers snd].
  - cbn. split; [discriminate | ].
    intros [(data & [=] & _) | (fault & [=] & _)].
  - destruct (code =? 200) eqn:Hcode.
    + apply Z.eqb_eq in Hcode. subst code.
      destruct body as [data | ]; cbn [decoded].
      * unfold wikipedia_summary_200, response_json. cbn [rbind].
        destruct data as [ | b | n | f | s | l | d]; cbn [Py.get rbind snd];
          try (split;
               [ intros [= <-]; left; eexists;
                 split; [reflexivity | split; [discriminate | reflexivity]]
               | intros [(data & [= <-] & _ & ->) | (fault & [=] & _)]; reflexivity ]).
        split.
        -- destruct (negb _); [destruct (eq_str _ _) | ]; discriminate.
        -- intros [(data & [= <-] & Hd & _) | (fault & [=] & _)]. now destruct (Hd d).
      * cbn. split; [discriminate | ].
        intros [(data & [=] & _) | (fault & [=] & _)].
    + destruct (code =? 404); cbn; (split; [discriminate | ]);
        intros [(data & [= -> _] & _) | (fault & [=] & _)]; discriminate.
  - destruct (code =? 200) eqn:Hcode.
    + apply Z.eqb_eq in Hcode. subst code.
      destruct fault; cbn;
        (split;
         [ intros [= <-]; right; eexists; split; reflexivity
         | intros [(data & [=] & _) | (fault' & [= <-] & ->)]; reflexivity ]).
    + destruct (code =? 404); cbn; (split; [discriminate | ]);
        intros [(data & [=] & _) | (fault' & [= -> _] & _)]; discriminate.
Qed.

(** X20.  The error box of the basic page.  The guarded
    [get_wikipedia_summary] issues the one request of the adapter and always
    returns.  Its own handler runs exactly when the server answers 200 and
    either the decoded body is not a JSON object or the decoder faults on
    the body (ValueError, RecursionError): then, and only then, an error
    box with the text of the exception is shown and the text returned is
    the wrapper's connection message.  A connection that fails never gets
    there: the adapter has already turned it into its own message, which is
    passed on without an error box. *)
Theorem basic_summary_error_box (net : network) (term : string) :
  let r := WikifitBasic.get_wikipedia_summary str net term in
  let rq := Request ("https://en.wikipedia.org/api/rest_v1/page/summary/" ++ term)
              None in
  WikifitBasic.requests r = [rq]
  /\ (WikifitBasic.errors r <> []
      <-> (exists data, net rq = Response 200 (Some data)
                        /\ forall d, data <> VDict d)
          \/ (exists fault, net rq = Unparsed 200 fault))
  /\ (forall data,
         net rq = Response 200 (Some data) -> (forall d, data <> VDict d) ->
         WikifitBasic.errors r = ["Request error: " ++ str AttributeError]
         /\ WikifitBasic.returned r
            = VStr "Connection error. Please try again later.")
  /\ (forall fault,
         net rq = Unparsed 200 fault ->
         WikifitBasic.errors r = ["Request error: " ++ str (fault_exn fault)]
         /\ WikifitBasic.returned r
            = VStr "Connection error. Please try again later.")
  /\ (WikifitBasic.errors r = [] ->
      result (Wikimedia.get_wikipedia_summary net term)
        = Ok (WikifitBasic.returned r))
  /\ (net rq = Unreachable ->
      WikifitBasic.errors r = []
      /\ WikifitBasic.returned r
         = VStr "Connection error. Please check your internet connection and try again later.").
Proof.
  cbv zeta.
  pose proof (one_step_calls Wikipedia net term eq_refl) as Hcalls.
  cbn [fetch first_request summary_request] in Hcalls.
  unfold wikipedia_url, calls in Hcalls.
  pose proof (wikipedia_raises net term) as Hraises. cbv zeta in Hraises.
  unfold WikifitBasic.get_wikipedia_summary.
  unfold result in *.
  destruct (Wikimedia.get_wikipedia_summary net term) as [issued [v | e]] eqn:Hrun;
    cbn [fst snd] in *; subst issued;
    cbn [WikifitBasic.requests WikifitBasic.errors WikifitBasic.returned].
  - split; [reflexivity | split; [ | split; [ | split; [ | split]]]].
    + split; [intros H; now destruct H | ].
      intros [(data & Hdata & Hd) | (fault & Hfault)]; exfalso.
      * assert (H : Ok v = Raise AttributeError) by (apply Hraises; left; eauto).
        discriminate H.
      * assert (H : Ok v = Raise (fault_exn fault)) by (apply Hraises; right; eauto).
        discriminate H.
    + intros data Hdata Hd. exfalso.
      assert (H : Ok v = Raise AttributeError) by (apply Hraises; left; eauto).
      discriminate H.
    + intros fault Hfault. exfalso.
      assert (H : Ok v = Raise (fault_exn fault)) by (apply Hraises; right; eauto).
      discriminate H.
    + reflexivity.
    + intros Hnet. split; [reflexivity | ].
      revert Hrun.
      unfold Wikimedia.get_wikipedia_summary, try_except_RequestException, bind,
        requests_get, lift, ret, wikipedia_url.
      rewrite Hnet. cbn. now intros [= <-].
  - destruct (proj1 (Hraises e) eq_refl)
      as [(data & Hdata & Hd & ->) | (fault & Hfault & ->)].
    + split; [reflexivity | split; [ | split; [ | split; [ | split]]]].
      * split; [intros _; left; eauto | discriminate].
      * intros _ _ _. now split.
      * intros fault Hfault. rewrite Hdata in Hfault. discriminate.
      * discriminate.
      * intros Hnet. rewrite Hdata in Hnet. discriminate.
    + split; [reflexivity | split; [ | split; [ | split; [ | split]]]].
      * split; [intros _; right; eauto | discriminate].
      * intros data Hdata. rewrite Hfault in Hdata. discriminate.
      * intros fault' Hfault'. rewrite Hfault in Hfault'. injection Hfault' as <-.
        now split.
      * discriminate.
      * intros Hnet. rewrite Hfault in Hnet. discriminate.
Qed.

End GuardedSummary.

(** ** The bookkeeping of a run *)

Section Bookkeeping.
Import Session Specs.

Lemma mem_string_In (d : string) (history : list string) :
  Py.mem_string d history = true <-> In d history.
Proof.
  induction history as [ | d' history IH]; simpl; [split; [discriminate | tauto] | ].
  rewrite Bool.orb_true_iff, IH, String.eqb_eq. tauto.
Qed.

Lemma record_date_in (history : list string) (d : string) :
  In d (record_date history d).
Proof.
  unfold record_date. destruct (Py.mem_string d history) eqn:E.
  - now apply mem_string_In.
  - apply in_or_app. right. now left.
Qed.

Lemma record_date_incl (history : list string) (d d' : string) :
  In d' history -> In d' (record_date history d).
Proof.
  unfold record_date. destruct (Py.mem_string d history); [tauto | ].
  intros H. apply in_or_app. now left.
Qed.

Lemma record_date_known (history : list string) (d : string) :
  In d history -> record_date history d = history.
Proof.
  intros H. apply mem_string_In in H. unfold record_date. now rewrite H.
Qed.

Lemma record_date_nodup (history : list string) (d : string) :
  NoDup history -> NoDup (record_date history d).
Proof.
  intros H. unfold record_date. destruct (Py.mem_string d history) eqn:E; [exact H | ].
  assert (~ In d history) as Hnot.
  { intros Hin. apply mem_string_In in Hin. congruence. }
  clear E. induction H as [ | d' history Hd' H IH]; simpl.
  - constructor; [tauto | constructor].
  - constructor.
    + intros Hin. apply in_app_or in Hin. destruct Hin as [Hin | [<- | []]].
      * contradiction.
      * apply Hnot. now left.
    + apply IH. intros Hin. apply Hnot. now right.
Qed.

(** What [record_date] adds: nothing, or the date at the end. *)
Lemma record_date_added (history : list string) (d : string) :
  exists added,
    record_date history d = (history ++ added)%list
    /\ (added = [] \/ (added = [d] /\ ~ In d history)).
Proof.
  unfold record_date. destruct (Py.mem_string d history) eqn:E.
  - exists []. split; [now rewrite app_nil_r | now left].
  - exists [d]. split; [reflexivity | right; split; [reflexivity | ]].
    intros Hin. apply mem_string_In in Hin. congruence.
Qed.

Lemma differs_false (last : option string) (d : string) :
  differs last d = false <-> last = Some d.
Proof.
  destruct last as [d' | ]; simpl; [ | split; discriminate].
  rewrite Bool.negb_false_iff, String.eqb_eq. split; congruence.
Qed.

(** The state a run leaves: four keys set, the first date in the history,
    the second as the last visit. *)
Lemma bookkeeping_records_state (s : session_state) (now : clock) :
  exists h w q,
    fst (bookkeeping s now)
      = SessionState (Some h) (Some w) (Some q) (Some (Some (second_date now)))
    /\ In (first_date now) h.
Proof.
  unfold bookkeeping. fold (history_of s).
  destruct (differs _ (second_date now)) eqn:Hd; cbn [fst].
  - do 3 eexists. split; [reflexivity | ].
    apply record_date_incl, record_date_in.
  - apply differs_false in Hd. rewrite Hd.
    do 3 eexists. split; [reflexivity | apply record_date_in].
Qed.

(** X21.  What a run records.  After the bookkeeping all four keys of the
    session are set; the earlier history is kept as a prefix and at most the
    two dates read during the run are appended, each only if it was not
    there; the first date read is in the history; [last_visit] is the second
    date read; and the two counters keep their values, starting from 0. *)
Theorem bookkeeping_records_visit (s : session_state) (now : clock) :
  let s' := fst (bookkeeping s now) in
  (exists added,
      visit_history s' = Some (history_of s ++ added)%list
      /\ (List.length added <= 2)%nat
      /\ NoDup added
      /\ forall d, In d added ->
           (d = first_date now \/ d = second_date now) /\ ~ In d (history_of s))
  /\ In (first_date now) (history_of s')
  /\ last_visit s' = Some (Some (second_date now))
  /\ workout_completed s'
       = Some (match workout_completed s with Some n => n | None => 0 end)
  /\ quiz_score s' = Some (match quiz_score s with Some n => n | None => 0 end).
Proof.
  cbv zeta. unfold bookkeeping. fold (history_of s).
  destruct (record_date_added (history_of s) (first_date now)) as (a1 & E1 & H1).
  pose proof (record_date_in (history_of s) (first_date now)) as Hfirst.
  destruct (differs _ (second_date now)) eqn:Hd; cbn [fst visit_history last_visit
    workout_completed quiz_score history_of].
  - split; [ | split; [now apply record_date_incl | repeat split]].
    destruct (record_date_added (record_date (history_of s) (first_date now))
                (second_date now)) as (a2 & E2 & H2).
    exists (a1 ++ a2)%list. rewrite E2, E1, <- app_assoc.
    split; [reflexivity | ].
    destruct H1 as [-> | [-> N1]], H2 as [-> | [-> N2]]; simpl;
      (split; [lia | split; [repeat constructor; simpl; try tauto | ]]).
    + intros d [].
    + intros d [<- | []]. split; [now right | ].
      intros Hin. apply N2. rewrite E1, app_nil_r. exact Hin.
    + intros d [<- | []]. split; [now left | exact N1].
    + intros [E | []]. apply N2. rewrite E1. apply in_or_app. right. now left.
    + intros d [<- | [<- | []]].
      * split; [now left | exact N1].
      * split; [now right | ]. intros Hin. apply N2. rewrite E1.
        apply in_or_app. now left.
  - apply differs_false in Hd.
    split; [ | split; [exact Hfirst | split; [ | split; reflexivity]]].
    + exists a1. split; [now rewrite E1 | ].
      destruct H1 as [-> | [-> N1]]; simpl;
        (split; [lia | split; [repeat constructor; simpl; tauto | ]]).
      * intros d [].
      * intros d [<- | []]. split; [now left | exact N1].
    + now rewrite Hd.
Qed.

(** X22.  Consistent sessions.  A session whose history holds each date
    once and holds the date of the last visit is left so by a run; the
    session before the first run is one. *)
Theorem bookkeeping_keeps_consistent (s : session_state) (now : clock) :
  consistent s ->
  consistent (fst (bookkeeping s now)) /\ consistent fresh_session.
Proof.
  intros [Hnodup Hlast]. split; [ | split; [constructor | discriminate]].
  unfold bookkeeping. fold (history_of s).
  destruct (differs _ (second_date now)) eqn:Hd; unfold consistent;
    cbn [fst visit_history last_visit history_of].
  - split; [now do 2 apply record_date_nodup | ].
    intros d [= <-]. apply record_date_in.
  - split; [now apply record_date_nodup | ].
    intros d [= E]. apply record_date_incl. apply Hlast.
    destruct (last_visit s) as [l | ]; [now rewrite E | discriminate].
Qed.

Lemma bookkeeping_keeps_consistent_witness :
  consistent (fst (bookkeeping returning_session across_midnight))
  /\ consistent fresh_session.
Proof.
  apply (bookkeeping_keeps_consistent returning_session across_midnight).
  split.
  - repeat constructor; simpl; intuition discriminate.
  - intros d [= <-]. simpl. tauto.
Defined.

(** X23.  Running again.  A second run with the same readings of the clock
    finds nothing to do: the session is left as the first run left it, the
    new-day message is not shown again, and the sidebar shows the streak
    line with the number of dates in the history, today's included.  The
    first run shows the new-day message exactly when [last_visit] was not
    already the date read, and no streak line when the history was empty. *)
Theorem bookkeeping_rerun (s : session_state) (now : clock) :
  let s' := fst (bookkeeping s now) in
  bookkeeping s' now
    = (s', (sidebar_top now ++ [streak_line (List.length (history_of s'))])%list)
  /\ (In new_day_message (snd (bookkeeping s now))
      <-> last_visit s <> Some (Some (second_date now)))
  /\ (history_of s = [] ->
      forall n, ~ In (streak_line n) (snd (bookkeeping s now))).
Proof.
  cbv zeta. split; [ | split].
  - destruct (bookkeeping_records_state s now) as (h & w & q & E & Hin).
    rewrite E. cbn [fst]. unfold bookkeeping at 1.
    cbn [visit_history last_visit workout_completed quiz_score history_of].
    rewrite (record_date_known h (first_date now) Hin).
    replace (differs (Some (second_date now)) (second_date now)) with false
      by (symmetry; now apply differs_false).
    destruct h as [ | d h]; [contradiction | ].
    reflexivity.
  - unfold bookkeeping.
    destruct (differs _ (second_date now)) eqn:Hd; cbn [snd].
    + split.
      * intros _ E. rewrite E in Hd.
        assert (differs (Some (second_date now)) (second_date now) = false) as F
          by now apply differs_false.
        congruence.
      * intros _. apply in_or_app. right. now left.
    + apply differs_false in Hd. split.
      * intros Hin. exfalso. apply in_app_or in Hin.
        destruct Hin as [Hin | Hin].
        -- simpl in Hin. intuition discriminate.
        -- destruct (0 <? _)%nat; simpl in Hin; intuition discriminate.
      * intros Hne. exfalso. apply Hne.
        destruct (last_visit s) as [l | ]; [now rewrite Hd | discriminate].
  - intros Hempty n. unfold bookkeeping. fold (history_of s). rewrite Hempty.
    cbn [List.length Nat.ltb Nat.leb].
    destruct (differs _ (second_date now)); cbn [snd]; simpl;
      unfold streak_line, new_day_message; intuition discriminate.
Qed.

End Bookkeeping.

(** ** The answer extractor off the beaten path *)

Section AnswerFallbacks.
Import App Vocabulary Specs.



End AnswerFallbacks.
